(** * Certificates-Verification: certificate-ID codec, validator,
      verification service, admin revoke and login lockout

    A shallow embedding of the parts of the repository that carry logic:

    - [certificates/script.js]: [parseCertificateId], [validateCertificateId];
    - [models/Certificate.js]: [verify], [revoke], [trackIP], the pre-save
      hook, [findByCertificateId];
    - [models/Admin.js]: [isLocked], [recordFailedLogin],
      [recordSuccessfulLogin]; [models/AuditLog.js];
    - [middleware/auth.js], [middleware/validation.js]:
      [authorizePermission], [generateToken], [handleValidationErrors];
    - the routers: [GET /api/certificates/verify/:certificateId],
      [GET /api/certificates/check/:certificateId],
      [POST /api/admin/certificates/:id/revoke] and [POST /api/auth/login].

    Strings are Rocq strings, one character per code unit; the model
    covers input in the ASCII range (there [trim] strips TAB, LF, VT, FF,
    CR and SPACE, and [toUpperCase] maps [a-z] to [A-Z]).  Dates are
    milliseconds since the epoch, in [Z]; every [new Date()] of one
    request reads the same instant, the parameter [now].  JavaScript
    numbers are modelled in [Z], with [NaN] as [None] where [parseInt]
    can produce it: the counters and lengths of this code stay small,
    and where a request supplies the number (the page of the admin
    list) the model follows safe integers and leaves the rest open.
    The database is the three collections as lists of documents; a
    handler is a function from the database to an answer and the
    database it leaves, and database calls are taken to succeed unless
    the model says they throw.  [save] of a certificate is modelled
    with what Mongoose does around the update: the validators of the
    schema, then the hooks, then one update that carries the modified
    paths and the operation on the IP list, filtered by the version key
    [__v] when that operation needs it. *)

From Stdlib Require Import String Ascii List ZArith Lia Bool DecimalString.
From Stdlib Require Import Permutation Sorted.
Import ListNotations.
Local Open Scope string_scope.
Local Open Scope Z_scope.

(** ** JavaScript string primitives used by the code *)

Module Js.

(** [\d] of a JavaScript regular expression: the ten ASCII digits. *)
Definition isDigit (c : ascii) : bool :=
  ((48 <=? nat_of_ascii c) && (nat_of_ascii c <=? 57))%nat.

Fixpoint allDigits (s : string) : bool :=
  match s with
  | EmptyString => true
  | String c r => isDigit c && allDigits r
  end.

(** [/^\d{7}$/.test(s)] (no [m] flag: [$] only matches at the very end). *)
Definition test_7digits (s : string) : bool :=
  (String.length s =? 7)%nat && allDigits s.

(** White space stripped by [String.prototype.trim] and matched by [\s],
    within ASCII: TAB, LF, VT, FF, CR and SPACE. *)
Definition isWhiteSpace (c : ascii) : bool :=
  let n := nat_of_ascii c in
  ((9 <=? n) && (n <=? 13) || (n =? 32))%nat.

Fixpoint trimStart (s : string) : string :=
  match s with
  | EmptyString => EmptyString
  | String c r => if isWhiteSpace c then trimStart r else s
  end.

(** [trimEnd] keeps a character when it is not white space or when
    something remains after it once the tail is trimmed. *)
Fixpoint trimEnd (s : string) : string :=
  match s with
  | EmptyString => EmptyString
  | String c r =>
      match trimEnd r with
      | EmptyString => if isWhiteSpace c then EmptyString else String c EmptyString
      | r' => String c r'
      end
  end.

Definition trim (s : string) : string := trimEnd (trimStart s).

Definition upperChar (c : ascii) : ascii :=
  let n := nat_of_ascii c in
  if ((97 <=? n) && (n <=? 122))%nat then ascii_of_nat (n - 32) else c.

Definition lowerChar (c : ascii) : ascii :=
  let n := nat_of_ascii c in
  if ((65 <=? n) && (n <=? 90))%nat then ascii_of_nat (n + 32) else c.

Fixpoint mapChars (f : ascii -> ascii) (s : string) : string :=
  match s with
  | EmptyString => EmptyString
  | String c r => String (f c) (mapChars f r)
  end.

Definition toUpperCase : string -> string := mapChars upperChar.
Definition toLowerCase : string -> string := mapChars lowerChar.

(** [s.substring(i, j)]: both indices are clamped to the length and
    swapped when [i > j]. *)
Definition substring (s : string) (i j : nat) : string :=
  let n := String.length s in
  let i' := Nat.min i n in
  let j' := Nat.min j n in
  String.substring (Nat.min i' j') (Nat.max i' j' - Nat.min i' j') s.

(** [s.replace(/^0+/, '')]. *)
Fixpoint dropLeadingZeros (s : string) : string :=
  match s with
  | String "0"%char r => dropLeadingZeros r
  | _ => s
  end.

(** Value of a character as a digit in the given radix (10 or 16). *)
Definition digitValue (radix : Z) (c : ascii) : option Z :=
  let n := Z.of_nat (nat_of_ascii c) in
  let v :=
    if (48 <=? n) && (n <=? 57) then Some (n - 48)
    else if (97 <=? n) && (n <=? 122) then Some (n - 87)
    else if (65 <=? n) && (n <=? 90) then Some (n - 55)
    else None in
  match v with
  | Some d => if d <? radix then Some d else None
  | None => None
  end.

(** The longest prefix of radix digits, most significant first. *)
Fixpoint digitPrefix (radix : Z) (s : string) : list Z :=
  match s with
  | EmptyString => []
  | String c r =>
      match digitValue radix c with
      | Some d => d :: digitPrefix radix r
      | None => []
      end
  end.

Definition digitsValue (radix : Z) (ds : list Z) : Z :=
  fold_left (fun acc d => acc * radix + d) ds 0.

(** [parseInt(s)] without a radix: leading white space is skipped, a sign
    is read, a [0x]/[0X] prefix selects radix 16, then the longest digit
    prefix is converted; [None] is [NaN]. *)
Definition parseInt (s : string) : option Z :=
  let s1 := trimStart s in
  let '(sign, s2) :=
    match s1 with
    | String "-"%char r => (-1, r)
    | String "+"%char r => (1, r)
    | _ => (1, s1)
    end in
  let '(radix, s3) :=
    match s2 with
    | String "0"%char (String "x"%char r) => (16, r)
    | String "0"%char (String "X"%char r) => (16, r)
    | _ => (10, s2)
    end in
  match digitPrefix radix s3 with
  | [] => None
  | ds => Some (sign * digitsValue radix ds)
  end.

(** [a < b] and [a > b] on numbers: every comparison with [NaN] is false. *)
Definition lt (a : option Z) (b : Z) : bool :=
  match a with Some x => x <? b | None => false end.

Definition gt (a : option Z) (b : Z) : bool :=
  match a with Some x => b <? x | None => false end.

End Js.

(** ** The certificate-ID codec and validator ([certificates/script.js]) *)

Module Codec.

Record ParsedId := {
  id : string;
  year : string;
  subProgram : string;
  serial : string;
  serialDisplay : string
}.

(** [parseCertificateId]; [None] is the [null] result. *)
Definition parseCertificateId (id : string) : option ParsedId :=
  if negb (Js.test_7digits id) then None
  else
    let year := "20" ++ Js.substring id 0 2 in
    let subProgram := Js.substring id 2 4 in
    let serial := Js.substring id 4 7 in
    Some {| id := id;
            year := year;
            subProgram := subProgram;
            serial := serial;
            serialDisplay :=
              match Js.dropLeadingZeros serial with
              | EmptyString => "0"
              | d => d
              end |}.

Inductive Validation :=
| Valid (parsed : ParsedId)
| Invalid (error : string).

Definition InvalidFormat : string := "Certificate ID must be 7 digits (Format: YYSSCCC)".
Definition InvalidYear : string := "Invalid year in certificate ID".
Definition InvalidSubProgram : string := "Invalid sub-program code".
Definition InvalidSerial : string := "Invalid serial number".

(** [validateCertificateId].  [parsed] cannot be [null] after the format
    check; reading a field of [null] would throw, which the [None] branch
    records as [None]. *)
Definition validateCertificateId (id : string) : option Validation :=
  let id := Js.toUpperCase (Js.trim id) in
  if negb (Js.test_7digits id) then Some (Invalid InvalidFormat)
  else
    match parseCertificateId id with
    | None => None
    | Some parsed =>
        let yearNum := Js.parseInt (Js.substring (year parsed) 2 (String.length (year parsed))) in
        if Js.lt yearNum 20 || Js.gt yearNum 99 then Some (Invalid InvalidYear)
        else
          let subProgNum := Js.parseInt (subProgram parsed) in
          if Js.lt subProgNum 0 || Js.gt subProgNum 99 then Some (Invalid InvalidSubProgram)
          else
            let serialNum := Js.parseInt (serial parsed) in
            if Js.lt serialNum 1 || Js.gt serialNum 9999 then Some (Invalid InvalidSerial)
            else Some (Valid parsed)
    end.

(** Integer denoted by a string of decimal digits. *)
Fixpoint decimalValueFrom (acc : Z) (s : string) : Z :=
  match s with
  | EmptyString => acc
  | String c r => decimalValueFrom (10 * acc + (Z.of_nat (nat_of_ascii c) - 48)) r
  end.

Definition decimalValue (s : string) : Z := decimalValueFrom 0 s.

End Codec.

(** ** Values exchanged with the outside: JSON, requests, responses *)

(** Plain JavaScript values as they are put into response bodies and into
    the free-form [details] of an audit entry.  A key whose value is
    [JUndefined] is dropped when the body is serialised. *)
#[warnings="-register-all"]
Inductive json :=
| JUndefined
| JNull
| JBool (b : bool)
| JNum (n : Z)
| JStr (s : string)
| JDate (t : Z)
| JArr (items : list json)
| JObj (fields : list (string * json)).

Definition jOpt {A} (f : A -> json) (absent : json) (o : option A) : json :=
  match o with Some a => f a | None => absent end.

Definition keys (j : json) : list string :=
  match j with JObj fields => map fst fields | _ => [] end.

Fixpoint assoc (k : string) (fields : list (string * json)) : option json :=
  match fields with
  | [] => None
  | (k', v) :: r => if String.eqb k k' then Some v else assoc k r
  end.

(** [j.k] for an object [j]. *)
Definition field (k : string) (j : json) : option json :=
  match j with JObj fields => assoc k fields | _ => None end.

(** [res.status(statusCode).json(body)]; [res.json] alone uses 200. *)
Record Response := { statusCode : Z; body : json }.

(** The decimal numeral of a number, as string concatenation produces it. *)
Definition numberToString (n : Z) : string := NilZero.string_of_int (Z.to_int n).

(** Primitives of the libraries the code calls (crypto, bcryptjs,
    jsonwebtoken, the ObjectId cast of the driver) and the process
    environment; the development is parametric in them. *)
Record Primitives := {
  sha256_hex : string -> string;
  bcrypt_compare : string -> string -> bool;
  jwt_sign : json -> string -> string -> string;
  objectId_isValid : string -> bool;
  JWT_SECRET : string
}.

(** [throw new Error(message)] against a normal return. *)
Inductive Completion (A : Type) :=
| Normal (a : A)
| Throw (message : string).
Arguments Normal {A} a.
Arguments Throw {A} message.

(** ** [models/Certificate.js]: schema, virtuals and in-memory methods *)

Module certificateSchema.

Record IpEntry := { ip : string; verifiedAt : Z }.

Record doc := {
  _id : string;
  certificateId : string;
  recipientName : string;
  recipientEmail : string;
  program : string;
  programCategory : string;
  awardDate : Z;
  verificationHash : string;
  isVerified : bool;
  verificationCount : Z;
  lastVerifiedAt : option Z;
  issuedBy : string;
  certificateUrl : option string;
  revokedAt : option Z;
  revocationReason : option string;
  isRevoked : bool;
  notes : option string;
  ipAddresses : list IpEntry;
  createdBy : option string;
  updatedBy : option string;
  createdAt : Z;
  updatedAt : Z;
  __v : Z
}.

(** Virtuals. *)
Definition year (this : doc) : string := "20" ++ Js.substring (certificateId this) 0 2.
Definition serialNumber (this : doc) : string := Js.substring (certificateId this) 4 7.

(** [methods.verify]; the document is returned as the method leaves it. *)
Definition verify (now : Z) (this : doc) : Completion doc :=
  if isRevoked this then Throw "Certificate has been revoked"
  else if negb (isVerified this) then Throw "Certificate is not valid"
  else Normal
    {| _id := _id this; certificateId := certificateId this;
       recipientName := recipientName this; recipientEmail := recipientEmail this;
       program := program this; programCategory := programCategory this;
       awardDate := awardDate this; verificationHash := verificationHash this;
       isVerified := isVerified this;
       verificationCount := verificationCount this + 1;
       lastVerifiedAt := Some now;
       issuedBy := issuedBy this; certificateUrl := certificateUrl this;
       revokedAt := revokedAt this; revocationReason := revocationReason this;
       isRevoked := isRevoked this; notes := notes this;
       ipAddresses := ipAddresses this;
       createdBy := createdBy this; updatedBy := updatedBy this;
       createdAt := createdAt this; updatedAt := updatedAt this;
       __v := __v this |}.

(** [existingIP.verifiedAt = new Date()] on the entry [find] returned, the
    first one with this address. *)
Fixpoint touchFirst (now : Z) (addr : string) (l : list IpEntry) : list IpEntry :=
  match l with
  | [] => []
  | e :: r =>
      if String.eqb (ip e) addr then {| ip := ip e; verifiedAt := now |} :: r
      else e :: touchFirst now addr r
  end.

Definition trackedIPs (now : Z) (addr : string) (l : list IpEntry) : list IpEntry :=
  match find (fun entry => String.eqb (ip entry) addr) l with
  | None =>
      let l := if (10 <=? length l)%nat then tl l else l in
      l ++ [{| ip := addr; verifiedAt := now |}]
  | Some _ => touchFirst now addr l
  end.

(** [methods.trackIP]. *)
Definition trackIP (now : Z) (addr : string) (this : doc) : doc :=
  {| _id := _id this; certificateId := certificateId this;
     recipientName := recipientName this; recipientEmail := recipientEmail this;
     program := program this; programCategory := programCategory this;
     awardDate := awardDate this; verificationHash := verificationHash this;
     isVerified := isVerified this;
     verificationCount := verificationCount this;
     lastVerifiedAt := lastVerifiedAt this;
     issuedBy := issuedBy this; certificateUrl := certificateUrl this;
     revokedAt := revokedAt this; revocationReason := revocationReason this;
     isRevoked := isRevoked this; notes := notes this;
     ipAddresses := trackedIPs now addr (ipAddresses this);
     createdBy := createdBy this; updatedBy := updatedBy this;
     createdAt := createdAt this; updatedAt := updatedAt this;
       __v := __v this |}.

(** *** What a change of [ipAddresses] registers for the next [save]

    Mongoose sends an array change as an operation of its own: a [push]
    alone as [$push]; a [shift] (here followed by a [push]) as [$set] of
    the whole array; an assignment to a field of an element as [$set] of
    that position.  An assignment of the value the field already has
    registers nothing. *)
Inductive ArrayOp :=
| Untouched
| Push (entry : IpEntry)
| SetArray (entries : list IpEntry)
| SetElement (index : nat) (at_ : Z).

(** The position and the entry [find] returns. *)
Fixpoint indexOfIP (addr : string) (l : list IpEntry) : option (nat * IpEntry) :=
  match l with
  | [] => None
  | e :: r =>
      if String.eqb (ip e) addr then Some (O, e)
      else match indexOfIP addr r with
           | Some (i, x) => Some (S i, x)
           | None => None
           end
  end.

(** What [methods.trackIP] registers on a document loaded with the IP
    list [l]. *)
Definition trackedAtomics (now : Z) (addr : string) (l : list IpEntry) : ArrayOp :=
  match indexOfIP addr l with
  | None =>
      if (10 <=? length l)%nat then SetArray (trackedIPs now addr l)
      else Push {| ip := addr; verifiedAt := now |}
  | Some (i, e) => if verifiedAt e =? now then Untouched else SetElement i now
  end.

Fixpoint setVerifiedAt (i : nat) (t : Z) (l : list IpEntry) : list IpEntry :=
  match l, i with
  | [], _ => []
  | e :: r, O => {| ip := ip e; verifiedAt := t |} :: r
  | e :: r, S i => e :: setVerifiedAt i t r
  end.

(** The stored array after the operation.  A position is only written
    under the version check of [save], so it is one of the stored
    array. *)
Definition applyAtomics (op : ArrayOp) (storedIPs : list IpEntry) : list IpEntry :=
  match op with
  | Untouched => storedIPs
  | Push e => storedIPs ++ [e]
  | SetArray entries => entries
  | SetElement i t => setVerifiedAt i t storedIPs
  end.

(** Which operations put the version key [__v] into the filter of the
    update (those that rely on positions: [$set] of the array or of a
    position) and which increment it (those that change positions:
    [$push] and [$set] of the array). *)
Definition versionWhere (op : ArrayOp) : bool :=
  match op with
  | SetArray _ | SetElement _ _ => true
  | Untouched | Push _ => false
  end.

Definition versionInc (op : ArrayOp) : bool :=
  match op with
  | Push _ | SetArray _ => true
  | Untouched | SetElement _ _ => false
  end.

(** *** The validators of the schema

    [save] validates the document before the [pre('save')] hook runs.
    [required] rejects an absent or empty string; the other validators
    of a string pass on an empty one. *)
Definition required (s : string) : bool := negb (String.eqb s "").

Definition programEnum : list string :=
  ["Web Development"; "Mobile Development"; "Machine Learning";
   "Algorithms & Data Structures"; "Programming Fundamentals";
   "Full Stack Development"; "Cloud Computing"; "Cybersecurity"; "Other"].

Definition programCategoryEnum : list string := ["00"; "01"; "02"; "03"].

(** [\w]. *)
Definition isWordChar (c : ascii) : bool :=
  let n := nat_of_ascii c in
  ((48 <=? n) && (n <=? 57) || (65 <=? n) && (n <=? 90)
   || (97 <=? n) && (n <=? 122) || (n =? 95))%nat.

Fixpoint allWordChars (s : string) : bool :=
  match s with
  | EmptyString => true
  | String c r => isWordChar c && allWordChars r
  end.

(** The strings [\w+([.-]?\w+)*] matches in full: runs of word
    characters separated by single dots or hyphens.  [afterWord] tells
    whether the character before was a word character. *)
Fixpoint wordRuns (afterWord : bool) (s : string) : bool :=
  match s with
  | EmptyString => afterWord
  | String c r =>
      if isWordChar c then wordRuns true r
      else if (Ascii.eqb c "." || Ascii.eqb c "-") && afterWord then wordRuns false r
      else false
  end.

(** [s] cut at the first and at the last occurrence of [sep]. *)
Fixpoint splitAtFirst (sep : ascii) (s : string) : option (string * string) :=
  match s with
  | EmptyString => None
  | String c r =>
      if Ascii.eqb c sep then Some (EmptyString, r)
      else match splitAtFirst sep r with
           | Some (a, b) => Some (String c a, b)
           | None => None
           end
  end.

Fixpoint splitAtLast (sep : ascii) (s : string) : option (string * string) :=
  match s with
  | EmptyString => None
  | String c r =>
      match splitAtLast sep r with
      | Some (a, b) => Some (String c a, b)
      | None => if Ascii.eqb c sep then Some (EmptyString, r) else None
      end
  end.

(** [/^\w+([.-]?\w+)*@\w+([.-]?\w+)*(\.\w{2,3})+$/.test(s)]: word runs,
    [@], then word runs that end in a dot and a last run of two or three
    word characters (the groups [\.\w{2,3}] before the last one are
    word runs themselves). *)
Definition test_email (s : string) : bool :=
  match splitAtFirst "@" s with
  | Some (local, domain) =>
      wordRuns false local
      && match splitAtLast "." domain with
         | Some (name, last) =>
             wordRuns false name && allWordChars last
             && (2 <=? String.length last)%nat && (String.length last <=? 3)%nat
         | None => false
         end
  | None => false
  end.

(** The document passes validation: [awardDate], the other required
    path, is always present in this model. *)
Definition validates (this : doc) : bool :=
  required (certificateId this) && Js.test_7digits (certificateId this)
  && required (recipientName this)
  && (2 <=? String.length (recipientName this))%nat
  && (String.length (recipientName this) <=? 100)%nat
  && required (recipientEmail this) && test_email (recipientEmail this)
  && required (program this) && existsb (String.eqb (program this)) programEnum
  && required (programCategory this)
  && existsb (String.eqb (programCategory this)) programCategoryEnum
  && required (verificationHash this)
  && match notes this with
     | Some n => (String.length n <=? 500)%nat
     | None => true
     end.

(** A record as the model stores it: it passes validation, its name is
    trimmed and its email is trimmed and in lower case, as the setters
    of the schema and the hook below leave them. *)
Definition conforms (this : doc) : bool :=
  validates this
  && String.eqb (Js.trim (recipientName this)) (recipientName this)
  && String.eqb (Js.trim (Js.toLowerCase (recipientEmail this))) (recipientEmail this).

(** The fields [methods.revoke] assigns before it saves. *)
Definition markRevoked (now : Z) (reason : option string) (this : doc) : doc :=
  {| _id := _id this; certificateId := certificateId this;
     recipientName := recipientName this; recipientEmail := recipientEmail this;
     program := program this; programCategory := programCategory this;
     awardDate := awardDate this; verificationHash := verificationHash this;
     isVerified := isVerified this;
     verificationCount := verificationCount this;
     lastVerifiedAt := lastVerifiedAt this;
     issuedBy := issuedBy this; certificateUrl := certificateUrl this;
     revokedAt := Some now;
     revocationReason :=
       Some (match reason with Some r => r | None => "No reason provided" end);
     isRevoked := true; notes := notes this;
     ipAddresses := ipAddresses this;
     createdBy := createdBy this; updatedBy := updatedBy this;
     createdAt := createdAt this; updatedAt := updatedAt this;
       __v := __v this |}.

(** The [pre('save')] middleware, preceded by the [timestamps] option,
    which stamps [updatedAt] on a modified document (every save modelled
    here follows a modification).  An absent hash is the empty string;
    since validation comes first, the hook never meets one on a
    document that is saved. *)
Definition preSave (P : Primitives) (now : Z) (this : doc) : doc :=
  {| _id := _id this; certificateId := certificateId this;
     recipientName :=
       if String.eqb (recipientName this) "" then recipientName this
       else Js.trim (recipientName this);
     recipientEmail :=
       if String.eqb (recipientEmail this) "" then recipientEmail this
       else Js.trim (Js.toLowerCase (recipientEmail this));
     program := program this; programCategory := programCategory this;
     awardDate := awardDate this;
     verificationHash :=
       if String.eqb (verificationHash this) "" then
         sha256_hex P (certificateId this ++ recipientEmail this ++ numberToString now)
       else verificationHash this;
     isVerified := isVerified this;
     verificationCount := verificationCount this;
     lastVerifiedAt := lastVerifiedAt this;
     issuedBy := issuedBy this; certificateUrl := certificateUrl this;
     revokedAt := revokedAt this; revocationReason := revocationReason this;
     isRevoked := isRevoked this; notes := notes this;
     ipAddresses := ipAddresses this;
     createdBy := createdBy this; updatedBy := updatedBy this;
     createdAt := createdAt this; updatedAt := now;
     __v := __v this |}.

Definition ipEntryToJSON (e : IpEntry) : json :=
  JObj [("ip", JStr (ip e)); ("verifiedAt", JDate (verifiedAt e))].

(** [toJSON] with [virtuals: true]: every stored path and the virtuals. *)
Definition toJSON (this : doc) : json :=
  JObj [("_id", JStr (_id this));
        ("certificateId", JStr (certificateId this));
        ("recipientName", JStr (recipientName this));
        ("recipientEmail", JStr (recipientEmail this));
        ("program", JStr (program this));
        ("programCategory", JStr (programCategory this));
        ("awardDate", JDate (awardDate this));
        ("verificationHash", JStr (verificationHash this));
        ("isVerified", JBool (isVerified this));
        ("verificationCount", JNum (verificationCount this));
        ("lastVerifiedAt", jOpt JDate JUndefined (lastVerifiedAt this));
        ("issuedBy", JStr (issuedBy this));
        ("certificateUrl", jOpt JStr JUndefined (certificateUrl this));
        ("revokedAt", jOpt JDate JNull (revokedAt this));
        ("revocationReason", jOpt JStr JUndefined (revocationReason this));
        ("isRevoked", JBool (isRevoked this));
        ("notes", jOpt JStr JUndefined (notes this));
        ("ipAddresses", JArr (map ipEntryToJSON (ipAddresses this)));
        ("createdBy", jOpt JStr JUndefined (createdBy this));
        ("updatedBy", jOpt JStr JUndefined (updatedBy this));
        ("createdAt", JDate (createdAt this));
        ("updatedAt", JDate (updatedAt this));
        ("__v", JNum (__v this));
        ("year", JStr (year this));
        ("serialNumber", JStr (serialNumber this));
        ("id", JStr (_id this))].

End certificateSchema.

(** ** [models/AuditLog.js] *)

Module auditLogSchema.

Inductive Action := CREATE | READ | UPDATE | DELETE | VERIFY | REVOKE | LOGIN | LOGOUT.
Inductive EntityType := CERTIFICATE | ADMIN | USER.
Inductive Status := SUCCESS | FAILED.

Record doc := {
  action : Action;
  entityType : EntityType;
  entityId : option string;
  performedBy : option string;
  performedByUsername : option string;
  ipAddress : string;
  userAgent : option string;
  status : Status;
  details : json;
  errorMessage : option string;
  changes : json;
  createdAt : Z
}.

Definition isAction (a : Action) (e : doc) : bool :=
  match a, action e with
  | CREATE, CREATE | READ, READ | UPDATE, UPDATE | DELETE, DELETE
  | VERIFY, VERIFY | REVOKE, REVOKE | LOGIN, LOGIN | LOGOUT, LOGOUT => true
  | _, _ => false
  end.

End auditLogSchema.

(** ** [models/Admin.js]: schema and in-memory methods *)

Module adminSchema.

Record Permissions := {
  canCreateCertificates : bool;
  canEditCertificates : bool;
  canDeleteCertificates : bool;
  canRevokeCertificates : bool;
  canViewAnalytics : bool;
  canManageAdmins : bool
}.

Record LoginAttempts := { count : Z; lastAttemptAt : option Z }.

Record doc := {
  _id : string;
  username : string;
  email : string;
  passwordHash : string;
  fullName : string;
  role : string;
  permissions : Permissions;
  isActive : bool;
  lastLogin : option Z;
  lastLoginIP : option string;
  loginAttempts : LoginAttempts;
  twoFactorEnabled : bool;
  twoFactorSecret : option string;
  createdBy : option string;
  updatedBy : option string;
  createdAt : Z;
  updatedAt : Z
}.

(** [methods.comparePassword]. *)
Definition comparePassword (P : Primitives) (plainPassword : string) (this : doc) : bool :=
  bcrypt_compare P plainPassword (passwordHash this).

(** [methods.isLocked]: [new Date() - undefined] is [NaN], which is not
    below any bound. *)
Definition isLocked (now : Z) (this : doc) : bool :=
  (5 <=? count (loginAttempts this)) &&
  match lastAttemptAt (loginAttempts this) with
  | Some t => now - t <? 30 * 60 * 1000
  | None => false
  end.

(** The fields [methods.recordFailedLogin] assigns before it saves. *)
Definition failedLogin (now : Z) (addr : string) (this : doc) : doc :=
  {| _id := _id this; username := username this; email := email this;
     passwordHash := passwordHash this; fullName := fullName this;
     role := role this; permissions := permissions this;
     isActive := isActive this;
     lastLogin := lastLogin this;
     lastLoginIP := Some addr;
     loginAttempts :=
       {| count := count (loginAttempts this) + 1; lastAttemptAt := Some now |};
     twoFactorEnabled := twoFactorEnabled this;
     twoFactorSecret := twoFactorSecret this;
     createdBy := createdBy this; updatedBy := updatedBy this;
     createdAt := createdAt this; updatedAt := updatedAt this |}.

(** The fields [methods.recordSuccessfulLogin] assigns before it saves. *)
Definition successfulLogin (now : Z) (addr : string) (this : doc) : doc :=
  {| _id := _id this; username := username this; email := email this;
     passwordHash := passwordHash this; fullName := fullName this;
     role := role this; permissions := permissions this;
     isActive := isActive this;
     lastLogin := Some now;
     lastLoginIP := Some addr;
     loginAttempts :=
       {| count := 0; lastAttemptAt := lastAttemptAt (loginAttempts this) |};
     twoFactorEnabled := twoFactorEnabled this;
     twoFactorSecret := twoFactorSecret this;
     createdBy := createdBy this; updatedBy := updatedBy this;
     createdAt := createdAt this; updatedAt := updatedAt this |}.

(** The [timestamps] option on save.  The [pre('save')] hook returns at
    its first line on the login paths: [passwordHash] is not modified. *)
Definition preSave (now : Z) (this : doc) : doc :=
  {| _id := _id this; username := username this; email := email this;
     passwordHash := passwordHash this; fullName := fullName this;
     role := role this; permissions := permissions this;
     isActive := isActive this;
     lastLogin := lastLogin this;
     lastLoginIP := lastLoginIP this;
     loginAttempts := loginAttempts this;
     twoFactorEnabled := twoFactorEnabled this;
     twoFactorSecret := twoFactorSecret this;
     createdBy := createdBy this; updatedBy := updatedBy this;
     createdAt := createdAt this; updatedAt := now |}.

Definition permissionsToJSON (p : Permissions) : json :=
  JObj [("canCreateCertificates", JBool (canCreateCertificates p));
        ("canEditCertificates", JBool (canEditCertificates p));
        ("canDeleteCertificates", JBool (canDeleteCertificates p));
        ("canRevokeCertificates", JBool (canRevokeCertificates p));
        ("canViewAnalytics", JBool (canViewAnalytics p));
        ("canManageAdmins", JBool (canManageAdmins p))].

(** [permissions[name]]: a name that is no flag reads [undefined]. *)
Definition permissionFlag (name : string) (p : Permissions) : bool :=
  if String.eqb name "canCreateCertificates" then canCreateCertificates p
  else if String.eqb name "canEditCertificates" then canEditCertificates p
  else if String.eqb name "canDeleteCertificates" then canDeleteCertificates p
  else if String.eqb name "canRevokeCertificates" then canRevokeCertificates p
  else if String.eqb name "canViewAnalytics" then canViewAnalytics p
  else if String.eqb name "canManageAdmins" then canManageAdmins p
  else false.

End adminSchema.

(** ** The database and the effects of a handler *)

(** The operations sent to the database, recorded in issue order. *)
Inductive DbCall :=
| CertificateFindOne
| CertificateFindById
| CertificateExists
| CertificateSave
| AdminFindOne
| AdminSave
| AuditLogCreate.

(** The three collections, and the trace of database calls (ghost state:
    it records what was asked, it is never read by the code). *)
Record World := {
  certificates : list certificateSchema.doc;
  admins : list adminSchema.doc;
  auditLogs : list auditLogSchema.doc;
  dbCalls : list DbCall
}.

(** The unique indexes of the certificate collection. *)
Definition uniqueIndexes (w : World) : Prop :=
  NoDup (map certificateSchema._id (certificates w)) /\
  NoDup (map certificateSchema.certificateId (certificates w)).

(** An asynchronous computation over the database: it returns or throws,
    and what it wrote before throwing stays written. *)
Definition Db (A : Type) : Type := World -> Completion A * World.

Definition ret {A} (a : A) : Db A := fun w => (Normal a, w).

Definition throw {A} (message : string) : Db A := fun w => (Throw message, w).

Definition bind {A B} (m : Db A) (k : A -> Db B) : Db B :=
  fun w =>
    match m w with
    | (Normal a, w') => k a w'
    | (Throw e, w') => (Throw e, w')
    end.

(** [try { m } catch (error) { handler(error) }]. *)
Definition tryCatch {A} (m : Db A) (handler : string -> Db A) : Db A :=
  fun w =>
    match m w with
    | (Normal a, w') => (Normal a, w')
    | (Throw e, w') => handler e w'
    end.

(** A synchronous call that may throw. *)
Definition call {A} (c : Completion A) : Db A := fun w => (c, w).

Declare Scope db_scope.
Delimit Scope db_scope with db.
Notation "x <- m ;; k" := (bind m (fun x => k))
  (at level 61, m at next level, right associativity) : db_scope.
Notation "m ;; k" := (bind m (fun _ => k))
  (at level 61, right associativity) : db_scope.
Local Open Scope db_scope.

Definition logCall (c : DbCall) (w : World) : World :=
  {| certificates := certificates w; admins := admins w;
     auditLogs := auditLogs w; dbCalls := dbCalls w ++ [c] |}.

Definition setCertificates (l : list certificateSchema.doc) (w : World) : World :=
  {| certificates := l; admins := admins w;
     auditLogs := auditLogs w; dbCalls := dbCalls w |}.

Definition setAdmins (l : list adminSchema.doc) (w : World) : World :=
  {| certificates := certificates w; admins := l;
     auditLogs := auditLogs w; dbCalls := dbCalls w |}.

Definition setAuditLogs (l : list auditLogSchema.doc) (w : World) : World :=
  {| certificates := certificates w; admins := admins w;
     auditLogs := l; dbCalls := dbCalls w |}.

(** Replace the first document selected by [sel]; [None] when there is
    none. *)
Fixpoint replaceFirst {A} (sel : A -> bool) (d : A) (l : list A) : option (list A) :=
  match l with
  | [] => None
  | x :: r =>
      if sel x then Some (d :: r)
      else match replaceFirst sel d r with
           | Some r' => Some (x :: r')
           | None => None
           end
  end.

(** ** The [Certificate] model: queries and [save] *)

Module Certificate.
Import certificateSchema.

Definition findOne (filter : doc -> bool) : Db (option doc) :=
  fun w => (Normal (find filter (certificates w)), logCall CertificateFindOne w).

(** [statics.findByCertificateId]. *)
Definition findByCertificateId (certId : string) : Db (option doc) :=
  findOne (fun d => String.eqb (certificateId d) (Js.toUpperCase certId)).

(** [findById]: an id the driver cannot cast to an ObjectId throws. *)
Definition findById (P : Primitives) (id : string) : Db (option doc) :=
  fun w =>
    if objectId_isValid P id then
      (Normal (find (fun d => String.eqb (_id d) id) (certificates w)),
       logCall CertificateFindById w)
    else (Throw "CastError", w).

Definition exists_ (filter : doc -> bool) : Db bool :=
  fun w => (Normal (existsb filter (certificates w)), logCall CertificateExists w).

(** *** [document.save()] on a loaded document

    [save] validates the document, runs the hooks and sends one update
    for the stored document with the same [_id]: [$set] of the paths
    that were modified, the operation registered on [ipAddresses], and
    the version key as that operation requires.  The paths that were
    modified are those whose value differs from the one loaded;
    [sent] is the stored value of a path after the update. *)
Definition sent {A} (eqb : A -> A -> bool) (loaded this stored : A) : A :=
  if eqb loaded this then stored else this.

Definition optionEqb {A} (eqb : A -> A -> bool) (a b : option A) : bool :=
  match a, b with
  | Some x, Some y => eqb x y
  | None, None => true
  | _, _ => false
  end.

(** The stored document after the update. *)
Definition updateOne (loaded this : doc) (atomics : ArrayOp) (stored : doc) : doc :=
  {| _id := _id stored;
     certificateId := sent String.eqb (certificateId loaded) (certificateId this)
                        (certificateId stored);
     recipientName := sent String.eqb (recipientName loaded) (recipientName this)
                        (recipientName stored);
     recipientEmail := sent String.eqb (recipientEmail loaded) (recipientEmail this)
                         (recipientEmail stored);
     program := sent String.eqb (program loaded) (program this) (program stored);
     programCategory := sent String.eqb (programCategory loaded) (programCategory this)
                          (programCategory stored);
     awardDate := sent Z.eqb (awardDate loaded) (awardDate this) (awardDate stored);
     verificationHash := sent String.eqb (verificationHash loaded) (verificationHash this)
                           (verificationHash stored);
     isVerified := sent Bool.eqb (isVerified loaded) (isVerified this) (isVerified stored);
     verificationCount := sent Z.eqb (verificationCount loaded) (verificationCount this)
                            (verificationCount stored);
     lastVerifiedAt := sent (optionEqb Z.eqb) (lastVerifiedAt loaded) (lastVerifiedAt this)
                         (lastVerifiedAt stored);
     issuedBy := sent String.eqb (issuedBy loaded) (issuedBy this) (issuedBy stored);
     certificateUrl := sent (optionEqb String.eqb) (certificateUrl loaded)
                         (certificateUrl this) (certificateUrl stored);
     revokedAt := sent (optionEqb Z.eqb) (revokedAt loaded) (revokedAt this)
                    (revokedAt stored);
     revocationReason := sent (optionEqb String.eqb) (revocationReason loaded)
                           (revocationReason this) (revocationReason stored);
     isRevoked := sent Bool.eqb (isRevoked loaded) (isRevoked this) (isRevoked stored);
     notes := sent (optionEqb String.eqb) (notes loaded) (notes this) (notes stored);
     ipAddresses := applyAtomics atomics (ipAddresses stored);
     createdBy := sent (optionEqb String.eqb) (createdBy loaded) (createdBy this)
                    (createdBy stored);
     updatedBy := sent (optionEqb String.eqb) (updatedBy loaded) (updatedBy this)
                    (updatedBy stored);
     createdAt := sent Z.eqb (createdAt loaded) (createdAt this) (createdAt stored);
     updatedAt := sent Z.eqb (updatedAt loaded) (updatedAt this) (updatedAt stored);
     __v := if versionInc atomics then __v stored + 1 else __v stored |}.

(** Apply [f] to the first document selected by [sel]; [None] when there
    is none. *)
Fixpoint updateFirst {A} (sel : A -> bool) (f : A -> A) (l : list A) : option (list A) :=
  match l with
  | [] => None
  | x :: r =>
      if sel x then Some (f x :: r)
      else match updateFirst sel f r with
           | Some r' => Some (x :: r')
           | None => None
           end
  end.

(** The in-memory document after a successful [save]: as the hooks left
    it, with the version key it now has in the store. *)
Definition written (P : Primitives) (now : Z) (atomics : ArrayOp) (this : doc) : doc :=
  let this' := preSave P now this in
  {| _id := _id this'; certificateId := certificateId this';
     recipientName := recipientName this'; recipientEmail := recipientEmail this';
     program := program this'; programCategory := programCategory this';
     awardDate := awardDate this'; verificationHash := verificationHash this';
     isVerified := isVerified this';
     verificationCount := verificationCount this';
     lastVerifiedAt := lastVerifiedAt this';
     issuedBy := issuedBy this'; certificateUrl := certificateUrl this';
     revokedAt := revokedAt this'; revocationReason := revocationReason this';
     isRevoked := isRevoked this'; notes := notes this';
     ipAddresses := ipAddresses this';
     createdBy := createdBy this'; updatedBy := updatedBy this';
     createdAt := createdAt this'; updatedAt := updatedAt this';
     __v := if versionInc atomics then __v this' + 1 else __v this' |}.

(** [this.save()] for the in-memory document [this], loaded as [loaded],
    with [atomics] registered on its IP list.  A document that fails
    validation throws before anything is sent.  The update selects the
    stored document by [_id] and, when the operation requires it, by
    the version key the document was loaded with; when it selects none
    [save] throws ([VersionError] when the operation involves the
    version key, [DocumentNotFoundError] otherwise). *)
Definition save (P : Primitives) (now : Z) (loaded : doc) (atomics : ArrayOp) (this : doc)
  : Db doc :=
  fun w =>
    if validates this then
      let this' := preSave P now this in
      match updateFirst
              (fun d => String.eqb (_id d) (_id this')
                        && (negb (versionWhere atomics) || (__v d =? __v this')))
              (updateOne loaded this' atomics) (certificates w) with
      | Some l =>
          (Normal (written P now atomics this),
           logCall CertificateSave (setCertificates l w))
      | None =>
          (Throw (if versionWhere atomics || versionInc atomics then "VersionError"
                  else "DocumentNotFoundError"),
           logCall CertificateSave w)
      end
    else (Throw "ValidationError", w).

(** [methods.revoke] on the loaded document [this]. *)
Definition revoke (P : Primitives) (now : Z) (reason : option string) (this : doc) : Db doc :=
  save P now this Untouched (markRevoked now reason this).

End Certificate.

(** ** The [Admin] and [AuditLog] models *)

Module Admin.
Import adminSchema.

Definition findOne (filter : doc -> bool) : Db (option doc) :=
  fun w => (Normal (find filter (admins w)), logCall AdminFindOne w).

Definition save (now : Z) (this : doc) : Db doc :=
  fun w =>
    let this' := preSave now this in
    match replaceFirst (fun d => String.eqb (_id d) (_id this')) this' (admins w) with
    | Some l => (Normal this', logCall AdminSave (setAdmins l w))
    | None => (Throw "DocumentNotFoundError", logCall AdminSave w)
    end.

(** [methods.recordFailedLogin]. *)
Definition recordFailedLogin (now : Z) (addr : string) (this : doc) : Db doc :=
  save now (failedLogin now addr this).

(** [methods.recordSuccessfulLogin]. *)
Definition recordSuccessfulLogin (now : Z) (addr : string) (this : doc) : Db doc :=
  save now (successfulLogin now addr this).

End Admin.

Module AuditLog.
Import auditLogSchema.

(** [AuditLog.create(entry)]: the collection is append-only. *)
Definition create (entry : doc) : Db unit :=
  fun w => (Normal tt, logCall AuditLogCreate (setAuditLogs (auditLogs w ++ [entry]) w)).

End AuditLog.

(** ** [middleware/validation.js] and [middleware/auth.js] *)

(** An error of a validation chain, as [validationResult] reports it. *)
Record ValidationError := { param : string; msg : string; value : json }.

Definition validationDetail (err : ValidationError) : json :=
  JObj [("field", JStr (param err)); ("message", JStr (msg err)); ("value", value err)].

(** [handleValidationErrors]: answer 400 or call [next]. *)
Definition handleValidationErrors (errors : list ValidationError) (next : Db Response)
  : Db Response :=
  match errors with
  | [] => next
  | _ :: _ =>
      ret {| statusCode := 400;
             body := JObj [("error", JStr "Validation Failed");
                           ("details", JArr (map validationDetail errors))] |}
  end.

(** [req.user]: the claims of the verified access token. *)
Record User := {
  id : string;
  username : string;
  email : string;
  role : string;
  permissions : option adminSchema.Permissions
}.

(** [authorizePermission(permission)]. *)
Definition authorizePermission (permission : string) (user : option User)
    (next : User -> Db Response) : Db Response :=
  match user with
  | None =>
      ret {| statusCode := 401;
             body := JObj [("error", JStr "Unauthorized");
                           ("message", JStr "User not authenticated")] |}
  | Some u =>
      match permissions u with
      | Some p =>
          if adminSchema.permissionFlag permission p then next u
          else ret {| statusCode := 403;
                      body := JObj [("error", JStr "Forbidden");
                                    ("message", JStr "You do not have permission to perform this action")] |}
      | None =>
          ret {| statusCode := 403;
                 body := JObj [("error", JStr "Forbidden");
                               ("message", JStr "You do not have permission to perform this action")] |}
      end
  end.

(** [generateToken] with its default [expiresIn], and [generateRefreshToken]. *)
Definition generateToken (P : Primitives) (user : adminSchema.doc) : string :=
  jwt_sign P
    (JObj [("id", JStr (adminSchema._id user));
           ("username", JStr (adminSchema.username user));
           ("email", JStr (adminSchema.email user));
           ("role", JStr (adminSchema.role user));
           ("permissions", adminSchema.permissionsToJSON (adminSchema.permissions user))])
    (JWT_SECRET P) "24h".

Definition generateRefreshToken (P : Primitives) (user : adminSchema.doc) : string :=
  jwt_sign P
    (JObj [("id", JStr (adminSchema._id user));
           ("username", JStr (adminSchema.username user))])
    (JWT_SECRET P ++ "refresh") "7d".

(** ** The certificates router: the public routes *)

Module certificatesRouter.
Import certificateSchema.

(** A request to [/verify/:certificateId] or [/check/:certificateId]:
    the path parameter, the query-string parameter of the same name
    (absent when the URL has none), and [req.ip ||
    req.connection.remoteAddress]. *)
Record Request := {
  params_certificateId : string;
  query_certificateId : option string;
  clientIP : string
}.

(** The chain [query('certificateId').trim().toUpperCase().matches(/^\d{7}$/)]:
    [query] selects the field in [req.query]; an absent field is
    sanitised as the empty string.  The handlers below read
    [req.params.certificateId]. *)
Definition certificateIdChain (req : Request) : list ValidationError :=
  let v := Js.toUpperCase (Js.trim (match query_certificateId req with
                                    | Some s => s
                                    | None => ""
                                    end)) in
  if Js.test_7digits v then []
  else [{| param := "certificateId"; msg := "Invalid certificate ID format"; value := JStr v |}].

Definition verifyEntry (now : Z) (req : Request) (st : auditLogSchema.Status)
    (err : option string) : auditLogSchema.doc :=
  {| auditLogSchema.action := auditLogSchema.VERIFY;
     auditLogSchema.entityType := auditLogSchema.CERTIFICATE;
     auditLogSchema.entityId := Some (params_certificateId req);
     auditLogSchema.performedBy := None;
     auditLogSchema.performedByUsername := None;
     auditLogSchema.ipAddress := clientIP req;
     auditLogSchema.userAgent := None;
     auditLogSchema.status := st;
     auditLogSchema.details := JUndefined;
     auditLogSchema.errorMessage := err;
     auditLogSchema.changes := JUndefined;
     auditLogSchema.createdAt := now |}.

Definition notFoundResponse : Response :=
  {| statusCode := 404;
     body := JObj [("error", JStr "Not Found");
                   ("message", JStr "Certificate not found in the system");
                   ("verified", JBool false)] |}.

Definition revokedResponse (certificate : doc) : Response :=
  {| statusCode := 410;
     body := JObj [("error", JStr "Revoked");
                   ("message", JStr "This certificate has been revoked");
                   ("verified", JBool false);
                   ("revokedAt", jOpt JDate JNull (revokedAt certificate));
                   ("revocationReason", jOpt JStr JUndefined (revocationReason certificate))] |}.

Definition verifiedResponse (certificate : doc) : Response :=
  {| statusCode := 200;
     body := JObj [("verified", JBool true);
                   ("certificate",
                    JObj [("certificateId", JStr (certificateId certificate));
                          ("recipientName", JStr (recipientName certificate));
                          ("program", JStr (program certificate));
                          ("programCategory", JStr (programCategory certificate));
                          ("awardDate", JDate (awardDate certificate));
                          ("issuedBy", JStr (issuedBy certificate));
                          ("year", JStr (year certificate));
                          ("serialNumber", JStr (serialNumber certificate));
                          ("verificationCount", JNum (verificationCount certificate))])] |}.

Definition verificationErrorResponse : Response :=
  {| statusCode := 500;
     body := JObj [("error", JStr "Verification Error");
                   ("message", JStr "Failed to verify certificate");
                   ("verified", JBool false)] |}.

(** The handler of [GET /verify/:certificateId]. *)
Definition verifyHandler (P : Primitives) (now : Z) (req : Request) : Db Response :=
  tryCatch
    (let certificateId := params_certificateId req in
     let clientIP := clientIP req in
     certificate <- Certificate.findByCertificateId certificateId ;;
     match certificate with
     | None =>
         AuditLog.create
           (verifyEntry now req auditLogSchema.FAILED (Some "Certificate not found")) ;;
         ret notFoundResponse
     | Some loaded =>
         if isRevoked loaded then
           AuditLog.create
             (verifyEntry now req auditLogSchema.FAILED (Some "Certificate revoked")) ;;
           ret (revokedResponse loaded)
         else
           certificate <- call (verify now loaded) ;;
           certificate <- Certificate.save P now loaded
                            (trackedAtomics now clientIP (ipAddresses loaded))
                            (trackIP now clientIP certificate) ;;
           AuditLog.create (verifyEntry now req auditLogSchema.SUCCESS None) ;;
           ret (verifiedResponse certificate)
     end)
    (fun error => ret verificationErrorResponse).

(** The route: validation chain, [handleValidationErrors], handler. *)
Definition verifyRoute (P : Primitives) (now : Z) (req : Request) : Db Response :=
  handleValidationErrors (certificateIdChain req) (verifyHandler P now req).

(** The handler of [GET /check/:certificateId]. *)
Definition checkHandler (req : Request) : Db Response :=
  tryCatch
    (let certificateId := params_certificateId req in
     exists_ <- Certificate.exists_
       (fun d => String.eqb (certificateSchema.certificateId d) certificateId
                 && Bool.eqb (isRevoked d) false) ;;
     ret {| statusCode := 200;
            body := JObj [("exists", JBool exists_);
                          ("certificateId", JStr certificateId)] |})
    (fun error =>
       ret {| statusCode := 500;
              body := JObj [("error", JStr "Check Error");
                            ("message", JStr "Failed to check certificate")] |}).

Definition checkRoute (req : Request) : Db Response :=
  handleValidationErrors (certificateIdChain req) (checkHandler req).

(** *** The verify handler, one database call at a time

    Each [await] of the handler is a point where another request may run.
    A task is the handler suspended at such a point. *)
Inductive Task :=
| AtFind
| AtSave (loaded : doc) (atomics : ArrayOp) (certificate : doc)
| AtAudit (entry : auditLogSchema.doc) (response : Response)
| Finished (response : Response).

(** Run a task up to its next [await]. *)
Definition step (P : Primitives) (now : Z) (req : Request) (t : Task) (w : World)
  : Task * World :=
  match t with
  | AtFind =>
      match Certificate.findByCertificateId (params_certificateId req) w with
      | (Normal None, w') =>
          (AtAudit (verifyEntry now req auditLogSchema.FAILED (Some "Certificate not found"))
                   notFoundResponse, w')
      | (Normal (Some loaded), w') =>
          if isRevoked loaded then
            (AtAudit (verifyEntry now req auditLogSchema.FAILED (Some "Certificate revoked"))
                     (revokedResponse loaded), w')
          else
            match verify now loaded with
            | Normal certificate =>
                (AtSave loaded (trackedAtomics now (clientIP req) (ipAddresses loaded))
                        (trackIP now (clientIP req) certificate), w')
            | Throw _ => (Finished verificationErrorResponse, w')
            end
      | (Throw _, w') => (Finished verificationErrorResponse, w')
      end
  | AtSave loaded atomics certificate =>
      match Certificate.save P now loaded atomics certificate w with
      | (Normal certificate, w') =>
          (AtAudit (verifyEntry now req auditLogSchema.SUCCESS None)
                   (verifiedResponse certificate), w')
      | (Throw _, w') => (Finished verificationErrorResponse, w')
      end
  | AtAudit entry response =>
      match AuditLog.create entry w with
      | (Normal _, w') => (Finished response, w')
      | (Throw _, w') => (Finished verificationErrorResponse, w')
      end
  | Finished response => (Finished response, w)
  end.

(** Two requests in flight; the schedule says which one runs next
    ([true]: the first). *)
Record Pair := { first : Task; second : Task; world : World }.

Definition schedule1 (P : Primitives) (now1 : Z) (req1 : Request) (now2 : Z) (req2 : Request)
    (who : bool) (s : Pair) : Pair :=
  if who then
    let '(t, w) := step P now1 req1 (first s) (world s) in
    {| first := t; second := second s; world := w |}
  else
    let '(t, w) := step P now2 req2 (second s) (world s) in
    {| first := first s; second := t; world := w |}.

Definition runSchedule (P : Primitives) (now1 : Z) (req1 : Request) (now2 : Z) (req2 : Request)
    (schedule : list bool) (w : World) : Pair :=
  fold_left (fun s who => schedule1 P now1 req1 now2 req2 who s) schedule
            {| first := AtFind; second := AtFind; world := w |}.

(** The stored certificate of a certificate ID, and its verification
    counter. *)
Definition stored (certId : string) (w : World) : option doc :=
  find (fun d => String.eqb (certificateId d) certId) (certificates w).

Definition storedCount (certId : string) (w : World) : option Z :=
  option_map verificationCount (stored certId w).

(** *** What an interleaving does to the counter

    The progress of a verification of an active certificate, reduced to
    what matters for the counter: a request that has looked the record
    up holds the counter value it will write, as an offset from the
    initial value.  A request whose [save] is refused has nothing left
    to do; it is counted as past its save all the same. *)
Inductive Progress :=
| Looking
| Saving (offset : Z)
| Auditing
| Answered.

(** One step of a request against the offset currently stored. *)
Definition progress (p : Progress) (storedOffset : Z) : Progress * Z :=
  match p with
  | Looking => (Saving (storedOffset + 1), storedOffset)
  | Saving n => (Auditing, n)
  | Auditing => (Answered, storedOffset)
  | Answered => (Answered, storedOffset)
  end.

Record Counters := { firstAt : Progress; secondAt : Progress; storedOffset : Z }.

Definition counters1 (who : bool) (s : Counters) : Counters :=
  if who then
    let '(p, k) := progress (firstAt s) (storedOffset s) in
    {| firstAt := p; secondAt := secondAt s; storedOffset := k |}
  else
    let '(p, k) := progress (secondAt s) (storedOffset s) in
    {| firstAt := firstAt s; secondAt := p; storedOffset := k |}.

(** The increments the stored counter shows after a schedule. *)
Definition increments (schedule : list bool) : Z :=
  storedOffset
    (fold_left (fun s who => counters1 who s) schedule
       {| firstAt := Looking; secondAt := Looking; storedOffset := 0 |}).

(** The stored record is [c] with [k] increments: same keys, active,
    conforming to the schema. *)
Definition storedWith (c : doc) (k : Z) (w : World) : Prop :=
  NoDup (map _id (certificates w))
  /\ exists d,
       stored (certificateId c) w = Some d
       /\ _id d = _id c /\ certificateId d = certificateId c
       /\ isRevoked d = false /\ isVerified d = true
       /\ conforms d = true
       /\ verificationCount d = verificationCount c + k.

(** A task of the handler, verifying [c] for the request [req] at [now],
    matches its progress.  A task that waits at its [save] holds the
    document it loaded and the one it will write. *)
Definition taskAt (c : doc) (now : Z) (req : Request) (t : Task) (p : Progress) : Prop :=
  match p, t with
  | Looking, AtFind => True
  | Saving n, AtSave loaded atomics certificate =>
      _id loaded = _id c /\ certificateId loaded = certificateId c
      /\ isRevoked loaded = false /\ isVerified loaded = true
      /\ conforms loaded = true
      /\ verificationCount loaded + 1 = verificationCount c + n
      /\ atomics = trackedAtomics now (clientIP req) (ipAddresses loaded)
      /\ exists verified,
           verify now loaded = Normal verified
           /\ certificate = trackIP now (clientIP req) verified
  | Auditing, AtAudit _ r => statusCode r = 200
  | Auditing, Finished r => statusCode r = 500
  | Answered, Finished r => statusCode r = 200 \/ statusCode r = 500
  | _, _ => False
  end.

(** A task that waits at its [save] loaded the version that is stored,
    or the counter it will write is the one already stored. *)
Definition current (c : doc) (t : Task) (p : Progress) (k : Z) (w : World) : Prop :=
  match p, t with
  | Saving n, AtSave loaded _ _ =>
      (exists d, stored (certificateId c) w = Some d /\ __v loaded = __v d) \/ k = n
  | _, _ => True
  end.

(** Before the first [save] nothing is stored yet and a request that has
    looked the record up will write the first increment. *)
Definition beforeSave (p : Progress) : Prop :=
  match p with
  | Looking | Saving _ => True
  | Auditing | Answered => False
  end.

Definition writesFirst (p : Progress) : Prop :=
  match p with
  | Saving n => n = 1
  | _ => True
  end.

Definition quiet (a : Counters) : Prop :=
  beforeSave (firstAt a) -> beforeSave (secondAt a) ->
  storedOffset a = 0 /\ writesFirst (firstAt a) /\ writesFirst (secondAt a).

(** The task's [save] went through: it is bound to answer 200. *)
Definition succeeded (t : Task) : Prop :=
  match t with
  | AtAudit _ r | Finished r => statusCode r = 200
  | _ => False
  end.

(** The two requests and the store match their abstract counterparts. *)
Definition matches (c : doc) (now1 : Z) (req1 : Request) (now2 : Z) (req2 : Request)
    (s : Pair) (a : Counters) : Prop :=
  taskAt c now1 req1 (first s) (firstAt a)
  /\ taskAt c now2 req2 (second s) (secondAt a)
  /\ storedWith c (storedOffset a) (world s)
  /\ current c (first s) (firstAt a) (storedOffset a) (world s)
  /\ current c (second s) (secondAt a) (storedOffset a) (world s)
  /\ quiet a
  /\ (storedOffset a = 0 \/ succeeded (first s) \/ succeeded (second s)).

End certificatesRouter.

(** ** The admin router: revoking a certificate *)

Module adminRouter.
Import certificateSchema.

(** A request to [POST /certificates/:id/revoke]. *)
Record Request := {
  params_id : string;
  body_reason : option string;
  user : option User;
  clientIP : string
}.

(** [body('reason').optional().trim().isLength({ max: 200 })]: the
    sanitised field and the errors.  An absent field is left alone. *)
Definition reasonChain (req : Request) : option string * list ValidationError :=
  match body_reason req with
  | None => (None, [])
  | Some r =>
      let v := Js.trim r in
      if (String.length v <=? 200)%nat then (Some v, [])
      else (Some v, [{| param := "reason"; msg := "Invalid value"; value := JStr v |}])
  end.

Definition revokeEntry (now : Z) (u : User) (addr : string) (certificate : doc)
    (reason : option string) : auditLogSchema.doc :=
  {| auditLogSchema.action := auditLogSchema.REVOKE;
     auditLogSchema.entityType := auditLogSchema.CERTIFICATE;
     auditLogSchema.entityId := Some (_id certificate);
     auditLogSchema.performedBy := Some (id u);
     auditLogSchema.performedByUsername := Some (username u);
     auditLogSchema.ipAddress := addr;
     auditLogSchema.userAgent := None;
     auditLogSchema.status := auditLogSchema.SUCCESS;
     auditLogSchema.details :=
       JObj [("certificateId", JStr (certificateId certificate));
             ("reason", jOpt JStr JUndefined reason)];
     auditLogSchema.errorMessage := None;
     auditLogSchema.changes := JUndefined;
     auditLogSchema.createdAt := now |}.

Definition notFoundResponse : Response :=
  {| statusCode := 404;
     body := JObj [("error", JStr "Not Found");
                   ("message", JStr "Certificate not found")] |}.

Definition alreadyRevokedResponse : Response :=
  {| statusCode := 400;
     body := JObj [("error", JStr "Already Revoked");
                   ("message", JStr "Certificate is already revoked")] |}.

Definition revokedResponse (certificate : doc) : Response :=
  {| statusCode := 200;
     body := JObj [("message", JStr "Certificate revoked successfully");
                   ("certificate", toJSON certificate)] |}.

Definition revocationFailedResponse : Response :=
  {| statusCode := 500;
     body := JObj [("error", JStr "Revocation Failed");
                   ("message", JStr "Failed to revoke certificate")] |}.

(** The handler; [reason] is the sanitised body field. *)
Definition revokeHandler (P : Primitives) (now : Z) (req : Request)
    (reason : option string) (u : User) : Db Response :=
  tryCatch
    (let id := params_id req in
     let clientIP := clientIP req in
     certificate <- Certificate.findById P id ;;
     match certificate with
     | None => ret notFoundResponse
     | Some certificate =>
         if isRevoked certificate then ret alreadyRevokedResponse
         else
           certificate <- Certificate.revoke P now reason certificate ;;
           AuditLog.create (revokeEntry now u clientIP certificate reason) ;;
           ret (revokedResponse certificate)
     end)
    (fun error => ret revocationFailedResponse).

(** The route: permission gate, validation chain, handler. *)
Definition revokeRoute (P : Primitives) (now : Z) (req : Request) : Db Response :=
  authorizePermission "canRevokeCertificates" (user req)
    (fun u =>
       let '(reason, errors) := reasonChain req in
       handleValidationErrors errors (revokeHandler P now req reason u)).

End adminRouter.

(** ** The auth router: login *)

Module authRouter.
Import adminSchema.

(** A request to [POST /login]. *)
Record Request := {
  body_username : option string;
  body_password : option string;
  clientIP : string
}.

(** The sanitised [username] ([trim]) and the [password] as the chains
    leave them; an absent field reads as the empty string. *)
Definition sanitizedUsername (req : Request) : string :=
  Js.trim (match body_username req with Some s => s | None => "" end).

Definition passwordField (req : Request) : string :=
  match body_password req with Some s => s | None => "" end.

(** [body('username').trim().isLength({ min: 3 })] and
    [body('password').isLength({ min: 8 })]. *)
Definition loginChains (req : Request) : list ValidationError :=
  (if (3 <=? String.length (sanitizedUsername req))%nat then []
   else [{| param := "username"; msg := "Invalid username";
            value := JStr (sanitizedUsername req) |}])
  ++
  (if (8 <=? String.length (passwordField req))%nat then []
   else [{| param := "password"; msg := "Invalid password";
            value := JStr (passwordField req) |}]).

Definition loginEntry (now : Z) (addr : string) (by_ : option string)
    (byName : option string) (st : auditLogSchema.Status) (err : option string)
  : auditLogSchema.doc :=
  {| auditLogSchema.action := auditLogSchema.LOGIN;
     auditLogSchema.entityType := auditLogSchema.ADMIN;
     auditLogSchema.entityId := None;
     auditLogSchema.performedBy := by_;
     auditLogSchema.performedByUsername := byName;
     auditLogSchema.ipAddress := addr;
     auditLogSchema.userAgent := None;
     auditLogSchema.status := st;
     auditLogSchema.details := JUndefined;
     auditLogSchema.errorMessage := err;
     auditLogSchema.changes := JUndefined;
     auditLogSchema.createdAt := now |}.

Definition authenticationFailedResponse : Response :=
  {| statusCode := 401;
     body := JObj [("error", JStr "Authentication Failed");
                   ("message", JStr "Invalid username or password")] |}.

Definition accountLockedResponse : Response :=
  {| statusCode := 429;
     body := JObj [("error", JStr "Account Locked");
                   ("message", JStr "Account is locked due to too many failed login attempts")] |}.

Definition inactiveResponse : Response :=
  {| statusCode := 403;
     body := JObj [("error", JStr "Forbidden");
                   ("message", JStr "This admin account is inactive")] |}.

Definition loginSuccessfulResponse (P : Primitives) (admin : doc) : Response :=
  {| statusCode := 200;
     body := JObj [("message", JStr "Login successful");
                   ("accessToken", JStr (generateToken P admin));
                   ("refreshToken", JStr (generateRefreshToken P admin));
                   ("user",
                    JObj [("id", JStr (_id admin));
                          ("username", JStr (username admin));
                          ("email", JStr (email admin));
                          ("fullName", JStr (fullName admin));
                          ("role", JStr (role admin));
                          ("permissions", permissionsToJSON (permissions admin))])] |}.

Definition loginFailedResponse : Response :=
  {| statusCode := 500;
     body := JObj [("error", JStr "Login Failed");
                   ("message", JStr "An error occurred during login")] |}.

(** The handler of [POST /login]. *)
Definition loginHandler (P : Primitives) (now : Z) (req : Request) : Db Response :=
  tryCatch
    (let username := sanitizedUsername req in
     let password := passwordField req in
     let clientIP := clientIP req in
     admin <- Admin.findOne
       (fun a => String.eqb (adminSchema.username a) (Js.toLowerCase username)) ;;
     match admin with
     | None =>
         AuditLog.create
           (loginEntry now clientIP None None auditLogSchema.FAILED (Some "Admin not found")) ;;
         ret authenticationFailedResponse
     | Some admin =>
         if isLocked now admin then ret accountLockedResponse
         else if negb (isActive admin) then ret inactiveResponse
         else
           let isValidPassword := comparePassword P password admin in
           if negb isValidPassword then
             Admin.recordFailedLogin now clientIP admin ;;
             AuditLog.create
               (loginEntry now clientIP None (Some username) auditLogSchema.FAILED
                           (Some "Invalid password")) ;;
             ret authenticationFailedResponse
           else
             admin <- Admin.recordSuccessfulLogin now clientIP admin ;;
             let accessToken := generateToken P admin in
             let refreshToken := generateRefreshToken P admin in
             AuditLog.create
               (loginEntry now clientIP (Some (_id admin)) (Some (adminSchema.username admin))
                           auditLogSchema.SUCCESS None) ;;
             ret (loginSuccessfulResponse P admin)
     end)
    (fun error => ret loginFailedResponse).

Definition loginRoute (P : Primitives) (now : Z) (req : Request) : Db Response :=
  handleValidationErrors (loginChains req) (loginHandler P now req).

(** A password attempt at a given instant. *)
Record Attempt := { at_ : Z; password : string }.

(** A sequence of logins by one client for one username, one after the
    other; the responses are collected in order. *)
Fixpoint loginSequence (P : Primitives) (name addr : string) (attempts : list Attempt)
    (w : World) : list Response * World :=
  match attempts with
  | [] => ([], w)
  | a :: rest =>
      let '(r, w1) :=
        loginRoute P (at_ a)
          {| body_username := Some name; body_password := Some (password a);
             clientIP := addr |} w in
      let '(rs, w2) := loginSequence P name addr rest w1 in
      (match r with Normal resp => resp | Throw _ => loginFailedResponse end :: rs, w2)
  end.

End authRouter.

(** ** Sample data

    A small database in the shape the application creates, used to run
    the handlers on concrete requests. *)

Module Sample.

Definition primitives : Primitives :=
  {| sha256_hex := fun s => "sha256:" ++ s;
     bcrypt_compare := fun plain hash => String.eqb ("bcrypt:" ++ plain) hash;
     jwt_sign := fun _ secret expiresIn => "jwt." ++ secret ++ "." ++ expiresIn;
     objectId_isValid := fun s => (String.length s =? 24)%nat;
     JWT_SECRET := "test-secret" |}.

Definition certificateWith (oid certId : string) (verified revoked : bool)
    (ips : list certificateSchema.IpEntry) : certificateSchema.doc :=
  {| certificateSchema._id := oid;
     certificateSchema.certificateId := certId;
     certificateSchema.recipientName := "Ahmed Hassan";
     certificateSchema.recipientEmail := "ahmed.hassan@example.org";
     certificateSchema.program := "Web Development";
     certificateSchema.programCategory := "01";
     certificateSchema.awardDate := 1736899200000;
     certificateSchema.verificationHash := "5f2b8c1e";
     certificateSchema.isVerified := verified;
     certificateSchema.verificationCount := 0;
     certificateSchema.lastVerifiedAt := None;
     certificateSchema.issuedBy := "STEM CS Club";
     certificateSchema.certificateUrl := None;
     certificateSchema.revokedAt := if revoked then Some 1740000000000 else None;
     certificateSchema.revocationReason := if revoked then Some "policy violation" else None;
     certificateSchema.isRevoked := revoked;
     certificateSchema.notes := None;
     certificateSchema.ipAddresses := ips;
     certificateSchema.createdBy := Some "root";
     certificateSchema.updatedBy := None;
     certificateSchema.createdAt := 1736899200000;
     certificateSchema.updatedAt := 1736899200000;
     certificateSchema.__v := 0 |}.

Definition active : certificateSchema.doc :=
  certificateWith "65a4c0de0000000000000001" "2501001" true false [].

Definition revoked : certificateSchema.doc :=
  certificateWith "65a4c0de0000000000000002" "2501002" true true [].

Definition unverified : certificateSchema.doc :=
  certificateWith "65a4c0de0000000000000003" "2501003" false false [].

Definition tenIPs : list certificateSchema.IpEntry :=
  map (fun n => {| certificateSchema.ip := "10.0.0." ++ numberToString n;
                   certificateSchema.verifiedAt := 1736899200000 + n |})
      [1; 2; 3; 4; 5; 6; 7; 8; 9; 10].

Definition busy : certificateSchema.doc :=
  certificateWith "65a4c0de0000000000000004" "2501004" true false tenIPs.

Definition admin : adminSchema.doc :=
  {| adminSchema._id := "65a4c0de00000000000000a1";
     adminSchema.username := "registrar";
     adminSchema.email := "registrar@example.org";
     adminSchema.passwordHash := "bcrypt:Correct-Horse-1";
     adminSchema.fullName := "Club Registrar";
     adminSchema.role := "admin";
     adminSchema.permissions :=
       {| adminSchema.canCreateCertificates := true;
          adminSchema.canEditCertificates := true;
          adminSchema.canDeleteCertificates := false;
          adminSchema.canRevokeCertificates := true;
          adminSchema.canViewAnalytics := true;
          adminSchema.canManageAdmins := false |};
     adminSchema.isActive := true;
     adminSchema.lastLogin := None;
     adminSchema.lastLoginIP := None;
     adminSchema.loginAttempts :=
       {| adminSchema.count := 0; adminSchema.lastAttemptAt := None |};
     adminSchema.twoFactorEnabled := false;
     adminSchema.twoFactorSecret := None;
     adminSchema.createdBy := None;
     adminSchema.updatedBy := None;
     adminSchema.createdAt := 1736899200000;
     adminSchema.updatedAt := 1736899200000 |}.

Definition world : World :=
  {| certificates := [active; revoked; unverified; busy];
     admins := [admin];
     auditLogs := [];
     dbCalls := [] |}.

(** The claims of [admin]'s access token. *)
Definition user : User :=
  {| id := adminSchema._id admin;
     username := adminSchema.username admin;
     email := adminSchema.email admin;
     role := adminSchema.role admin;
     permissions := Some (adminSchema.permissions admin) |}.

Definition minutes (n : Z) : Z := n * 60 * 1000.

End Sample.

(** ** The verification form of [certificates/script.js] *)

Module Script.
Import Codec.

Record CertificateData := {
  name : string;
  program : string;
  programCode : string;
  date : string;
  yearNumber : Z;
  subProgramCode : string;
  serialCode : string
}.

(** The mock [certificateDatabase], key by key. *)
Definition certificateDatabase : list (string * CertificateData) :=
  [ ("2501001",
     {| name := "Ahmed Hassan"; program := "Online Chapter - Web Development";
        programCode := "Online Chapter"; date := "January 15, 2025";
        yearNumber := 2025; subProgramCode := "01"; serialCode := "001" |});
    ("2501002",
     {| name := "Fatima Ahmed"; program := "Online Chapter - Machine Learning";
        programCode := "Online Chapter"; date := "January 20, 2025";
        yearNumber := 2025; subProgramCode := "01"; serialCode := "002" |});
    ("2502001",
     {| name := "Mohamed Ali"; program := "Bootcamp - Full Stack Development";
        programCode := "Bootcamp"; date := "February 10, 2025";
        yearNumber := 2025; subProgramCode := "02"; serialCode := "001" |});
    ("2500001",
     {| name := "Sarah Ibrahim"; program := "Main Club - Foundations";
        programCode := "Main Club"; date := "March 5, 2025";
        yearNumber := 2025; subProgramCode := "00"; serialCode := "001" |});
    ("2501003",
     {| name := "Omar Khalid"; program := "Online Chapter - Mobile Development";
        programCode := "Online Chapter"; date := "January 25, 2025";
        yearNumber := 2025; subProgramCode := "01"; serialCode := "003" |}) ].

Fixpoint ownProperty {A} (key : string) (object : list (string * A)) : option A :=
  match object with
  | [] => None
  | (k, v) :: rest => if String.eqb key k then Some v else ownProperty key rest
  end.

(** [lookupCertificate]: what the promise resolves to, [None] for
    [found: false].  [certificateDatabase[id]] is read among the object's
    own keys: the form only looks up strings the validator accepted,
    digits with white space around them, and no inherited property has
    such a name. *)
Definition lookupCertificate (id : string) : option CertificateData :=
  ownProperty id certificateDatabase.

(** What the form shows after a submission. *)
Inductive Shown :=
| ErrorState (message : string)
| SuccessState (certData : CertificateData) (parsedId : ParsedId).

Definition doubleQuote : string := String (ascii_of_nat 34) EmptyString.

(** The [submit] listener of the form, on the content of the input field. *)
Definition submit (certificateId : string) : option Shown :=
  match validateCertificateId certificateId with
  | None => None
  | Some (Invalid error) => Some (ErrorState error)
  | Some (Valid parsed) =>
      match lookupCertificate certificateId with
      | Some data => Some (SuccessState data parsed)
      | None =>
          Some (ErrorState
                  ("Certificate ID " ++ doubleQuote ++ certificateId ++ doubleQuote
                   ++ " not found in our system. Please verify the ID and try again."))
      end
  end.

End Script.

(** ** Operations in sequence *)

Module Repeated.
Import certificateSchema.

(** [trackIP] called once per visit, in order; a visit is the instant
    and the address. *)
Definition trackAll (visits : list (Z * string)) (this : doc) : doc :=
  fold_left (fun d v => trackIP (fst v) (snd v) d) visits this.

(** The last [n] elements of a list. *)
Definition lastN {A} (n : nat) (l : list A) : list A :=
  skipn (length l - n) l.

(** The verify route called once per visit by one client population on
    one certificate ID; the answers are collected in order. *)
Fixpoint verifyAll (P : Primitives) (certId : string) (visits : list (Z * string))
    (w : World) : list (Completion Response) * World :=
  match visits with
  | [] => ([], w)
  | v :: rest =>
      let '(r, w1) :=
        certificatesRouter.verifyRoute P (fst v)
          {| certificatesRouter.params_certificateId := certId;
             certificatesRouter.query_certificateId := Some certId;
             certificatesRouter.clientIP := snd v |} w in
      let '(rs, w2) := verifyAll P certId rest w1 in
      (r :: rs, w2)
  end.

(** The counter an answer of the verify route reports. *)
Definition reportedCount (r : Completion Response) : option json :=
  match r with
  | Normal resp =>
      match field "certificate" (body resp) with
      | Some certificate => field "verificationCount" certificate
      | None => None
      end
  | Throw _ => None
  end.

End Repeated.

(** ** More sample data *)

Module MoreSamples.

(** An account with five recorded failures, the last at minute 4. *)
Definition lockedOut : adminSchema.doc :=
  adminSchema.preSave (Sample.minutes 4)
    (adminSchema.failedLogin (Sample.minutes 4) "198.51.100.4"
       {| adminSchema._id := adminSchema._id Sample.admin;
          adminSchema.username := adminSchema.username Sample.admin;
          adminSchema.email := adminSchema.email Sample.admin;
          adminSchema.passwordHash := adminSchema.passwordHash Sample.admin;
          adminSchema.fullName := adminSchema.fullName Sample.admin;
          adminSchema.role := adminSchema.role Sample.admin;
          adminSchema.permissions := adminSchema.permissions Sample.admin;
          adminSchema.isActive := true;
          adminSchema.lastLogin := None;
          adminSchema.lastLoginIP := Some "198.51.100.4";
          adminSchema.loginAttempts :=
            {| adminSchema.count := 4;
               adminSchema.lastAttemptAt := Some (Sample.minutes 3) |};
          adminSchema.twoFactorEnabled := false;
          adminSchema.twoFactorSecret := None;
          adminSchema.createdBy := None;
          adminSchema.updatedBy := None;
          adminSchema.createdAt := adminSchema.createdAt Sample.admin;
          adminSchema.updatedAt := Sample.minutes 3 |}).

Definition lockedOutWorld : World :=
  {| certificates := certificates Sample.world;
     admins := [lockedOut];
     auditLogs := [];
     dbCalls := [] |}.

(** A record stored without its required [verificationHash] (written
    past the model, by an import), otherwise the active sample. *)
Definition unhashed : certificateSchema.doc :=
  let c := Sample.active in
  {| certificateSchema._id := certificateSchema._id c;
     certificateSchema.certificateId := certificateSchema.certificateId c;
     certificateSchema.recipientName := certificateSchema.recipientName c;
     certificateSchema.recipientEmail := certificateSchema.recipientEmail c;
     certificateSchema.program := certificateSchema.program c;
     certificateSchema.programCategory := certificateSchema.programCategory c;
     certificateSchema.awardDate := certificateSchema.awardDate c;
     certificateSchema.verificationHash := EmptyString;
     certificateSchema.isVerified := certificateSchema.isVerified c;
     certificateSchema.verificationCount := certificateSchema.verificationCount c;
     certificateSchema.lastVerifiedAt := certificateSchema.lastVerifiedAt c;
     certificateSchema.issuedBy := certificateSchema.issuedBy c;
     certificateSchema.certificateUrl := certificateSchema.certificateUrl c;
     certificateSchema.revokedAt := certificateSchema.revokedAt c;
     certificateSchema.revocationReason := certificateSchema.revocationReason c;
     certificateSchema.isRevoked := certificateSchema.isRevoked c;
     certificateSchema.notes := certificateSchema.notes c;
     certificateSchema.ipAddresses := certificateSchema.ipAddresses c;
     certificateSchema.createdBy := certificateSchema.createdBy c;
     certificateSchema.updatedBy := certificateSchema.updatedBy c;
     certificateSchema.createdAt := certificateSchema.createdAt c;
     certificateSchema.updatedAt := certificateSchema.updatedAt c;
     certificateSchema.__v := certificateSchema.__v c |}.

Definition unhashedWorld : World :=
  {| certificates := [unhashed];
     admins := admins Sample.world;
     auditLogs := [];
     dbCalls := [] |}.

(** The claims of a token that may delete. *)
Definition superUser : User :=
  {| id := "65a4c0de00000000000000a0";
     username := "root";
     email := "root@example.org";
     role := "super_admin";
     permissions :=
       Some {| adminSchema.canCreateCertificates := true;
               adminSchema.canEditCertificates := true;
               adminSchema.canDeleteCertificates := true;
               adminSchema.canRevokeCertificates := true;
               adminSchema.canViewAnalytics := true;
               adminSchema.canManageAdmins := true |} |}.

End MoreSamples.

(** ** More JavaScript string primitives *)

Module JsText.

(** [s.replace(/[<>]/g, '')]. *)
Fixpoint removeAngles (s : string) : string :=
  match s with
  | EmptyString => EmptyString
  | String c r =>
      if Ascii.eqb c "<" || Ascii.eqb c ">" then removeAngles r
      else String c (removeAngles r)
  end.

(** [s.slice(0, n)]. *)
Definition sliceTo (n : nat) (s : string) : string := String.substring 0 n s.

(** [c] occurs in [s]. *)
Fixpoint hasChar (c : ascii) (s : string) : bool :=
  match s with
  | EmptyString => false
  | String x r => Ascii.eqb x c || hasChar c r
  end.

(** [s.split(sep)] for a separator of one character: the pieces between
    the separators, at least one. *)
Fixpoint split (sep : ascii) (s : string) : list string :=
  match s with
  | EmptyString => [EmptyString]
  | String c r =>
      if Ascii.eqb c sep then EmptyString :: split sep r
      else match split sep r with
           | piece :: rest => String c piece :: rest
           | [] => [String c EmptyString]
           end
  end.

(** [needle] occurs in [hay] as a substring. *)
Fixpoint includes (needle hay : string) : bool :=
  String.prefix needle hay ||
  match hay with
  | EmptyString => false
  | String _ r => includes needle r
  end.

(** [new RegExp(pattern, 'i').test(s)] for a pattern of letters, white
    space, apostrophes and hyphens, none of which is special in a
    regular expression: a case-insensitive substring search. *)
Definition testIgnoreCase (pattern s : string) : bool :=
  includes (Js.toUpperCase pattern) (Js.toUpperCase s).

(** [/^[a-zA-Z\s'-]+$/.test(s)]. *)
Definition isNameChar (c : ascii) : bool :=
  let n := nat_of_ascii c in
  ((65 <=? n) && (n <=? 90) || (97 <=? n) && (n <=? 122))%nat
  || Js.isWhiteSpace c || Ascii.eqb c "'" || Ascii.eqb c "-".

Fixpoint allNameChars (s : string) : bool :=
  match s with
  | EmptyString => true
  | String c r => isNameChar c && allNameChars r
  end.

Definition testName (s : string) : bool :=
  negb (String.eqb s "") && allNameChars s.

End JsText.

(** ** [middleware/validation.js]: [sanitizeInput], and
    [middleware/auth.js]: [authenticateToken], [authorizeRole] *)

Module middleware.

(** [sanitizeInput] on a string. *)
Definition sanitizeInput (input : string) : string :=
  JsText.sliceTo 1000 (JsText.removeAngles (Js.trim input)).

(** What [jwt.verify] hands to its callback: the decoded claims, an
    error named [TokenExpiredError], or another error. *)
Inductive JwtOutcome :=
| JwtVerified (user : User)
| JwtExpired
| JwtInvalid.

(** [authHeader && authHeader.split(' ')[1]]; [None] is [undefined]. *)
Definition tokenOf (authorization : option string) : option string :=
  match authorization with
  | Some authHeader => nth_error (JsText.split " " authHeader) 1
  | None => None
  end.

(** [authenticateToken]; [jwt_verify] is [jwt.verify] on a token and a
    secret. *)
Definition authenticateToken (jwt_verify : string -> string -> JwtOutcome)
    (P : Primitives) (authorization : option string)
    (next : User -> Db Response) : Db Response :=
  match tokenOf authorization with
  | None | Some EmptyString =>
      ret {| statusCode := 401;
             body := JObj [("error", JStr "Unauthorized");
                           ("message", JStr "No access token provided")] |}
  | Some token =>
      match jwt_verify token (JWT_SECRET P) with
      | JwtExpired =>
          ret {| statusCode := 401;
                 body := JObj [("error", JStr "TokenExpired");
                               ("message", JStr "Access token has expired")] |}
      | JwtInvalid =>
          ret {| statusCode := 403;
                 body := JObj [("error", JStr "Forbidden");
                               ("message", JStr "Invalid access token")] |}
      | JwtVerified user => next user
      end
  end.

(** [authorizeRole(allowedRoles)]. *)
Definition authorizeRole (allowedRoles : list string) (user : option User)
    (next : User -> Db Response) : Db Response :=
  match user with
  | None =>
      ret {| statusCode := 401;
             body := JObj [("error", JStr "Unauthorized");
                           ("message", JStr "User not authenticated")] |}
  | Some u =>
      if existsb (String.eqb (role u)) allowedRoles then next u
      else ret {| statusCode := 403;
                  body := JObj [("error", JStr "Forbidden");
                                ("message", JStr "Insufficient permissions for this action")] |}
  end.

End middleware.

(** ** More queries of the models

    The trace [dbCalls] records the calls of the routes modelled above;
    the queries below leave it alone. *)

Module Queries.
Import certificateSchema.

Fixpoint removeFirst {A} (sel : A -> bool) (l : list A) : list A :=
  match l with
  | [] => []
  | x :: r => if sel x then r else x :: removeFirst sel r
  end.

(** [Certificate.findByIdAndDelete(id)]. *)
Definition findByIdAndDelete (P : Primitives) (id : string) : Db (option doc) :=
  fun w =>
    if objectId_isValid P id then
      match find (fun d => String.eqb (_id d) id) (certificates w) with
      | Some c =>
          (Normal (Some c),
           setCertificates
             (removeFirst (fun d => String.eqb (_id d) id) (certificates w)) w)
      | None => (Normal None, w)
      end
    else (Throw "CastError", w).

(** [Certificate.find(filter)], in collection order. *)
Definition findMany (filter : doc -> bool) : Db (list doc) :=
  fun w => (Normal (List.filter filter (certificates w)), w).

(** [Certificate.countDocuments(filter)]. *)
Definition countDocuments (filter : doc -> bool) : Db Z :=
  fun w => (Normal (Z.of_nat (length (List.filter filter (certificates w)))), w).

(** [.sort({ key: -1 })]: descending; documents with equal keys keep
    their collection order (the database leaves their order open). *)
Fixpoint insertDesc {A} (key : A -> Z) (x : A) (l : list A) : list A :=
  match l with
  | [] => [x]
  | y :: r => if key y <=? key x then x :: y :: r else y :: insertDesc key x r
  end.

Definition sortDesc {A} (key : A -> Z) (l : list A) : list A :=
  fold_right (insertDesc key) [] l.

(** The [$group] stage [{ _id: '$program', count: { $sum: 1 } }]: one
    group per program, in order of first appearance. *)
Fixpoint bump (k : string) (groups : list (string * Z)) : list (string * Z) :=
  match groups with
  | [] => [(k, 1)]
  | (k', n) :: r => if String.eqb k' k then (k', n + 1) :: r else (k', n) :: bump k r
  end.

Definition groupByProgram (l : list doc) : list (string * Z) :=
  fold_left (fun groups d => bump (program d) groups) l [].

(** The sum of the counts of a list of groups. *)
Definition total (groups : list (string * Z)) : Z :=
  fold_right Z.add 0 (map snd groups).

(** A certificate as [.lean()] returns it under [.select('-ipAddresses')]:
    the stored paths but the IP list, no virtuals. *)
Definition leanWithoutIPs (this : doc) : json :=
  JObj [("_id", JStr (_id this));
        ("certificateId", JStr (certificateId this));
        ("recipientName", JStr (recipientName this));
        ("recipientEmail", JStr (recipientEmail this));
        ("program", JStr (program this));
        ("programCategory", JStr (programCategory this));
        ("awardDate", JDate (awardDate this));
        ("verificationHash", JStr (verificationHash this));
        ("isVerified", JBool (isVerified this));
        ("verificationCount", JNum (verificationCount this));
        ("lastVerifiedAt", jOpt JDate JUndefined (lastVerifiedAt this));
        ("issuedBy", JStr (issuedBy this));
        ("certificateUrl", jOpt JStr JUndefined (certificateUrl this));
        ("revokedAt", jOpt JDate JNull (revokedAt this));
        ("revocationReason", jOpt JStr JUndefined (revocationReason this));
        ("isRevoked", JBool (isRevoked this));
        ("notes", jOpt JStr JUndefined (notes this));
        ("createdBy", jOpt JStr JUndefined (createdBy this));
        ("updatedBy", jOpt JStr JUndefined (updatedBy this));
        ("createdAt", JDate (createdAt this));
        ("updatedAt", JDate (updatedAt this));
        ("__v", JNum (__v this))].

(** A certificate under [.select('certificateId program awardDate')]:
    the three paths and [_id], which an inclusive selection keeps. *)
Definition leanSearchResult (this : doc) : json :=
  JObj [("_id", JStr (_id this));
        ("certificateId", JStr (certificateId this));
        ("program", JStr (program this));
        ("awardDate", JDate (awardDate this))].

Definition actionName (a : auditLogSchema.Action) : string :=
  match a with
  | auditLogSchema.CREATE => "CREATE" | auditLogSchema.READ => "READ"
  | auditLogSchema.UPDATE => "UPDATE" | auditLogSchema.DELETE => "DELETE"
  | auditLogSchema.VERIFY => "VERIFY" | auditLogSchema.REVOKE => "REVOKE"
  | auditLogSchema.LOGIN => "LOGIN" | auditLogSchema.LOGOUT => "LOGOUT"
  end.

Definition entityTypeName (t : auditLogSchema.EntityType) : string :=
  match t with
  | auditLogSchema.CERTIFICATE => "CERTIFICATE"
  | auditLogSchema.ADMIN => "ADMIN"
  | auditLogSchema.USER => "USER"
  end.

Definition statusName (s : auditLogSchema.Status) : string :=
  match s with
  | auditLogSchema.SUCCESS => "SUCCESS"
  | auditLogSchema.FAILED => "FAILED"
  end.

(** An audit entry as [.lean()] returns it. *)
Definition leanAuditLog (e : auditLogSchema.doc) : json :=
  JObj [("action", JStr (actionName (auditLogSchema.action e)));
        ("entityType", JStr (entityTypeName (auditLogSchema.entityType e)));
        ("entityId", jOpt JStr JUndefined (auditLogSchema.entityId e));
        ("performedBy", jOpt JStr JUndefined (auditLogSchema.performedBy e));
        ("performedByUsername",
         jOpt JStr JUndefined (auditLogSchema.performedByUsername e));
        ("ipAddress", JStr (auditLogSchema.ipAddress e));
        ("userAgent", jOpt JStr JUndefined (auditLogSchema.userAgent e));
        ("status", JStr (statusName (auditLogSchema.status e)));
        ("details", auditLogSchema.details e);
        ("errorMessage", jOpt JStr JUndefined (auditLogSchema.errorMessage e));
        ("changes", auditLogSchema.changes e);
        ("createdAt", JDate (auditLogSchema.createdAt e))].

End Queries.

(** ** The admin router: deleting, listing and analytics *)

Module adminCertificates.
Import certificateSchema Queries.

(** A request to [DELETE /certificates/:id]. *)
Record DeleteRequest := {
  params_id : string;
  user : option User;
  clientIP : string
}.

Definition deleteEntry (now : Z) (u : User) (addr : string) (certificate : doc)
  : auditLogSchema.doc :=
  {| auditLogSchema.action := auditLogSchema.DELETE;
     auditLogSchema.entityType := auditLogSchema.CERTIFICATE;
     auditLogSchema.entityId := Some (_id certificate);
     auditLogSchema.performedBy := Some (id u);
     auditLogSchema.performedByUsername := Some (username u);
     auditLogSchema.ipAddress := addr;
     auditLogSchema.userAgent := None;
     auditLogSchema.status := auditLogSchema.SUCCESS;
     auditLogSchema.details :=
       JObj [("certificateId", JStr (certificateId certificate));
             ("recipientName", JStr (recipientName certificate))];
     auditLogSchema.errorMessage := None;
     auditLogSchema.changes := JUndefined;
     auditLogSchema.createdAt := now |}.

Definition deletedResponse : Response :=
  {| statusCode := 200;
     body := JObj [("message", JStr "Certificate deleted successfully")] |}.

Definition deletionFailedResponse : Response :=
  {| statusCode := 500;
     body := JObj [("error", JStr "Deletion Failed");
                   ("message", JStr "Failed to delete certificate")] |}.

(** The handler of [DELETE /certificates/:id]. *)
Definition deleteHandler (P : Primitives) (now : Z) (req : DeleteRequest) (u : User)
  : Db Response :=
  tryCatch
    (let id := params_id req in
     let clientIP := clientIP req in
     certificate <- findByIdAndDelete P id ;;
     match certificate with
     | None => ret adminRouter.notFoundResponse
     | Some certificate =>
         AuditLog.create (deleteEntry now u clientIP certificate) ;;
         ret deletedResponse
     end)
    (fun error => ret deletionFailedResponse).

Definition deleteRoute (P : Primitives) (now : Z) (req : DeleteRequest) : Db Response :=
  authorizePermission "canDeleteCertificates" (user req)
    (fun u => deleteHandler P now req u).

(** *** Analytics *)

Definition analyticsFailedResponse : Response :=
  {| statusCode := 500;
     body := JObj [("error", JStr "Analytics Failed");
                   ("message", JStr "Failed to fetch analytics")] |}.

Definition groupToJSON (g : string * Z) : json :=
  JObj [("_id", JStr (fst g)); ("count", JNum (snd g))].

(** The aggregation pipeline: [$match], [$group], [$sort]. *)
Definition byProgram (l : list doc) : list (string * Z) :=
  sortDesc snd (groupByProgram (List.filter (fun d => Bool.eqb (isRevoked d) false) l)).

(** The ten latest successful verifications. *)
Definition recentVerifications (l : list auditLogSchema.doc) : list auditLogSchema.doc :=
  firstn 10
    (sortDesc auditLogSchema.createdAt
       (List.filter
          (fun e => auditLogSchema.isAction auditLogSchema.VERIFY e
                    && match auditLogSchema.status e with
                       | auditLogSchema.SUCCESS => true
                       | auditLogSchema.FAILED => false
                       end) l)).

(** The handler of [GET /analytics]. *)
Definition analyticsHandler : Db Response :=
  tryCatch
    (total <- countDocuments (fun _ => true) ;;
     verified <- countDocuments (fun d => Bool.eqb (isVerified d) true) ;;
     revoked <- countDocuments (fun d => Bool.eqb (isRevoked d) true) ;;
     let active := total - revoked in
     groups <- (fun w => (Normal (byProgram (certificates w)), w)) ;;
     recent <- (fun w => (Normal (recentVerifications (auditLogs w)), w)) ;;
     ret {| statusCode := 200;
            body := JObj [("summary",
                           JObj [("total", JNum total);
                                 ("active", JNum active);
                                 ("verified", JNum verified);
                                 ("revoked", JNum revoked)]);
                          ("byProgram", JArr (map groupToJSON groups));
                          ("recentVerifications", JArr (map leanAuditLog recent))] |})
    (fun error => ret analyticsFailedResponse).

Definition analyticsRoute (user : option User) : Db Response :=
  authorizePermission "canViewAnalytics" user (fun _ => analyticsHandler).

End adminCertificates.

(** ** The certificates router: [GET /search] *)

Module searchRouter.
Import certificateSchema Queries.

(** The request: [req.query.recipient], [req.query.program] (absent when
    the URL has none) and [req.user]. *)
Record Request := {
  query_recipient : option string;
  query_program : option string;
  user : option User
}.

(** The [enum] of [program] in the certificate schema. *)
Definition schemaPrograms : list string :=
  ["Web Development"; "Mobile Development"; "Machine Learning";
   "Algorithms & Data Structures"; "Programming Fundamentals";
   "Full Stack Development"; "Cloud Computing"; "Cybersecurity"; "Other"].

(** The list of [isIn] in the chain of [program]. *)
Definition searchPrograms : list string :=
  ["Web Development"; "Mobile Development"; "Machine Learning";
   "Algorithms & Data Structures"; "Programming Fundamentals";
   "Full Stack Development"; "Cloud Computing"; "Cybersecurity"].

(** [query('recipient').optional().trim().isLength({ min: 2, max: 100 })
    .matches(/^[a-zA-Z\s'-]+$/)]: the sanitised field and the errors, one
    for each validator that fails. *)
Definition recipientChain (req : Request) : option string * list ValidationError :=
  match query_recipient req with
  | None => (None, [])
  | Some r =>
      let v := Js.trim r in
      (Some v,
       ((if (2 <=? String.length v)%nat && (String.length v <=? 100)%nat then []
         else [{| param := "recipient";
                  msg := "Search term must be 2-100 characters";
                  value := JStr v |}])
        ++ (if JsText.testName v then []
            else [{| param := "recipient";
                     msg := "Invalid characters in search term";
                     value := JStr v |}]))%list)
  end.

(** [query('program').optional().isIn([...])]. *)
Definition programChain (req : Request) : list ValidationError :=
  match query_program req with
  | None => []
  | Some p =>
      if existsb (String.eqb p) searchPrograms then []
      else [{| param := "program"; msg := "Invalid program specified"; value := JStr p |}]
  end.

(** A string in a condition: present and not empty. *)
Definition truthy (s : option string) : bool :=
  match s with
  | Some (String _ _) => true
  | _ => false
  end.

(** The query object the handler builds. *)
Definition searchQuery (recipient program : option string) (user : option User)
    (d : doc) : bool :=
  Bool.eqb (isRevoked d) false
  && (match recipient, user with
      | Some r, Some _ =>
          if truthy recipient
          then JsText.testIgnoreCase (middleware.sanitizeInput r) (recipientName d)
          else true
      | _, _ => true
      end)
  && (match program with
      | Some p => if truthy program then String.eqb (certificateSchema.program d) p else true
      | None => true
      end).

Definition searchErrorResponse : Response :=
  {| statusCode := 500;
     body := JObj [("error", JStr "Search Error");
                   ("message", JStr "Failed to search certificates")] |}.

(** The handler of [GET /search], on the sanitised query. *)
Definition searchHandler (recipient program : option string) (user : option User)
  : Db Response :=
  tryCatch
    (found <- findMany (searchQuery recipient program user) ;;
     let certificates := firstn 20 found in
     ret {| statusCode := 200;
            body := JObj [("count", JNum (Z.of_nat (length certificates)));
                          ("results", JArr (map leanSearchResult certificates))] |})
    (fun error => ret searchErrorResponse).

Definition searchRoute (req : Request) : Db Response :=
  let '(recipient, errors) := recipientChain req in
  handleValidationErrors (errors ++ programChain req)%list
    (searchHandler recipient (query_program req) (user req)).

End searchRouter.

(** Requests to [GET /search]. *)

Module SearchSamples.

Definition byProgram : searchRouter.Request :=
  {| searchRouter.query_recipient := None;
     searchRouter.query_program := Some "Web Development";
     searchRouter.user := None |}.

Definition byName : searchRouter.Request :=
  {| searchRouter.query_recipient := Some " hassan ";
     searchRouter.query_program := None;
     searchRouter.user := None |}.

Definition byOther : searchRouter.Request :=
  {| searchRouter.query_recipient := None;
     searchRouter.query_program := Some "Other";
     searchRouter.user := Some Sample.user |}.

End SearchSamples.

(** ** The admin router: [GET /certificates] *)

Module listRouter.
Import certificateSchema Queries.

(** The request: [req.query.page], [req.query.limit] (absent when the
    URL has none) and [req.user]. *)
Record Request := {
  query_page : option string;
  query_limit : option string;
  user : option User
}.

Definition allowedRoles : list string := ["super_admin"; "admin"; "moderator"].

(** [/^[-+]?[0-9]+$/.test(s)], the regular expression of [isInt]. *)
Definition isIntString (s : string) : bool :=
  match s with
  | String "-"%char r => negb (String.eqb r "") && Js.allDigits r
  | String "+"%char r => negb (String.eqb r "") && Js.allDigits r
  | _ => negb (String.eqb s "") && Js.allDigits s
  end.

(** [isInt(s, { min, max })]: the string is a signed run of digits and
    the number it denotes - the one [parseInt] reads from such a string -
    is within the bounds; [None] is no bound.  The code compares
    doubles; rounding is monotone and the bounds here are doubles
    themselves, so the outcome is that of the exact comparison. *)
Definition isInt (min : Z) (max : option Z) (s : string) : bool :=
  isIntString s
  && match Js.parseInt s with
     | Some n => (min <=? n) && match max with Some m => n <=? m | None => true end
     | None => false
     end.

(** [query('page').optional().isInt({ min: 1 })]. *)
Definition pageChain (req : Request) : list ValidationError :=
  match query_page req with
  | None => []
  | Some s =>
      if isInt 1 None s then []
      else [{| param := "page"; msg := "Invalid page number"; value := JStr s |}]
  end.

(** [query('limit').optional().isInt({ min: 1, max: 100 })]. *)
Definition limitChain (req : Request) : list ValidationError :=
  match query_limit req with
  | None => []
  | Some s =>
      if isInt 1 (Some 100) s then []
      else [{| param := "limit"; msg := "Limit must be 1-100"; value := JStr s |}]
  end.

(** [Number.MAX_SAFE_INTEGER]: up to it, in absolute value, every
    integer is a double of its own. *)
Definition MAX_SAFE_INTEGER : Z := 2 ^ 53 - 1.

Definition isSafeInteger (n : Z) : bool :=
  (- MAX_SAFE_INTEGER <=? n) && (n <=? MAX_SAFE_INTEGER).

(** [parseInt(v) || d]: [NaN] and 0 give the default; [parseInt] of an
    absent field is [NaN].  The result is a double: the integer read
    when that is a safe integer; beyond, [parseInt] rounds it, to
    [Infinity] for a long enough run of digits, and the result is not
    an integer this embedding follows: [None]. *)
Definition parseIntOr (v : option string) (d : Z) : option Z :=
  match v with
  | Some s =>
      match Js.parseInt s with
      | Some 0 | None => Some d
      | Some n => if isSafeInteger n then Some n else None
      end
  | None => Some d
  end.

(** [Math.ceil(total / limit)] for [0 <= total] and [0 < limit]. *)
Definition ceilDiv (total limit : Z) : Z := (total + limit - 1) / limit.

Definition fetchFailedResponse : Response :=
  {| statusCode := 500;
     body := JObj [("error", JStr "Fetch Failed");
                   ("message", JStr "Failed to fetch certificates")] |}.

(** [Certificate.find().skip(skip).limit(limit).sort({ createdAt: -1 })]:
    the query sorts first, then skips, then limits.  The chains let
    through [0 <= skip] and [1 <= limit] only. *)
Definition pageOf (skip limit : Z) (l : list doc) : list doc :=
  firstn (Z.to_nat limit) (skipn (Z.to_nat skip) (sortDesc createdAt l)).

(** The handler of [GET /certificates].  The arithmetic is that of
    doubles, followed here on safe integers: what the [try] block does
    with a [page] or a [skip] beyond them (a rounded number, or
    [Infinity] sent to the database as [skip]) is left open, as the
    parameter [beyond]. *)
Definition listHandler (beyond : Db Response) (req : Request) : Db Response :=
  tryCatch
    (match parseIntOr (query_page req) 1, parseIntOr (query_limit req) 20 with
     | Some page, Some limit =>
         let skip := (page - 1) * limit in
         if isSafeInteger skip then
           certificates <- (fun w => (Normal (pageOf skip limit (certificates w)), w)) ;;
           total <- countDocuments (fun _ => true) ;;
           ret {| statusCode := 200;
                  body := JObj [("page", JNum page);
                                ("limit", JNum limit);
                                ("total", JNum total);
                                ("pages", JNum (ceilDiv total limit));
                                ("certificates",
                                 JArr (map leanWithoutIPs certificates))] |}
         else beyond
     | _, _ => beyond
     end)
    (fun error => ret fetchFailedResponse).

(** The route: the role is checked first, then the chains. *)
Definition listRoute (beyond : Db Response) (req : Request) : Db Response :=
  middleware.authorizeRole allowedRoles (user req)
    (fun _ => handleValidationErrors (pageChain req ++ limitChain req)%list
                (listHandler beyond req)).

End listRouter.

Module ListSamples.

Definition secondPage : listRouter.Request :=
  {| listRouter.query_page := Some "2";
     listRouter.query_limit := Some "3";
     listRouter.user := Some Sample.user |}.

End ListSamples.

(** ** [middleware/errorHandler.js] *)

Module errorHandlerJs.

(** The properties of [err] the handler reads; [None] is [undefined].
    [errors] holds the [path] and [message] of each entry of
    [err.errors], [keyPattern] the keys of [err.keyPattern]. *)
Record Err := {
  name : option string;
  message : option string;
  err_statusCode : option Z;
  code : option Z;
  errors : option (list (string * string));
  keyPattern : option (list string)
}.

(** [s || d] on a string that may be absent. *)
Definition stringOr (s : option string) (d : string) : string :=
  match s with
  | Some (String c r) => String c r
  | _ => d
  end.

(** [n || d] on a number that may be absent. *)
Definition numberOr (n : option Z) (d : Z) : Z :=
  match n with
  | Some 0 | None => d
  | Some v => v
  end.

Definition hasName (err : Err) (n : string) : bool :=
  match name err with
  | Some s => String.eqb s n
  | None => false
  end.

Definition detailToJSON (e : string * string) : json :=
  JObj [("field", JStr (fst e)); ("message", JStr (snd e))].

(** [errorResponse.message = m]. *)
Fixpoint setMessage (m : string) (fields : list (string * json)) : list (string * json) :=
  match fields with
  | [] => []
  | (k, v) :: r =>
      if String.eqb k "message" then (k, JStr m) :: r else (k, v) :: setMessage m r
  end.

(** One rule of the handler: the status and the response so far go in,
    the new ones come out; a rule may throw. *)
Definition Rule := Z * list (string * json) -> Completion (Z * list (string * json)).

Definition validationRule (err : Err) (timestamp : string) : Rule :=
  fun st =>
    if hasName err "ValidationError" then
      match errors err with
      | Some es =>
          Normal (400, [("error", JStr "Validation Error");
                        ("message", JStr "Request validation failed");
                        ("details", JArr (map detailToJSON es));
                        ("timestamp", JStr timestamp)])
      | None => Throw "TypeError"
      end
    else Normal st.

Definition hasCode (err : Err) (c : Z) : bool :=
  match code err with
  | Some n => n =? c
  | None => false
  end.

Definition duplicateKeyRule (err : Err) (timestamp : string) : Rule :=
  fun st =>
    if hasCode err 11000 then
      match keyPattern err with
      | Some ks =>
          let field := nth_error ks 0 in
          Normal (400, [("error", JStr "Duplicate Entry");
                        ("message",
                         JStr (match field with Some f => f | None => "undefined" end
                               ++ " already exists in the system"));
                        ("field", jOpt JStr JUndefined field);
                        ("timestamp", JStr timestamp)])
      | None => Throw "TypeError"
      end
    else Normal st.

Definition namedRule (err : Err) (timestamp : string) (n : string) (status : Z)
    (error message : string) : Rule :=
  fun st =>
    if hasName err n then
      Normal (status, [("error", JStr error);
                       ("message", JStr message);
                       ("timestamp", JStr timestamp)])
    else Normal st.

Definition productionRule (production : bool) : Rule :=
  fun st =>
    if production && (fst st =? 500)
    then Normal (fst st, setMessage "An error occurred. Please try again later." (snd st))
    else Normal st.

Definition andThen (r1 r2 : Rule) : Rule :=
  fun st =>
    match r1 st with
    | Normal st' => r2 st'
    | Throw e => Throw e
    end.

(** The rules for the errors the handler knows, in the order of the
    source: each one that applies replaces the status and the response. *)
Definition knownErrorRules (err : Err) (timestamp : string) : Rule :=
  andThen (validationRule err timestamp)
    (andThen (duplicateKeyRule err timestamp)
       (andThen (namedRule err timestamp "JsonWebTokenError" 401
                   "Authentication Error" "Invalid token")
          (andThen (namedRule err timestamp "TokenExpiredError" 401
                      "Token Expired"
                      "Your session has expired. Please login again.")
             (namedRule err timestamp "CastError" 400
                "Invalid ID" "The provided ID is invalid")))).

(** [errorHandler(err, req, res, next)]; [timestamp] is
    [new Date().toISOString()] and [production] tells whether
    [NODE_ENV] is [production]. *)
Definition errorHandler (production : bool) (timestamp : string) (err : Err)
  : Completion Response :=
  let start :=
    (numberOr (err_statusCode err) 500,
     [("error", JStr (stringOr (name err) "Internal Server Error"));
      ("message", JStr (stringOr (message err) "An unexpected error occurred"));
      ("timestamp", JStr timestamp)]) in
  match andThen (knownErrorRules err timestamp) (productionRule production) start with
  | Normal (statusCode, errorResponse) =>
      Normal {| statusCode := statusCode; body := JObj errorResponse |}
  | Throw e => Throw e
  end.

(** The errors one of the rules applies to. *)
Definition known (err : Err) : bool :=
  hasName err "ValidationError" || hasCode err 11000
  || hasName err "JsonWebTokenError" || hasName err "TokenExpiredError"
  || hasName err "CastError".

(** [err] with another message. *)
Definition withMessage (m : option string) (err : Err) : Err :=
  {| name := name err; message := m; err_statusCode := err_statusCode err;
     code := code err; errors := errors err; keyPattern := keyPattern err |}.

(** The value of a key of the response. *)
Definition field (k : string) (r : Response) : option json :=
  match body r with
  | JObj fields => assoc k fields
  | _ => None
  end.

End errorHandlerJs.

Module ErrorSamples.

(** A failed database connection, as a driver reports it. *)
Definition connectionLost : errorHandlerJs.Err :=
  {| errorHandlerJs.name := Some "MongoNetworkError";
     errorHandlerJs.message := Some "connect ECONNREFUSED 10.1.2.3:27017";
     errorHandlerJs.err_statusCode := None;
     errorHandlerJs.code := None;
     errorHandlerJs.errors := None;
     errorHandlerJs.keyPattern := None |}.

End ErrorSamples.

(** ** The auth router: [POST /logout] and [POST /change-password] *)

Module logoutRouter.

(** A request to [POST /logout]. *)
Record LogoutRequest := {
  logout_user : option User;
  logout_clientIP : string
}.

Definition logoutEntry (now : Z) (u : User) (addr : string) : auditLogSchema.doc :=
  {| auditLogSchema.action := auditLogSchema.LOGOUT;
     auditLogSchema.entityType := auditLogSchema.ADMIN;
     auditLogSchema.entityId := None;
     auditLogSchema.performedBy := Some (id u);
     auditLogSchema.performedByUsername := Some (username u);
     auditLogSchema.ipAddress := addr;
     auditLogSchema.userAgent := None;
     auditLogSchema.status := auditLogSchema.SUCCESS;
     auditLogSchema.details := JUndefined;
     auditLogSchema.errorMessage := None;
     auditLogSchema.changes := JUndefined;
     auditLogSchema.createdAt := now |}.

Definition logoutSuccessfulResponse : Response :=
  {| statusCode := 200; body := JObj [("message", JStr "Logout successful")] |}.

Definition logoutFailedResponse : Response :=
  {| statusCode := 500;
     body := JObj [("error", JStr "Logout Failed");
                   ("message", JStr "An error occurred during logout")] |}.

(** The handler of [POST /logout]. *)
Definition logoutRoute (now : Z) (req : LogoutRequest) : Db Response :=
  tryCatch
    (let clientIP := logout_clientIP req in
     match logout_user req with
     | Some u => AuditLog.create (logoutEntry now u clientIP)
     | None => ret tt
     end ;;
     ret logoutSuccessfulResponse)
    (fun error => ret logoutFailedResponse).

End logoutRouter.

Module accountRouter.
Import adminSchema.

(** A request to [POST /change-password]. *)
Record Request := {
  body_currentPassword : option string;
  body_newPassword : option string;
  user : option User;
  clientIP : string
}.

(** The string a validator sees for a field. *)
Definition fieldString (v : option string) : string :=
  match v with Some s => s | None => "" end.

(** A line terminator, which [.] of a regular expression does not match. *)
Definition isLineTerminator (c : ascii) : bool :=
  let n := nat_of_ascii c in ((n =? 10) || (n =? 13))%nat.

(** The characters [.*] can run over from the start of the string. *)
Fixpoint firstLine (s : string) : string :=
  match s with
  | EmptyString => EmptyString
  | String c r => if isLineTerminator c then EmptyString else String c (firstLine r)
  end.

Fixpoint existsChar (p : ascii -> bool) (s : string) : bool :=
  match s with
  | EmptyString => false
  | String c r => p c || existsChar p r
  end.

Definition isLower (c : ascii) : bool :=
  let n := nat_of_ascii c in ((97 <=? n) && (n <=? 122))%nat.

Definition isUpper (c : ascii) : bool :=
  let n := nat_of_ascii c in ((65 <=? n) && (n <=? 90))%nat.

(** [[@$!%*?&]]. *)
Definition isSpecial (c : ascii) : bool :=
  existsb (Ascii.eqb c) ["@"; "$"; "!"; "%"; "*"; "?"; "&"]%char.

(** [/^(?=.*[a-z])(?=.*[A-Z])(?=.*\d)(?=.*[@$!%*?&])/.test(s)]. *)
Definition testStrength (s : string) : bool :=
  let line := firstLine s in
  existsChar isLower line && existsChar isUpper line
  && existsChar Js.isDigit line && existsChar isSpecial line.

Definition optionEqb (a b : option string) : bool :=
  match a, b with
  | Some x, Some y => String.eqb x y
  | None, None => true
  | _, _ => false
  end.

(** The chains of [currentPassword] and [newPassword]; every validator
    that fails leaves its error. *)
Definition changePasswordChains (req : Request) : list ValidationError :=
  let current := body_currentPassword req in
  let new := body_newPassword req in
  ((if (8 <=? String.length (fieldString current))%nat then []
    else [{| param := "currentPassword"; msg := "Current password is required";
             value := jOpt JStr JUndefined current |}])
   ++ (if (8 <=? String.length (fieldString new))%nat then []
       else [{| param := "newPassword";
                msg := "New password must be at least 8 characters";
                value := jOpt JStr JUndefined new |}])
   ++ (if testStrength (fieldString new) then []
       else [{| param := "newPassword";
                msg := "Password must contain uppercase, lowercase, number, and special character";
                value := jOpt JStr JUndefined new |}])
   ++ (if negb (optionEqb new current) then []
       else [{| param := "newPassword";
                msg := "New password must be different from current password";
                value := jOpt JStr JUndefined new |}]))%list.

(** [Admin.findById(id).select('+passwordHash')]. *)
Definition findById (P : Primitives) (id : string) : Db (option doc) :=
  fun w =>
    if objectId_isValid P id then
      (Normal (find (fun d => String.eqb (_id d) id) (admins w)), w)
    else (Throw "CastError", w).

(** [admin.passwordHash = value]. *)
Definition setPasswordHash (value : string) (this : doc) : doc :=
  {| _id := _id this; username := username this; email := email this;
     passwordHash := value; fullName := fullName this;
     role := role this; permissions := permissions this;
     isActive := isActive this;
     lastLogin := lastLogin this;
     lastLoginIP := lastLoginIP this;
     loginAttempts := loginAttempts this;
     twoFactorEnabled := twoFactorEnabled this;
     twoFactorSecret := twoFactorSecret this;
     createdBy := createdBy this; updatedBy := updatedBy this;
     createdAt := createdAt this; updatedAt := updatedAt this |}.

Definition passwordEntry (now : Z) (addr : string) (admin : doc)
    (st : auditLogSchema.Status) (details : json) (err : option string)
  : auditLogSchema.doc :=
  {| auditLogSchema.action := auditLogSchema.UPDATE;
     auditLogSchema.entityType := auditLogSchema.ADMIN;
     auditLogSchema.entityId := Some (_id admin);
     auditLogSchema.performedBy := Some (_id admin);
     auditLogSchema.performedByUsername := Some (username admin);
     auditLogSchema.ipAddress := addr;
     auditLogSchema.userAgent := None;
     auditLogSchema.status := st;
     auditLogSchema.details := details;
     auditLogSchema.errorMessage := err;
     auditLogSchema.changes := JUndefined;
     auditLogSchema.createdAt := now |}.

Definition adminNotFoundResponse : Response :=
  {| statusCode := 404;
     body := JObj [("error", JStr "Not Found"); ("message", JStr "Admin not found")] |}.

Definition incorrectPasswordResponse : Response :=
  {| statusCode := 401;
     body := JObj [("error", JStr "Authentication Failed");
                   ("message", JStr "Current password is incorrect")] |}.

Definition passwordChangedResponse : Response :=
  {| statusCode := 200;
     body := JObj [("message", JStr "Password changed successfully")] |}.

Definition passwordChangeFailedResponse : Response :=
  {| statusCode := 500;
     body := JObj [("error", JStr "Password Change Failed");
                   ("message", JStr "Failed to change password")] |}.

(** The handler of [POST /change-password].  [bcrypt_hash] is
    [bcrypt.hash] with the salt the [pre('save')] hook of the admin
    schema draws: the hook replaces the modified [passwordHash] by its
    hash.  Reading [req.user.id] without [req.user] throws a
    [TypeError], as [bcrypt.compare] does without a password. *)
Definition changePasswordHandler (P : Primitives) (bcrypt_hash : string -> string)
    (now : Z) (req : Request) : Db Response :=
  tryCatch
    (let currentPassword := body_currentPassword req in
     let newPassword := body_newPassword req in
     let clientIP := clientIP req in
     u <- match user req with
          | Some u => ret u
          | None => throw "TypeError"
          end ;;
     admin <- findById P (id u) ;;
     match admin with
     | None => ret adminNotFoundResponse
     | Some admin =>
         isValid <- match currentPassword with
                    | Some p => ret (comparePassword P p admin)
                    | None => throw "Illegal arguments"
                    end ;;
         if negb isValid then
           AuditLog.create
             (passwordEntry now clientIP admin auditLogSchema.FAILED JUndefined
                            (Some "Invalid current password")) ;;
           ret incorrectPasswordResponse
         else
           newHash <- match newPassword with
                      | Some p => ret (bcrypt_hash p)
                      | None => throw "ValidationError"
                      end ;;
           Admin.save now (setPasswordHash newHash admin) ;;
           AuditLog.create
             (passwordEntry now clientIP admin auditLogSchema.SUCCESS
                            (JObj [("action", JStr "Password changed")]) None) ;;
           ret passwordChangedResponse
     end)
    (fun error => ret passwordChangeFailedResponse).

Definition changePasswordRoute (P : Primitives) (bcrypt_hash : string -> string)
    (now : Z) (req : Request) : Db Response :=
  handleValidationErrors (changePasswordChains req)
    (changePasswordHandler P bcrypt_hash now req).

End accountRouter.

Module AccountSamples.

Definition bcrypt_hash (plain : string) : string := "bcrypt:" ++ plain.

Definition anonymous : accountRouter.Request :=
  {| accountRouter.body_currentPassword := Some "Correct-Horse-1";
     accountRouter.body_newPassword := Some "Battery-Staple-2!";
     accountRouter.user := None;
     accountRouter.clientIP := "198.51.100.4" |}.

Definition signedIn : accountRouter.Request :=
  {| accountRouter.body_currentPassword := Some "Correct-Horse-1";
     accountRouter.body_newPassword := Some "Battery-Staple-2!";
     accountRouter.user := Some Sample.user;
     accountRouter.clientIP := "198.51.100.4" |}.

End AccountSamples.

(** ** The verification form of [components/CertificateVerifier.js] *)

Module CertificateVerifier.

Inductive Phase := idle | loading | success | error.

(** The state of the component: [state], [certificate] ([JNull] at
    first) and [error]. *)
Record View := {
  state : Phase;
  certificate : json;
  errorText : json
}.

(** A value in a condition. *)
Definition truthy (j : json) : bool :=
  match j with
  | JUndefined | JNull => false
  | JBool b => b
  | JNum n => negb (n =? 0)
  | JStr s => negb (String.eqb s "")
  | JDate _ | JArr _ | JObj _ => true
  end.

(** [j.k], [undefined] when absent. *)
Definition get (k : string) (j : json) : json :=
  match field k j with
  | Some v => v
  | None => JUndefined
  end.

(** [a || b]. *)
Definition orElse (a b : json) : json := if truthy a then a else b.

Definition setError (e : json) (v : View) : View :=
  {| state := state v; certificate := certificate v; errorText := e |}.

Definition setState (p : Phase) (v : View) : View :=
  {| state := p; certificate := certificate v; errorText := errorText v |}.

Definition setCertificate (c : json) (v : View) : View :=
  {| state := state v; certificate := c; errorText := errorText v |}.

(** The request [axios.get] sends: the ID in the path, no query string. *)
Definition verifyRequest (certificateId addr : string) : certificatesRouter.Request :=
  {| certificatesRouter.params_certificateId := Js.toUpperCase (Js.trim certificateId);
     certificatesRouter.query_certificateId := None;
     certificatesRouter.clientIP := addr |}.

(** [handleSubmit] for the content [certificateId] of the field, against
    the verify route of the server; [addr] is the address the server
    sees.  [axios] resolves with a response whose status is 2xx and
    rejects with the others, which the [catch] receives as
    [err.response]. *)
Definition handleSubmit (P : Primitives) (now : Z) (addr : string)
    (certificateId : string) (v : View) (w : World) : View * World :=
  if String.eqb (Js.trim certificateId) "" then
    (setError (JStr "Please enter a certificate ID") v, w)
  else if negb (Js.test_7digits certificateId) then
    (setError (JStr "Certificate ID must be exactly 7 digits") v, w)
  else
    let v := setError (JStr "") (setState loading v) in
    match certificatesRouter.verifyRoute P now (verifyRequest certificateId addr) w with
    | (Normal response, w') =>
        if (200 <=? statusCode response) && (statusCode response <? 300) then
          if truthy (get "verified" (body response)) then
            (setState success (setCertificate (get "certificate" (body response)) v), w')
          else
            (setState error
               (setError (orElse (get "message" (body response))
                                 (JStr "Certificate not found")) v), w')
        else
          (setState error
             (setError (orElse (get "message" (body response))
                               (JStr "Failed to verify certificate")) v), w')
    | (Throw _, w') =>
        (setState error (setError (JStr "Failed to verify certificate") v), w')
    end.

End CertificateVerifier.

Module VerifierSamples.

Definition fresh : CertificateVerifier.View :=
  {| CertificateVerifier.state := CertificateVerifier.idle;
     CertificateVerifier.certificate := JNull;
     CertificateVerifier.errorText := JStr "" |}.

End VerifierSamples.

(** * Properties *)

(** ** Digits, [parseInt] and the ID codec *)

Module CodecFacts.
Import Codec.

Lemma isDigit_cases (c : ascii) :
  Js.isDigit c = true ->
  In c ["0"; "1"; "2"; "3"; "4"; "5"; "6"; "7"; "8"; "9"]%char.
Proof.
  destruct c as [[] [] [] [] [] [] [] []]; cbv; intros H;
    try discriminate H; tauto.
Qed.

Ltac each_digit H :=
  apply isDigit_cases in H; simpl in H;
  repeat (destruct H as [H | H]); try contradiction; subst.

Lemma digit_not_space (c : ascii) : Js.isDigit c = true -> Js.isWhiteSpace c = false.
Proof. intros H. each_digit H; reflexivity. Qed.

Lemma digitValue_digit (c : ascii) :
  Js.isDigit c = true ->
  Js.digitValue 10 c = Some (Z.of_nat (nat_of_ascii c) - 48).
Proof. intros H. each_digit H; reflexivity. Qed.

Lemma digitPrefix_allDigits (s : string) (acc : Z) :
  Js.allDigits s = true ->
  fold_left (fun a d => a * 10 + d) (Js.digitPrefix 10 s) acc = decimalValueFrom acc s.
Proof.
  revert acc. induction s as [|c r IH]; intros acc H; [reflexivity|].
  simpl in H. apply andb_prop in H as [Hc Hr].
  cbn [Js.digitPrefix decimalValueFrom]. rewrite (digitValue_digit c Hc).
  cbn [fold_left]. rewrite (IH _ Hr). f_equal. lia.
Qed.

Lemma digitPrefix_nonempty (c : ascii) (r : string) :
  Js.isDigit c = true -> Js.digitPrefix 10 (String c r) <> [].
Proof.
  intros H. cbn [Js.digitPrefix]. rewrite (digitValue_digit c H). discriminate.
Qed.

(** On a non-empty string of decimal digits [parseInt] is the decimal
    value: no white space, sign or hexadecimal prefix is found. *)
Lemma parseInt_digits (s : string) :
  Js.allDigits s = true -> s <> "" ->
  Js.parseInt s = Some (decimalValue s).
Proof.
  intros H Hne. destruct s as [|c r]; [congruence|].
  pose proof H as Hall. simpl in H. apply andb_prop in H as [Hc Hr].
  assert (Hpre : Js.digitPrefix 10 (String c r) <> []) by now apply digitPrefix_nonempty.
  assert (Hval : Js.digitsValue 10 (Js.digitPrefix 10 (String c r)) = decimalValue (String c r))
    by (apply digitPrefix_allDigits; exact Hall).
  assert (Hgo : forall s0, s0 = String c r ->
            match Js.digitPrefix 10 s0 with
            | [] => None
            | ds => Some (1 * Js.digitsValue 10 ds)
            end = Some (decimalValue (String c r))).
  { intros s0 ->. destruct (Js.digitPrefix 10 (String c r)) eqn:E; [congruence|].
    rewrite Hval. f_equal. lia. }
  unfold Js.parseInt. cbn [Js.trimStart]. rewrite (digit_not_space c Hc).
  destruct r as [|d r'].
  - each_digit Hc; apply Hgo; reflexivity.
  - simpl in Hr. apply andb_prop in Hr as [Hd Hr'].
    each_digit Hc; try (apply Hgo; reflexivity);
      each_digit Hd; apply Hgo; reflexivity.
Qed.

Lemma test_7digits_inv (s : string) :
  Js.test_7digits s = true ->
  exists a b c d e f g,
    s = String a (String b (String c (String d (String e (String f (String g ""))))))
    /\ Js.isDigit a = true /\ Js.isDigit b = true /\ Js.isDigit c = true
    /\ Js.isDigit d = true /\ Js.isDigit e = true /\ Js.isDigit f = true
    /\ Js.isDigit g = true.
Proof.
  unfold Js.test_7digits. intros H. apply andb_prop in H as [Hlen Hall].
  apply Nat.eqb_eq in Hlen.
  do 7 (destruct s as [|? s]; [discriminate Hlen|]).
  destruct s; [|discriminate Hlen].
  simpl in Hall. repeat (apply andb_prop in Hall as [? Hall]).
  repeat eexists; eauto.
Qed.

Lemma allDigits2 (a b : ascii) :
  Js.isDigit a = true -> Js.isDigit b = true ->
  Js.allDigits (String a (String b "")) = true.
Proof. intros Ha Hb. simpl. now rewrite Ha, Hb. Qed.

Lemma allDigits3 (a b c : ascii) :
  Js.isDigit a = true -> Js.isDigit b = true -> Js.isDigit c = true ->
  Js.allDigits (String a (String b (String c ""))) = true.
Proof. intros Ha Hb Hc. simpl. now rewrite Ha, Hb, Hc. Qed.

(** Stripping leading zeros of three digits, with the ["0"] fallback, is
    the decimal numeral of their value. *)
Lemma display_is_numeral (e f g : ascii) :
  Js.isDigit e = true -> Js.isDigit f = true -> Js.isDigit g = true ->
  match Js.dropLeadingZeros (String e (String f (String g ""))) with
  | EmptyString => "0"
  | d => d
  end = numberToString (decimalValue (String e (String f (String g "")))).
Proof.
  intros He Hf Hg. each_digit He; each_digit Hf; each_digit Hg; reflexivity.
Qed.

(** C4.  On every 7-digit string [parseCertificateId] returns a result
    (it is total there; as a function it is deterministic and pure); the
    year is ["20"] followed by the first two characters, the sub-program
    is characters 2-3, the serial is characters 4-6, and [serialDisplay]
    is the serial without its leading zeros, or ["0"] when nothing is
    left, which is the decimal numeral of the serial's value. *)
Theorem parseCertificateId_decodes (s : string) :
  Js.test_7digits s = true ->
  exists p,
    parseCertificateId s = Some p
    /\ id p = s
    /\ year p = "20" ++ String.substring 0 2 s
    /\ subProgram p = String.substring 2 2 s
    /\ serial p = String.substring 4 3 s
    /\ serialDisplay p =
         (if String.eqb (Js.dropLeadingZeros (serial p)) ""
          then "0" else Js.dropLeadingZeros (serial p))
    /\ serialDisplay p = numberToString (decimalValue (serial p)).
Proof.
  intros H. unfold parseCertificateId. rewrite H. cbn [negb].
  eexists. split; [reflexivity|]. cbn [id year subProgram serial serialDisplay].
  split; [reflexivity|].
  assert (Hdisplay :
    match Js.dropLeadingZeros (Js.substring s 4 7) with
    | EmptyString => "0"
    | d => d
    end =
    (if String.eqb (Js.dropLeadingZeros (Js.substring s 4 7)) ""
     then "0" else Js.dropLeadingZeros (Js.substring s 4 7)))
    by (destruct (Js.dropLeadingZeros (Js.substring s 4 7)); reflexivity).
  destruct (test_7digits_inv s H)
    as (a & b & c & d & e & f & g & -> & Ha & Hb & Hc & Hd & He & Hf & Hg).
  split; [reflexivity|]. split; [reflexivity|]. split; [reflexivity|].
  split; [exact Hdisplay|].
  change (Js.substring (String a (String b (String c (String d (String e (String f (String g ""))))))) 4 7)
    with (String e (String f (String g ""))).
  apply display_is_numeral; assumption.
Qed.

Lemma parseCertificateId_decodes_witness :
  Js.test_7digits "2501007" = true /\
  exists p,
    parseCertificateId "2501007" = Some p
    /\ id p = "2501007"
    /\ year p = "20" ++ String.substring 0 2 "2501007"
    /\ subProgram p = String.substring 2 2 "2501007"
    /\ serial p = String.substring 4 3 "2501007"
    /\ serialDisplay p =
         (if String.eqb (Js.dropLeadingZeros (serial p)) ""
          then "0" else Js.dropLeadingZeros (serial p))
    /\ serialDisplay p = numberToString (decimalValue (serial p)).
Proof.
  split; [reflexivity | apply (parseCertificateId_decodes "2501007"); reflexivity].
Defined.

Lemma digit_range (c : ascii) :
  Js.isDigit c = true -> 48 <= Z.of_nat (nat_of_ascii c) <= 57.
Proof. intros H. each_digit H; cbv; split; discriminate. Qed.

Lemma upperChar_digit (c : ascii) : Js.isDigit c = true -> Js.upperChar c = c.
Proof. intros H. each_digit H; reflexivity. Qed.

(** Trimming and upper-casing leave a 7-digit string as it is. *)
Lemma canonical_7digits (s : string) :
  Js.test_7digits s = true -> Js.toUpperCase (Js.trim s) = s.
Proof.
  intros H.
  destruct (test_7digits_inv s H)
    as (a & b & c & d & e & f & g & -> & Ha & Hb & Hc & Hd & He & Hf & Hg).
  unfold Js.trim. cbn [Js.trimStart]. rewrite (digit_not_space a Ha).
  cbn [Js.trimEnd]. rewrite (digit_not_space g Hg).
  unfold Js.toUpperCase. cbn [Js.mapChars].
  now rewrite !upperChar_digit by assumption.
Qed.

(** The validator on an input whose trimmed, upper-cased form is seven
    digits [a b c d e f g]: the three range rules in order. *)
Lemma validate_digits (s : string) (a b c d e f g : ascii) :
  Js.toUpperCase (Js.trim s) =
    String a (String b (String c (String d (String e (String f (String g "")))))) ->
  Js.isDigit a = true -> Js.isDigit b = true -> Js.isDigit c = true ->
  Js.isDigit d = true -> Js.isDigit e = true -> Js.isDigit f = true ->
  Js.isDigit g = true ->
  validateCertificateId s =
    let y := decimalValue (String a (String b "")) in
    let sp := decimalValue (String c (String d "")) in
    let se := decimalValue (String e (String f (String g ""))) in
    if (y <? 20) || (99 <? y) then Some (Invalid InvalidYear)
    else if (sp <? 0) || (99 <? sp) then Some (Invalid InvalidSubProgram)
    else if (se <? 1) || (9999 <? se) then Some (Invalid InvalidSerial)
    else option_map Valid (parseCertificateId (Js.toUpperCase (Js.trim s))).
Proof.
  intros E Ha Hb Hc Hd He Hf Hg.
  assert (T : Js.test_7digits (Js.toUpperCase (Js.trim s)) = true).
  { rewrite E. unfold Js.test_7digits. cbn [String.length Nat.eqb andb Js.allDigits].
    now rewrite Ha, Hb, Hc, Hd, He, Hf, Hg. }
  unfold validateCertificateId. rewrite T. cbn [negb].
  unfold parseCertificateId. rewrite T. cbn [negb option_map year subProgram serial].
  rewrite E.
  change (Js.substring (String a (String b (String c (String d (String e (String f (String g ""))))))) 0 2)
    with (String a (String b "")).
  change (Js.substring (String a (String b (String c (String d (String e (String f (String g ""))))))) 2 4)
    with (String c (String d "")).
  change (Js.substring (String a (String b (String c (String d (String e (String f (String g ""))))))) 4 7)
    with (String e (String f (String g ""))).
  change (Js.substring ("20" ++ String a (String b ""))
            2 (String.length ("20" ++ String a (String b ""))))
    with (String a (String b "")).
  rewrite !parseInt_digits by (try discriminate; auto using allDigits2, allDigits3).
  reflexivity.
Qed.

(** Two decimal digits denote a number from 0 to 99: the sub-program rule
    cannot fire on a 7-digit ID. *)
Lemma two_digits_range (c d : ascii) :
  Js.isDigit c = true -> Js.isDigit d = true ->
  0 <= decimalValue (String c (String d "")) <= 99.
Proof.
  intros Hc Hd. apply digit_range in Hc, Hd.
  unfold decimalValue. cbn [decimalValueFrom]. lia.
Qed.

(** The validator on a 7-digit input, by the values of its three fields. *)
Lemma validate_7digits (s : string) :
  Js.test_7digits (Js.toUpperCase (Js.trim s)) = true ->
  validateCertificateId s =
    let id := Js.toUpperCase (Js.trim s) in
    let y := decimalValue (String.substring 0 2 id) in
    let sp := decimalValue (String.substring 2 2 id) in
    let se := decimalValue (String.substring 4 3 id) in
    if (y <? 20) || (99 <? y) then Some (Invalid InvalidYear)
    else if (sp <? 0) || (99 <? sp) then Some (Invalid InvalidSubProgram)
    else if (se <? 1) || (9999 <? se) then Some (Invalid InvalidSerial)
    else option_map Valid (parseCertificateId id).
Proof.
  intros T.
  destruct (test_7digits_inv _ T)
    as (a & b & c & d & e & f & g & E & Ha & Hb & Hc & Hd & He & Hf & Hg).
  rewrite (validate_digits s a b c d e f g E) by assumption.
  rewrite E. reflexivity.
Qed.

(** C3 (as amended).  The validator trims and upper-cases its input, then
    applies its rules in order, the first failure winning: an input whose
    trimmed, upper-cased form does not match [^\d{7}$] is rejected with
    the format message; otherwise a year outside [20, 99] gives
    InvalidYear; otherwise a sub-program outside [0, 99] gives
    InvalidSubProgram; otherwise a serial outside [1, 9999] gives
    InvalidSerial; otherwise the result is valid and carries the decoded
    structure.  Boundaries: year digits 19 are rejected, 20 and 99 are
    accepted, serial 000 is rejected. *)
Theorem validateCertificateId_rules :
  (forall s,
     Js.test_7digits (Js.toUpperCase (Js.trim s)) = false ->
     validateCertificateId s = Some (Invalid InvalidFormat))
  /\
  (forall s id y sp se,
     id = Js.toUpperCase (Js.trim s) ->
     Js.test_7digits id = true ->
     y = decimalValue (String.substring 0 2 id) ->
     sp = decimalValue (String.substring 2 2 id) ->
     se = decimalValue (String.substring 4 3 id) ->
     (y < 20 \/ 99 < y -> validateCertificateId s = Some (Invalid InvalidYear))
     /\
     (20 <= y <= 99 -> sp < 0 \/ 99 < sp ->
      validateCertificateId s = Some (Invalid InvalidSubProgram))
     /\
     (20 <= y <= 99 -> 0 <= sp <= 99 -> se < 1 \/ 9999 < se ->
      validateCertificateId s = Some (Invalid InvalidSerial))
     /\
     (20 <= y <= 99 -> 0 <= sp <= 99 -> 1 <= se <= 9999 ->
      exists p, parseCertificateId id = Some p
                /\ validateCertificateId s = Some (Valid p)))
  /\
  (forall r, Js.test_7digits ("19" ++ r) = true ->
     validateCertificateId ("19" ++ r) = Some (Invalid InvalidYear))
  /\
  (forall yy r, yy = "20" \/ yy = "99" ->
     Js.test_7digits (yy ++ r) = true ->
     1 <= decimalValue (String.substring 4 3 (yy ++ r)) ->
     exists p, validateCertificateId (yy ++ r) = Some (Valid p))
  /\
  (forall a b c d,
     Js.test_7digits (String a (String b (String c (String d "000")))) = true ->
     20 <= decimalValue (String a (String b "")) ->
     validateCertificateId (String a (String b (String c (String d "000"))))
       = Some (Invalid InvalidSerial)).
Proof.
  split; [|split; [|split; [|split]]].
  - intros s H. unfold validateCertificateId. now rewrite H.
  - intros s id y sp se -> T -> -> ->. rewrite (validate_7digits s T). cbv zeta.
    set (y := decimalValue _). set (sp := decimalValue _). set (se := decimalValue _).
    assert (P : exists p, parseCertificateId (Js.toUpperCase (Js.trim s)) = Some p).
    { unfold parseCertificateId. rewrite T. eexists. reflexivity. }
    destruct P as [p Hp]. rewrite Hp. cbn [option_map].
    destruct (Z.ltb_spec y 20), (Z.ltb_spec 99 y), (Z.ltb_spec sp 0),
      (Z.ltb_spec 99 sp), (Z.ltb_spec se 1), (Z.ltb_spec 9999 se);
      cbn [orb]; repeat split; intros; try lia; try reflexivity;
      exists p; split; reflexivity.
  - intros r T. pose proof (canonical_7digits _ T) as E.
    rewrite validate_7digits by (rewrite E; exact T). rewrite E.
    destruct (test_7digits_inv _ T) as (a & b & c & d & e & f & g & Es & _).
    cbn in Es. injection Es as <- <- ->. reflexivity.
  - intros yy r Hyy T Hse. pose proof (canonical_7digits _ T) as E.
    rewrite validate_7digits by (rewrite E; exact T). rewrite E. cbv zeta.
    destruct (test_7digits_inv _ T)
      as (a & b & c & d & e & f & g & Es & Ha & Hb & Hc & Hd & He & Hf & Hg).
    assert (Hsp := two_digits_range c d Hc Hd).
    assert (Hse' : decimalValue (String e (String f (String g ""))) <= 9999).
    { apply digit_range in He, Hf, Hg. unfold decimalValue. cbn [decimalValueFrom]. lia. }
    assert (P : exists p, parseCertificateId (yy ++ r) = Some p).
    { unfold parseCertificateId. rewrite T. eexists. reflexivity. }
    destruct P as [p Hp]. rewrite Hp. exists p.
    rewrite Es in Hse |- *.
    change (String.substring 2 2 (String a (String b (String c (String d (String e (String f (String g ""))))))))
      with (String c (String d "")).
    change (String.substring 4 3 (String a (String b (String c (String d (String e (String f (String g ""))))))))
      with (String e (String f (String g ""))) in Hse |- *.
    change (String.substring 0 2 (String a (String b (String c (String d (String e (String f (String g ""))))))))
      with (String a (String b "")).
    assert (Hy : decimalValue (String a (String b "")) = 20
                 \/ decimalValue (String a (String b "")) = 99).
    { destruct Hyy as [-> | ->]; cbn in Es; injection Es as <- <- _; [left | right];
        reflexivity. }
    destruct (Z.ltb_spec (decimalValue (String a (String b ""))) 20),
      (Z.ltb_spec 99 (decimalValue (String a (String b "")))),
      (Z.ltb_spec (decimalValue (String c (String d ""))) 0),
      (Z.ltb_spec 99 (decimalValue (String c (String d "")))),
      (Z.ltb_spec (decimalValue (String e (String f (String g "")))) 1),
      (Z.ltb_spec 9999 (decimalValue (String e (String f (String g "")))));
      cbn [orb option_map]; try lia; reflexivity.
  - intros a b c d T Hy. pose proof (canonical_7digits _ T) as E.
    rewrite validate_7digits by (rewrite E; exact T). rewrite E. cbv zeta.
    destruct (test_7digits_inv _ T)
      as (a' & b' & c' & d' & e & f & g & Es & Ha & Hb & Hc & Hd & He & Hf & Hg).
    injection Es as <- <- <- <- <- <- <-.
    assert (Hsp := two_digits_range c d Hc Hd).
    assert (Hy' : decimalValue (String a (String b "")) <= 99)
      by (apply (two_digits_range a b Ha Hb)).
    change (String.substring 0 2 (String a (String b (String c (String d "000")))))
      with (String a (String b "")).
    change (String.substring 2 2 (String a (String b (String c (String d "000")))))
      with (String c (String d "")).
    change (decimalValue (String.substring 4 3 (String a (String b (String c (String d "000"))))))
      with 0.
    destruct (Z.ltb_spec (decimalValue (String a (String b ""))) 20),
      (Z.ltb_spec 99 (decimalValue (String a (String b "")))),
      (Z.ltb_spec (decimalValue (String c (String d ""))) 0),
      (Z.ltb_spec 99 (decimalValue (String c (String d ""))));
      cbn [orb]; try lia; reflexivity.
Qed.

Lemma validateCertificateId_rules_witness :
  validateCertificateId "12345" = Some (Invalid InvalidFormat)
  /\ validateCertificateId "1901001" = Some (Invalid InvalidYear)
  /\ validateCertificateId "2001000" = Some (Invalid InvalidSerial)
  /\ (exists p, validateCertificateId "9901001" = Some (Valid p)).
Proof.
  destruct validateCertificateId_rules as (Hfmt & Hrules & H19 & Hok & H000).
  split; [apply (Hfmt "12345"); reflexivity|].
  split; [apply (H19 "01001"); reflexivity|].
  split; [apply (H000 "2"%char "0"%char "0"%char "1"%char); [reflexivity | cbv; discriminate]|].
  apply (Hok "99" "01001"); [right; reflexivity | reflexivity | cbv; discriminate].
Defined.

(** C3, as stated, fails: the string [" 2501001"] does not match
    [^\d{7}$], yet the validator, which trims first, accepts it. *)
Lemma validateCertificateId_accepts_padded_id :
  ~ (forall s, Js.test_7digits s = false ->
               validateCertificateId s = Some (Invalid InvalidFormat)).
Proof.
  intros H. specialize (H " 2501001" eq_refl). vm_compute in H. discriminate H.
Qed.

End CodecFacts.

(** ** The IP list of a certificate *)

Module TrackIPFacts.
Import certificateSchema.

Lemma find_ip_none (addr : string) (l : list IpEntry) :
  find (fun entry => String.eqb (ip entry) addr) l = None <-> ~ In addr (map ip l).
Proof.
  induction l as [|e r IH]; cbn [find map In].
  - tauto.
  - destruct (String.eqb_spec (ip e) addr) as [E | E].
    + split; [discriminate | intros H; exfalso; apply H; left; exact E].
    + rewrite IH. tauto.
Qed.

Lemma find_ip_some (addr : string) (l : list IpEntry) :
  In addr (map ip l) ->
  exists e, find (fun entry => String.eqb (ip entry) addr) l = Some e.
Proof.
  intros H. destruct (find _ l) eqn:E; [eauto|].
  apply find_ip_none in E. contradiction.
Qed.

Lemma touchFirst_ips (now : Z) (addr : string) (l : list IpEntry) :
  map ip (touchFirst now addr l) = map ip l.
Proof.
  induction l as [|e r IH]; [reflexivity|]. cbn [touchFirst].
  destruct (String.eqb (ip e) addr); cbn [map ip]; [reflexivity | now rewrite IH].
Qed.

(** With pairwise-distinct addresses the first match is the only one:
    touching it is touching every entry with this address. *)
Lemma touchFirst_map (now : Z) (addr : string) (l : list IpEntry) :
  NoDup (map ip l) ->
  touchFirst now addr l =
  map (fun e => if String.eqb (ip e) addr
                then {| ip := ip e; verifiedAt := now |} else e) l.
Proof.
  induction l as [|e r IH]; intros ND; [reflexivity|].
  cbn [map] in ND. inversion ND as [|? ? Hnotin ND']; subst.
  cbn [touchFirst map].
  destruct (String.eqb_spec (ip e) addr) as [E | E].
  - f_equal. clear IH ND ND'. induction r as [|x r IHr]; [reflexivity|].
    cbn [map]. cbn [map In] in Hnotin.
    destruct (String.eqb_spec (ip x) addr) as [Ex | Ex].
    + exfalso. apply Hnotin. left. congruence.
    + f_equal. apply IHr. tauto.
  - f_equal. apply IH. exact ND'.
Qed.

Lemma NoDup_snoc {A} (l : list A) (x : A) :
  NoDup l -> ~ In x l -> NoDup (l ++ [x]).
Proof.
  induction l as [|y r IH]; intros ND Hx; cbn [app].
  - constructor; [intros [] | constructor].
  - inversion ND as [|? ? Hy ND']; subst. constructor.
    + rewrite in_app_iff. cbn [In]. intros [H | [H | []]]; [tauto|].
      subst. apply Hx. left. reflexivity.
    + apply IH; [exact ND' | intros H; apply Hx; right; exact H].
Qed.

(** After [trackIP] the address is in the list. *)
Lemma trackedIPs_records (now : Z) (addr : string) (l : list IpEntry) :
  In addr (map ip (trackedIPs now addr l)).
Proof.
  unfold trackedIPs.
  destruct (find (fun entry => String.eqb (ip entry) addr) l) eqn:F.
  - rewrite touchFirst_ips.
    destruct (in_dec string_dec addr (map ip l)) as [H | H]; [exact H|].
    apply find_ip_none in H. congruence.
  - rewrite map_app, in_app_iff. right. left. reflexivity.
Qed.

(** C5.  On a list of at most 10 entries with pairwise-distinct
    addresses, [trackIP] keeps both properties; a new address arriving at
    a full list evicts the front entry and is appended; a new address
    arriving at a shorter list is appended; a known address only has its
    entry's timestamp refreshed, the length, the order and every other
    entry being unchanged. *)
Theorem trackIP_fifo (now : Z) (addr : string) (this : doc) :
  (length (ipAddresses this) <= 10)%nat ->
  NoDup (map ip (ipAddresses this)) ->
  (length (ipAddresses (trackIP now addr this)) <= 10)%nat
  /\ NoDup (map ip (ipAddresses (trackIP now addr this)))
  /\ In addr (map ip (ipAddresses (trackIP now addr this)))
  /\ (~ In addr (map ip (ipAddresses this)) ->
      length (ipAddresses this) = 10%nat ->
      ipAddresses (trackIP now addr this) =
        (tl (ipAddresses this) ++ [{| ip := addr; verifiedAt := now |}])%list)
  /\ (~ In addr (map ip (ipAddresses this)) ->
      (length (ipAddresses this) < 10)%nat ->
      ipAddresses (trackIP now addr this) =
        (ipAddresses this ++ [{| ip := addr; verifiedAt := now |}])%list)
  /\ (In addr (map ip (ipAddresses this)) ->
      length (ipAddresses (trackIP now addr this)) = length (ipAddresses this)
      /\ ipAddresses (trackIP now addr this) =
         map (fun e => if String.eqb (ip e) addr
                       then {| ip := ip e; verifiedAt := now |} else e)
             (ipAddresses this)).
Proof.
  intros Hlen ND. cbn [trackIP ipAddresses]. unfold trackedIPs.
  set (l := ipAddresses this) in *.
  destruct (find (fun entry => String.eqb (ip entry) addr) l) eqn:F.
  - assert (Hin : In addr (map ip l)).
    { destruct (in_dec string_dec addr (map ip l)) as [H | H]; [exact H|].
      apply find_ip_none in H. congruence. }
    assert (Hlen' : length (touchFirst now addr l) = length l).
    { rewrite <- (length_map ip (touchFirst now addr l)), touchFirst_ips.
      apply length_map. }
    repeat split; try (intros; contradiction).
    + lia.
    + now rewrite touchFirst_ips.
    + now rewrite touchFirst_ips.
    + exact Hlen'.
    + apply touchFirst_map. exact ND.
  - apply find_ip_none in F.
    destruct (Nat.leb_spec 10 (length l)) as [Hfull | Hroom].
    + assert (ND' : NoDup (map ip (tl l)) /\ ~ In addr (map ip (tl l))).
      { destruct l as [|e r]; cbn [tl map] in *; [tauto|].
        inversion ND; subst. cbn [In] in F. tauto. }
      repeat split; try (intros; contradiction); try (intros; lia).
      * rewrite length_app. cbn [length].
        destruct l as [|e r]; cbn [tl length] in *; lia.
      * rewrite map_app. cbn [map ip]. apply NoDup_snoc; tauto.
      * rewrite map_app, in_app_iff. right. left. reflexivity.
    + repeat split; try (intros; contradiction); try (intros; lia).
      * rewrite length_app. cbn [length]. lia.
      * rewrite map_app. cbn [map ip]. apply NoDup_snoc; tauto.
      * rewrite map_app, in_app_iff. right. left. reflexivity.
Qed.

Lemma trackIP_fifo_witness :
  ipAddresses (trackIP 1736899300000 "203.0.113.7" Sample.busy) =
    (tl Sample.tenIPs ++ [{| ip := "203.0.113.7"; verifiedAt := 1736899300000 |}])%list
  /\ length (ipAddresses (trackIP 1736899300000 "10.0.0.3" Sample.busy)) = 10%nat.
Proof.
  assert (Hlen : (length (ipAddresses Sample.busy) <= 10)%nat) by (cbn; lia).
  assert (ND : NoDup (map ip (ipAddresses Sample.busy))).
  { cbn. repeat (constructor; [cbn; intuition discriminate|]). constructor. }
  split.
  - apply (trackIP_fifo 1736899300000 "203.0.113.7" Sample.busy Hlen ND).
    + cbn. intuition discriminate.
    + reflexivity.
  - apply (trackIP_fifo 1736899300000 "10.0.0.3" Sample.busy Hlen ND).
    cbn. tauto.
Defined.

End TrackIPFacts.

(** ** Lists of documents *)

Module StoreFacts.

Lemma find_split {A} (f : A -> bool) (l : list A) (c : A) :
  find f l = Some c ->
  exists l1 l2,
    l = (l1 ++ c :: l2)%list /\ f c = true /\ forall x, In x l1 -> f x = false.
Proof.
  induction l as [|x r IH]; [discriminate|]. cbn [find].
  destruct (f x) eqn:E.
  - intros [= ->]. exists [], r. repeat split; [exact E | intros ? []].
  - intros H. destruct (IH H) as (l1 & l2 & -> & Hc & Hl1).
    exists (x :: l1), l2. repeat split; [exact Hc|].
    intros y [<- | Hy]; [exact E | now apply Hl1].
Qed.

Lemma find_at {A} (f : A -> bool) (l1 : list A) (c : A) (l2 : list A) :
  (forall x, In x l1 -> f x = false) -> f c = true ->
  find f (l1 ++ c :: l2) = Some c.
Proof.
  intros Hl1 Hc. induction l1 as [|x r IH]; cbn [app find].
  - now rewrite Hc.
  - rewrite (Hl1 x (or_introl eq_refl)). apply IH.
    intros y Hy. apply Hl1. now right.
Qed.

Lemma replaceFirst_at {A} (g : A -> bool) (d : A) (l1 : list A) (c : A) (l2 : list A) :
  (forall x, In x l1 -> g x = false) -> g c = true ->
  replaceFirst g d (l1 ++ c :: l2) = Some (l1 ++ d :: l2)%list.
Proof.
  intros Hl1 Hc. induction l1 as [|x r IH]; cbn [app replaceFirst].
  - now rewrite Hc.
  - rewrite (Hl1 x (or_introl eq_refl)), IH; [reflexivity|].
    intros y Hy. apply Hl1. now right.
Qed.

Lemma replaceFirst_some {A} (g : A -> bool) (d : A) (l : list A) (c : A) :
  In c l -> g c = true -> exists l', replaceFirst g d l = Some l'.
Proof.
  induction l as [|x r IH]; [intros []|]. intros Hin Hc. cbn [replaceFirst].
  destruct (g x) eqn:E; [eauto|].
  destruct Hin as [-> | Hin]; [congruence|].
  destruct (IH Hin Hc) as [l' ->]. eauto.
Qed.

(** In a list whose keys are pairwise distinct, the documents before
    [c] do not carry [c]'s key. *)
Lemma NoDup_key_before {A} (key : A -> string) (l1 : list A) (c : A) (l2 : list A) :
  NoDup (map key (l1 ++ c :: l2)) ->
  forall x, In x l1 -> String.eqb (key x) (key c) = false.
Proof.
  intros ND x Hx. apply String.eqb_neq. intros E.
  rewrite map_app in ND. cbn [map] in ND.
  apply NoDup_remove_2 in ND. apply ND.
  rewrite in_app_iff. left. rewrite <- E. now apply in_map.
Qed.

(** Saving a changed copy [d] of the stored document [c] (same [_id],
    same key [k]) puts [d] where [c] was: a query by key that returned
    [c] now returns [d]. *)
Lemma replace_found {A} (oid : A -> string) (f : A -> bool) (l : list A) (c d : A) :
  NoDup (map oid l) ->
  find f l = Some c ->
  oid d = oid c -> f d = true ->
  exists l',
    replaceFirst (fun x => String.eqb (oid x) (oid d)) d l = Some l'
    /\ find f l' = Some d
    /\ map oid l' = map oid l.
Proof.
  intros ND F Hoid Hf.
  destruct (find_split f l c F) as (l1 & l2 & -> & Hc & Hl1).
  exists (l1 ++ d :: l2)%list. split; [|split].
  - apply replaceFirst_at.
    + intros x Hx. rewrite Hoid. exact (NoDup_key_before oid l1 c l2 ND x Hx).
    + rewrite Hoid. apply String.eqb_refl.
  - apply find_at; assumption.
  - rewrite !map_app. cbn [map]. now rewrite Hoid.
Qed.

(** The sample database respects the unique indexes. *)
Lemma Sample_uniqueIndexes : uniqueIndexes Sample.world.
Proof.
  split; cbn;
    repeat (constructor; [cbn; intuition discriminate|]); constructor.
Defined.

End StoreFacts.

(** ** [save]: validation, deltas and the version key *)

Module SaveFacts.
Import certificateSchema StoreFacts.

Lemma updateFirst_at {A} (sel : A -> bool) (f : A -> A) (l1 : list A) (c : A)
    (l2 : list A) :
  (forall x, In x l1 -> sel x = false) -> sel c = true ->
  Certificate.updateFirst sel f (l1 ++ c :: l2) = Some (l1 ++ f c :: l2)%list.
Proof.
  induction l1 as [|x r IH]; intros Hl Hc; cbn [app Certificate.updateFirst].
  - now rewrite Hc.
  - rewrite (Hl x (or_introl eq_refl)), IH; [reflexivity | | exact Hc].
    intros y Hy. apply Hl. now right.
Qed.

Lemma updateFirst_none {A} (sel : A -> bool) (f : A -> A) (l : list A) :
  (forall x, In x l -> sel x = false) -> Certificate.updateFirst sel f l = None.
Proof.
  induction l as [|x r IH]; intros Hl; cbn [Certificate.updateFirst]; [reflexivity|].
  rewrite (Hl x (or_introl eq_refl)), IH; [reflexivity|].
  intros y Hy. apply Hl. now right.
Qed.

Lemma optionEqb_eq {A} (eqb : A -> A -> bool) (a b : option A) :
  (forall x y, eqb x y = true -> x = y) ->
  Certificate.optionEqb eqb a b = true -> a = b.
Proof.
  intros H. destruct a, b; cbn; intros E; try discriminate E; [|reflexivity].
  f_equal. now apply H.
Qed.

Lemma optionEqb_refl {A} (eqb : A -> A -> bool) (a : option A) :
  (forall x, eqb x x = true) -> Certificate.optionEqb eqb a a = true.
Proof. intros H. destruct a; cbn; [apply H | reflexivity]. Qed.

(** A path takes the in-memory value when the stored value is the one
    that was loaded. *)
Lemma sent_loaded {A} (eqb : A -> A -> bool) (loaded this : A) :
  (forall x y, eqb x y = true -> x = y) ->
  Certificate.sent eqb loaded this loaded = this.
Proof.
  intros H. unfold Certificate.sent. destruct (eqb loaded this) eqn:E; [|reflexivity].
  now apply H.
Qed.

(** A path that was not modified keeps its stored value. *)
Lemma sent_unmodified {A} (eqb : A -> A -> bool) (loaded stored : A) :
  eqb loaded loaded = true -> Certificate.sent eqb loaded loaded stored = stored.
Proof. intros H. unfold Certificate.sent. now rewrite H. Qed.

Lemma string_eqb_eq (x y : string) : String.eqb x y = true -> x = y.
Proof. apply String.eqb_eq. Qed.

Lemma Z_eqb_eq (x y : Z) : Z.eqb x y = true -> x = y.
Proof. apply Z.eqb_eq. Qed.

Lemma bool_eqb_eq (x y : bool) : Bool.eqb x y = true -> x = y.
Proof. apply Bool.eqb_prop. Qed.

Ltac sent_loaded :=
  apply sent_loaded;
  first [ exact string_eqb_eq | exact Z_eqb_eq | exact bool_eqb_eq
        | intros ? ?; apply optionEqb_eq;
          first [ exact string_eqb_eq | exact Z_eqb_eq ] ].

Ltac sent_unmodified :=
  apply sent_unmodified;
  first [ apply String.eqb_refl | apply Z.eqb_refl | apply Bool.eqb_reflx
        | apply optionEqb_refl;
          first [ exact String.eqb_refl | exact Z.eqb_refl ] ].

Lemma indexOfIP_find (addr : string) (l : list IpEntry) :
  match indexOfIP addr l with
  | Some (i, e) =>
      find (fun entry => String.eqb (ip entry) addr) l = Some e
      /\ setVerifiedAt i (verifiedAt e) l = l
      /\ forall t, setVerifiedAt i t l = touchFirst t addr l
  | None => find (fun entry => String.eqb (ip entry) addr) l = None
  end.
Proof.
  induction l as [|x r IH]; cbn [indexOfIP find]; [reflexivity|].
  destruct (String.eqb (ip x) addr) eqn:E.
  - split; [reflexivity|]. split.
    + cbn [setVerifiedAt]. now destruct x.
    + intros t. cbn [setVerifiedAt touchFirst]. now rewrite E.
  - destruct (indexOfIP addr r) as [[i e]|]; [|exact IH].
    destruct IH as (F & S & T). split; [exact F|]. split.
    + cbn [setVerifiedAt]. now rewrite S.
    + intros t. cbn [setVerifiedAt touchFirst]. now rewrite E, T.
Qed.

(** Applied to the array it was registered on, the operation of
    [trackIP] gives the array [trackIP] leaves in memory. *)
Lemma applyAtomics_tracked (now : Z) (addr : string) (l : list IpEntry) :
  applyAtomics (trackedAtomics now addr l) l = trackedIPs now addr l.
Proof.
  unfold trackedAtomics, trackedIPs. pose proof (indexOfIP_find addr l) as H.
  destruct (indexOfIP addr l) as [[i e]|].
  - destruct H as (-> & S & T). destruct (Z.eqb_spec (verifiedAt e) now) as [E | E].
    + cbn [applyAtomics]. rewrite <- T, <- E. now rewrite S.
    + cbn [applyAtomics]. apply T.
  - rewrite H. destruct (10 <=? length l)%nat; reflexivity.
Qed.

(** Two documents with the same value on every path are equal. *)
Lemma doc_ext (a b : doc) :
  _id a = _id b ->
  certificateId a = certificateId b ->
  recipientName a = recipientName b ->
  recipientEmail a = recipientEmail b ->
  program a = program b ->
  programCategory a = programCategory b ->
  awardDate a = awardDate b ->
  verificationHash a = verificationHash b ->
  isVerified a = isVerified b ->
  verificationCount a = verificationCount b ->
  lastVerifiedAt a = lastVerifiedAt b ->
  issuedBy a = issuedBy b ->
  certificateUrl a = certificateUrl b ->
  revokedAt a = revokedAt b ->
  revocationReason a = revocationReason b ->
  isRevoked a = isRevoked b ->
  notes a = notes b ->
  ipAddresses a = ipAddresses b ->
  createdBy a = createdBy b ->
  updatedBy a = updatedBy b ->
  createdAt a = createdAt b ->
  updatedAt a = updatedAt b ->
  __v a = __v b ->
  a = b.
Proof.
  destruct a, b. cbn. intros. subst. reflexivity.
Qed.

(** [save] of a valid document against the store it was loaded from:
    the stored document becomes the in-memory one. *)
Lemma updateOne_loaded (P : Primitives) (now : Z) (c this : doc) (atomics : ArrayOp) :
  _id this = _id c -> __v this = __v c ->
  applyAtomics atomics (ipAddresses c) = ipAddresses this ->
  Certificate.updateOne c (preSave P now this) atomics c
  = Certificate.written P now atomics this.
Proof.
  intros Hid Hv Hips.
  apply doc_ext; unfold Certificate.updateOne, Certificate.written;
    cbn [preSave _id certificateId recipientName recipientEmail program programCategory
         awardDate verificationHash isVerified verificationCount lastVerifiedAt issuedBy
         certificateUrl revokedAt revocationReason isRevoked notes ipAddresses createdBy
         updatedBy createdAt updatedAt __v];
    try sent_loaded.
  - now symmetry.
  - exact Hips.
  - now rewrite Hv.
Qed.

Lemma save_loaded (P : Primitives) (now : Z) (c this : doc) (atomics : ArrayOp)
    (w : World) (l1 l2 : list doc) :
  certificates w = (l1 ++ c :: l2)%list ->
  (forall x, In x l1 -> String.eqb (_id x) (_id c) = false) ->
  _id this = _id c -> __v this = __v c ->
  validates this = true ->
  applyAtomics atomics (ipAddresses c) = ipAddresses this ->
  Certificate.save P now c atomics this w
  = (Normal (Certificate.written P now atomics this),
     logCall CertificateSave
       (setCertificates (l1 ++ Certificate.written P now atomics this :: l2) w)).
Proof.
  intros El Hl1 Hid Hv Hvalid Hips. unfold Certificate.save. rewrite Hvalid, El.
  rewrite updateFirst_at.
  - rewrite (updateOne_loaded P now c this atomics Hid Hv Hips). reflexivity.
  - intros x Hx. cbn [preSave _id]. rewrite Hid, (Hl1 x Hx). reflexivity.
  - cbn [preSave _id __v]. rewrite Hid, Hv, String.eqb_refl, Z.eqb_refl.
    now rewrite orb_true_r.
Qed.

Lemma updateFirst_some {A} (sel : A -> bool) (f : A -> A) (l : list A) (c : A) :
  In c l -> sel c = true -> exists l', Certificate.updateFirst sel f l = Some l'.
Proof.
  induction l as [|x r IH]; intros Hin Hc; [contradiction|].
  cbn [Certificate.updateFirst]. destruct (sel x) eqn:E; [eexists; reflexivity|].
  destruct Hin as [-> | Hin]; [congruence|].
  destruct (IH Hin Hc) as [l' ->]. eexists; reflexivity.
Qed.

(** [save] of a valid document whose loaded version is stored goes
    through. *)
Lemma save_succeeds (P : Primitives) (now : Z) (c loaded this : doc) (atomics : ArrayOp)
    (w : World) :
  In c (certificates w) -> _id this = _id c -> __v this = __v c ->
  validates this = true ->
  exists l',
    Certificate.save P now loaded atomics this w
    = (Normal (Certificate.written P now atomics this),
       logCall CertificateSave (setCertificates l' w)).
Proof.
  intros Hin Hid Hv Hvalid. unfold Certificate.save. rewrite Hvalid.
  destruct (updateFirst_some
              (fun d => String.eqb (_id d) (_id (preSave P now this))
                        && (negb (versionWhere atomics)
                            || (__v d =? __v (preSave P now this))))
              (Certificate.updateOne loaded (preSave P now this) atomics)
              (certificates w) c Hin) as [l' ->].
  - cbn [preSave _id __v]. rewrite Hid, Hv, String.eqb_refl, Z.eqb_refl.
    now rewrite orb_true_r.
  - exists l'. reflexivity.
Qed.

(** A document that fails validation is not saved. *)
Lemma save_invalid (P : Primitives) (now : Z) (c this : doc) (atomics : ArrayOp)
    (w : World) :
  validates this = false ->
  Certificate.save P now c atomics this w = (Throw "ValidationError", w).
Proof. intros H. unfold Certificate.save. now rewrite H. Qed.

(** [verify] and [trackIP] touch no validated path. *)
Lemma validates_tracked (now t : Z) (addr : string) (c c1 : doc) :
  verify now c = Normal c1 ->
  validates (trackIP t addr c1) = validates c
  /\ conforms (trackIP t addr c1) = conforms c
  /\ _id (trackIP t addr c1) = _id c
  /\ __v (trackIP t addr c1) = __v c
  /\ ipAddresses (trackIP t addr c1) = trackedIPs t addr (ipAddresses c).
Proof.
  unfold verify. destruct (isRevoked c); [discriminate|].
  destruct (negb (isVerified c)); [discriminate|].
  intros [= <-]. split; [reflexivity|]. split; [reflexivity|]. repeat split.
Qed.

Lemma validates_markRevoked (now : Z) (reason : option string) (c : doc) :
  validates (markRevoked now reason c) = validates c.
Proof. reflexivity. Qed.

End SaveFacts.

(** ** The public verification route *)

Module VerifyFacts.
Import certificateSchema certificatesRouter StoreFacts.

Lemma verifyRoute_invalid (P : Primitives) (now : Z) (req : Request) (w : World) :
  certificateIdChain req <> [] ->
  verifyRoute P now req w =
    (Normal {| statusCode := 400;
               body := JObj [("error", JStr "Validation Failed");
                             ("details",
                              JArr (map validationDetail (certificateIdChain req)))] |},
     w).
Proof.
  intros H. unfold verifyRoute, handleValidationErrors.
  destruct (certificateIdChain req); [congruence | reflexivity].
Qed.

Lemma verifyRoute_valid (P : Primitives) (now : Z) (req : Request) :
  certificateIdChain req = [] ->
  verifyRoute P now req = verifyHandler P now req.
Proof. intros H. unfold verifyRoute. now rewrite H. Qed.

Lemma verifyHandler_notFound (P : Primitives) (now : Z) (req : Request) (w : World) :
  stored (Js.toUpperCase (params_certificateId req)) w = None ->
  verifyHandler P now req w =
    (Normal notFoundResponse,
     logCall AuditLogCreate
       (setAuditLogs
          (auditLogs w ++
           [verifyEntry now req auditLogSchema.FAILED (Some "Certificate not found")])
          (logCall CertificateFindOne w))).
Proof.
  unfold stored. intros H.
  unfold verifyHandler, tryCatch, bind, Certificate.findByCertificateId, Certificate.findOne.
  rewrite H. reflexivity.
Qed.

Lemma verifyHandler_revoked (P : Primitives) (now : Z) (req : Request) (w : World)
    (c : doc) :
  stored (Js.toUpperCase (params_certificateId req)) w = Some c ->
  isRevoked c = true ->
  verifyHandler P now req w =
    (Normal (revokedResponse c),
     logCall AuditLogCreate
       (setAuditLogs
          (auditLogs w ++
           [verifyEntry now req auditLogSchema.FAILED (Some "Certificate revoked")])
          (logCall CertificateFindOne w))).
Proof.
  unfold stored. intros H Hr.
  unfold verifyHandler, tryCatch, bind, Certificate.findByCertificateId, Certificate.findOne.
  rewrite H, Hr. reflexivity.
Qed.

Lemma verifyHandler_unverified (P : Primitives) (now : Z) (req : Request) (w : World)
    (c : doc) :
  stored (Js.toUpperCase (params_certificateId req)) w = Some c ->
  isRevoked c = false -> isVerified c = false ->
  verifyHandler P now req w =
    (Normal verificationErrorResponse, logCall CertificateFindOne w).
Proof.
  unfold stored. intros H Hr Hv.
  unfold verifyHandler, tryCatch, bind, Certificate.findByCertificateId, Certificate.findOne.
  rewrite H, Hr. unfold call, verify. rewrite Hr, Hv. reflexivity.
Qed.

(** The document the success branch saves. *)
Lemma verify_active (now : Z) (c : doc) :
  isRevoked c = false -> isVerified c = true ->
  exists c1,
    verify now c = Normal c1
    /\ _id c1 = _id c /\ certificateId c1 = certificateId c
    /\ verificationCount c1 = verificationCount c + 1
    /\ lastVerifiedAt c1 = Some now
    /\ ipAddresses c1 = ipAddresses c
    /\ isRevoked c1 = false /\ isVerified c1 = true.
Proof.
  intros Hr Hv. unfold verify. rewrite Hr, Hv. cbn [negb].
  eexists. split; [reflexivity|]. repeat split; assumption.
Qed.

(** The active branch on a stored record that passes validation: the
    record is replaced by the saved document and one SUCCESS entry is
    written. *)
Lemma verifyHandler_verified (P : Primitives) (now : Z) (req : Request) (w : World)
    (c : doc) :
  NoDup (map _id (certificates w)) ->
  stored (Js.toUpperCase (params_certificateId req)) w = Some c ->
  isRevoked c = false -> isVerified c = true -> validates c = true ->
  exists l1 l2 c1,
    certificates w = (l1 ++ c :: l2)%list
    /\ (forall x, In x l1 ->
          String.eqb (certificateId x) (Js.toUpperCase (params_certificateId req)) = false)
    /\ verify now c = Normal c1
    /\ verifyHandler P now req w =
         (Normal (verifiedResponse
                    (Certificate.written P now
                       (trackedAtomics now (clientIP req) (ipAddresses c))
                       (trackIP now (clientIP req) c1))),
          logCall AuditLogCreate
            (setAuditLogs
               (auditLogs w ++ [verifyEntry now req auditLogSchema.SUCCESS None])
               (logCall CertificateSave
                  (setCertificates
                     (l1 ++ Certificate.written P now
                              (trackedAtomics now (clientIP req) (ipAddresses c))
                              (trackIP now (clientIP req) c1) :: l2)
                     (logCall CertificateFindOne w))))).
Proof.
  unfold stored. intros ND H Hr Hv Hvalid.
  destruct (verify_active now c Hr Hv) as (c1 & Hc1 & _).
  destruct (find_split _ _ _ H) as (l1 & l2 & El & Hfc & Hl1).
  destruct (SaveFacts.validates_tracked now now (clientIP req) c c1 Hc1)
    as (Hval & _ & Hid & Hver & Hips).
  exists l1, l2, c1. split; [exact El|]. split; [exact Hl1|]. split; [exact Hc1|].
  unfold verifyHandler, tryCatch, bind, Certificate.findByCertificateId, Certificate.findOne.
  rewrite H, Hr. unfold call. rewrite Hc1.
  rewrite (SaveFacts.save_loaded P now c (trackIP now (clientIP req) c1)
             (trackedAtomics now (clientIP req) (ipAddresses c))
             (logCall CertificateFindOne w) l1 l2); [reflexivity | exact El | | exact Hid
             | exact Hver | now rewrite Hval | ].
  - intros x Hx. rewrite El in ND. exact (NoDup_key_before _id l1 c l2 ND x Hx).
  - rewrite Hips. apply SaveFacts.applyAtomics_tracked.
Qed.

(** The same branch without the unique index on [_id]: the answer and
    the audit entry. *)
Lemma verifyHandler_answers (P : Primitives) (now : Z) (req : Request) (w : World)
    (c : doc) :
  stored (Js.toUpperCase (params_certificateId req)) w = Some c ->
  isRevoked c = false -> isVerified c = true -> validates c = true ->
  exists c1 l',
    verify now c = Normal c1
    /\ verifyHandler P now req w =
         (Normal (verifiedResponse
                    (Certificate.written P now
                       (trackedAtomics now (clientIP req) (ipAddresses c))
                       (trackIP now (clientIP req) c1))),
          logCall AuditLogCreate
            (setAuditLogs
               (auditLogs w ++ [verifyEntry now req auditLogSchema.SUCCESS None])
               (logCall CertificateSave
                  (setCertificates l' (logCall CertificateFindOne w))))).
Proof.
  unfold stored. intros H Hr Hv Hvalid.
  destruct (verify_active now c Hr Hv) as (c1 & Hc1 & _).
  destruct (find_split _ _ _ H) as (l1 & l2 & El & _ & _).
  destruct (SaveFacts.validates_tracked now now (clientIP req) c c1 Hc1)
    as (Hval & _ & Hid & Hver & _).
  destruct (SaveFacts.save_succeeds P now c c (trackIP now (clientIP req) c1)
              (trackedAtomics now (clientIP req) (ipAddresses c))
              (logCall CertificateFindOne w)) as [l' Hsave];
    [cbn [certificates logCall]; rewrite El; apply in_elt | exact Hid | exact Hver
    | now rewrite Hval |].
  exists c1, l'. split; [exact Hc1|].
  unfold verifyHandler, tryCatch, bind, Certificate.findByCertificateId, Certificate.findOne.
  rewrite H, Hr. unfold call. rewrite Hc1, Hsave. reflexivity.
Qed.

(** The active branch on a stored record that fails validation: [save]
    throws before anything is sent. *)
Lemma verifyHandler_invalid (P : Primitives) (now : Z) (req : Request) (w : World)
    (c : doc) :
  stored (Js.toUpperCase (params_certificateId req)) w = Some c ->
  isRevoked c = false -> isVerified c = true -> validates c = false ->
  verifyHandler P now req w =
    (Normal verificationErrorResponse, logCall CertificateFindOne w).
Proof.
  unfold stored. intros H Hr Hv Hvalid.
  destruct (verify_active now c Hr Hv) as (c1 & Hc1 & _).
  destruct (SaveFacts.validates_tracked now now (clientIP req) c c1 Hc1) as (Hval & _).
  unfold verifyHandler, tryCatch, bind, Certificate.findByCertificateId, Certificate.findOne.
  rewrite H, Hr. unfold call. rewrite Hc1.
  rewrite SaveFacts.save_invalid by (now rewrite Hval). reflexivity.
Qed.

(** C1 (as amended).  A request that fails the format validation of the
    route is answered 400 with the database untouched: no call is made
    and no audit entry is written.  A request that passes it: with no
    record for the certificate ID, one FAILED entry is written and the
    answer is 404 with [verified: false]; with a revoked record, one
    FAILED entry is written and the answer is 410, carrying the
    revocation timestamp and reason; with a record that is not revoked,
    has [isVerified] set and passes the validation of the schema, one
    SUCCESS entry is written and the answer is 200. *)
Theorem verifyRoute_outcomes (P : Primitives) (now : Z) (req : Request) (w : World) :
  (certificateIdChain req <> [] ->
   exists resp,
     verifyRoute P now req w = (Normal resp, w) /\ statusCode resp = 400)
  /\
  (certificateIdChain req = [] ->
   (stored (Js.toUpperCase (params_certificateId req)) w = None ->
    exists resp e w',
      verifyRoute P now req w = (Normal resp, w')
      /\ statusCode resp = 404
      /\ field "verified" (body resp) = Some (JBool false)
      /\ auditLogs w' = (auditLogs w ++ [e])%list
      /\ auditLogSchema.action e = auditLogSchema.VERIFY
      /\ auditLogSchema.status e = auditLogSchema.FAILED
      /\ certificates w' = certificates w)
   /\
   (forall c,
      stored (Js.toUpperCase (params_certificateId req)) w = Some c ->
      isRevoked c = true ->
      exists resp e w',
        verifyRoute P now req w = (Normal resp, w')
        /\ statusCode resp = 410
        /\ field "verified" (body resp) = Some (JBool false)
        /\ field "revokedAt" (body resp) = Some (jOpt JDate JNull (revokedAt c))
        /\ field "revocationReason" (body resp)
           = Some (jOpt JStr JUndefined (revocationReason c))
        /\ auditLogs w' = (auditLogs w ++ [e])%list
        /\ auditLogSchema.action e = auditLogSchema.VERIFY
        /\ auditLogSchema.status e = auditLogSchema.FAILED
        /\ certificates w' = certificates w)
   /\
   (forall c,
      stored (Js.toUpperCase (params_certificateId req)) w = Some c ->
      isRevoked c = false -> isVerified c = true -> validates c = true ->
      exists resp e w',
        verifyRoute P now req w = (Normal resp, w')
        /\ statusCode resp = 200
        /\ field "verified" (body resp) = Some (JBool true)
        /\ auditLogs w' = (auditLogs w ++ [e])%list
        /\ auditLogSchema.action e = auditLogSchema.VERIFY
        /\ auditLogSchema.status e = auditLogSchema.SUCCESS)).
Proof.
  split.
  - intros H. rewrite (verifyRoute_invalid P now req w H).
    eexists. split; reflexivity.
  - intros H. rewrite (verifyRoute_valid P now req H).
    split; [|split].
    + intros F. rewrite (verifyHandler_notFound P now req w F).
      do 3 eexists. repeat split.
    + intros c F Hr. rewrite (verifyHandler_revoked P now req w c F Hr).
      do 3 eexists. repeat split.
    + intros c F Hr Hv Hvalid.
      destruct (verifyHandler_answers P now req w c F Hr Hv Hvalid) as (c1 & l' & _ & ->).
      do 3 eexists. repeat split.
Qed.

Lemma verifyRoute_outcomes_witness :
  (exists resp e w',
     verifyRoute Sample.primitives 1000
       {| params_certificateId := "2501002"; query_certificateId := Some "2501002";
          clientIP := "203.0.113.7" |} Sample.world = (Normal resp, w')
     /\ statusCode resp = 410
     /\ field "verified" (body resp) = Some (JBool false)
     /\ field "revokedAt" (body resp) = Some (jOpt JDate JNull (revokedAt Sample.revoked))
     /\ field "revocationReason" (body resp)
        = Some (jOpt JStr JUndefined (revocationReason Sample.revoked))
     /\ auditLogs w' = (auditLogs Sample.world ++ [e])%list
     /\ auditLogSchema.action e = auditLogSchema.VERIFY
     /\ auditLogSchema.status e = auditLogSchema.FAILED
     /\ certificates w' = certificates Sample.world)
  /\
  (exists resp,
     verifyRoute Sample.primitives 1000
       {| params_certificateId := "2501002"; query_certificateId := Some "25-1002";
          clientIP := "203.0.113.7" |} Sample.world = (Normal resp, Sample.world)
     /\ statusCode resp = 400)
  /\
  (exists resp e w',
     verifyRoute Sample.primitives 1000
       {| params_certificateId := "2501001"; query_certificateId := Some "2501001";
          clientIP := "203.0.113.7" |} Sample.world = (Normal resp, w')
     /\ statusCode resp = 200
     /\ field "verified" (body resp) = Some (JBool true)
     /\ auditLogs w' = (auditLogs Sample.world ++ [e])%list
     /\ auditLogSchema.action e = auditLogSchema.VERIFY
     /\ auditLogSchema.status e = auditLogSchema.SUCCESS).
Proof.
  split; [|split].
  - apply (proj2 (verifyRoute_outcomes Sample.primitives 1000
                    {| params_certificateId := "2501002";
                       query_certificateId := Some "2501002";
                       clientIP := "203.0.113.7" |} Sample.world) eq_refl);
      reflexivity.
  - apply (proj1 (verifyRoute_outcomes Sample.primitives 1000
                    {| params_certificateId := "2501002";
                       query_certificateId := Some "25-1002";
                       clientIP := "203.0.113.7" |} Sample.world)).
    vm_compute. discriminate.
  - apply (proj2 (proj2 (proj2 (verifyRoute_outcomes Sample.primitives 1000
                    {| params_certificateId := "2501001";
                       query_certificateId := Some "2501001";
                       clientIP := "203.0.113.7" |} Sample.world) eq_refl))
             Sample.active); reflexivity.
Defined.

(** C1, as stated, fails on a record that exists and is not revoked but
    has [isVerified] off: [verify] throws, the handler answers 500 and
    no audit entry is written. *)
Lemma verifyRoute_unverified_no_audit_entry :
  ~ (forall (P : Primitives) (now : Z) (req : Request) (w : World) (c : doc),
       certificateIdChain req = [] ->
       stored (Js.toUpperCase (params_certificateId req)) w = Some c ->
       isRevoked c = false ->
       exists e,
         auditLogs (snd (verifyRoute P now req w)) = (auditLogs w ++ [e])%list
         /\ auditLogSchema.status e = auditLogSchema.SUCCESS).
Proof.
  intros H.
  destruct (H Sample.primitives 1000
              {| params_certificateId := "2501003"; query_certificateId := Some "2501003";
                 clientIP := "203.0.113.7" |}
              Sample.world Sample.unverified eq_refl eq_refl eq_refl) as (e & He & _).
  vm_compute in He. discriminate He.
Qed.

(** C2.  Whenever the public verification answers 200, the certificate
    was stored and not revoked, and afterwards the stored record has its
    counter increased by exactly 1, its last-verified time set to the
    time of the request and the caller's address in its IP list (as
    [trackIP] leaves it); the record was written back by one [save]; and
    the [certificate] object of the answer has exactly the nine public
    keys, none of them the IP history, the internal [_id] or the
    verification hash, with the new counter value. *)
Theorem verifyRoute_success (P : Primitives) (now : Z) (req : Request)
    (w w' : World) (resp : Response) :
  uniqueIndexes w ->
  verifyRoute P now req w = (Normal resp, w') ->
  statusCode resp = 200 ->
  exists c c',
    stored (Js.toUpperCase (params_certificateId req)) w = Some c
    /\ isRevoked c = false
    /\ stored (Js.toUpperCase (params_certificateId req)) w' = Some c'
    /\ verificationCount c' = verificationCount c + 1
    /\ lastVerifiedAt c' = Some now
    /\ In (clientIP req) (map ip (ipAddresses c'))
    /\ ipAddresses c' = trackedIPs now (clientIP req) (ipAddresses c)
    /\ dbCalls w' = (dbCalls w ++ [CertificateFindOne; CertificateSave; AuditLogCreate])%list
    /\ field "verified" (body resp) = Some (JBool true)
    /\ exists certificate,
         field "certificate" (body resp) = Some certificate
         /\ keys certificate =
              ["certificateId"; "recipientName"; "program"; "programCategory";
               "awardDate"; "issuedBy"; "year"; "serialNumber"; "verificationCount"]
         /\ ~ In "ipAddresses" (keys certificate)
         /\ ~ In "_id" (keys certificate)
         /\ ~ In "verificationHash" (keys certificate)
         /\ field "certificateId" certificate = Some (JStr (certificateId c))
         /\ field "verificationCount" certificate
            = Some (JNum (verificationCount c + 1)).
Proof.
  intros [NDid _] Hrun H200.
  destruct (certificateIdChain req) eqn:Hchain.
  2:{ rewrite verifyRoute_invalid in Hrun by (rewrite Hchain; discriminate).
      injection Hrun as <- _. discriminate H200. }
  rewrite (verifyRoute_valid P now req Hchain) in Hrun.
  destruct (stored (Js.toUpperCase (params_certificateId req)) w) as [c|] eqn:F.
  2:{ rewrite (verifyHandler_notFound P now req w F) in Hrun.
      injection Hrun as <- _. discriminate H200. }
  destruct (isRevoked c) eqn:Hr.
  { rewrite (verifyHandler_revoked P now req w c F Hr) in Hrun.
    injection Hrun as <- _. discriminate H200. }
  destruct (isVerified c) eqn:Hv.
  2:{ rewrite (verifyHandler_unverified P now req w c F Hr Hv) in Hrun.
      injection Hrun as <- _. discriminate H200. }
  destruct (validates c) eqn:Hvalid.
  2:{ rewrite (verifyHandler_invalid P now req w c F Hr Hv Hvalid) in Hrun.
      injection Hrun as <- _. discriminate H200. }
  destruct (verifyHandler_verified P now req w c NDid F Hr Hv Hvalid)
    as (l1 & l2 & c1 & El & Hl1 & Hc1 & Hh).
  rewrite Hh in Hrun. injection Hrun as <- <-.
  destruct (verify_active now c Hr Hv)
    as (c1' & Hc1' & Hid & Hcid & Hcount & Hlast & Hips & _).
  rewrite Hc1 in Hc1'. injection Hc1' as <-.
  set (d := Certificate.written P now (trackedAtomics now (clientIP req) (ipAddresses c))
              (trackIP now (clientIP req) c1)) in *.
  assert (Hfd : String.eqb (certificateId d) (Js.toUpperCase (params_certificateId req)) = true).
  { change (certificateId d) with (certificateId c1). rewrite Hcid.
    destruct (find_split _ _ _ F) as (_ & _ & _ & Hc & _). exact Hc. }
  assert (Hfind : stored (Js.toUpperCase (params_certificateId req))
                    (logCall AuditLogCreate
                       (setAuditLogs
                          (auditLogs w ++ [verifyEntry now req auditLogSchema.SUCCESS None])
                          (logCall CertificateSave
                             (setCertificates (l1 ++ d :: l2)
                                (logCall CertificateFindOne w))))) = Some d).
  { unfold stored. cbn [certificates logCall setAuditLogs setCertificates].
    apply find_at; [exact Hl1 | exact Hfd]. }
  exists c, d. split; [reflexivity|]. split; [exact Hr|].
  split; [exact Hfind|].
  split; [exact Hcount|]. split; [exact Hlast|].
  split.
  { change (ipAddresses d) with (trackedIPs now (clientIP req) (ipAddresses c1)).
    apply TrackIPFacts.trackedIPs_records. }
  split.
  { change (ipAddresses d) with (trackedIPs now (clientIP req) (ipAddresses c1)).
    now rewrite Hips. }
  split.
  { cbn [dbCalls logCall setAuditLogs setCertificates].
    rewrite <- !app_assoc. reflexivity. }
  split; [reflexivity|].
  eexists. split; [reflexivity|].
  split; [reflexivity|].
  split; [cbn; intuition discriminate|].
  split; [cbn; intuition discriminate|].
  split; [cbn; intuition discriminate|].
  split.
  { cbn. change (certificateId d) with (certificateId c1). now rewrite Hcid. }
  cbn. change (verificationCount d) with (verificationCount c1). now rewrite Hcount.
Qed.

Lemma verifyRoute_success_witness :
  exists c c',
    stored "2501001" Sample.world = Some c
    /\ isRevoked c = false
    /\ stored "2501001"
         (snd (verifyRoute Sample.primitives 1736899300000
                 {| params_certificateId := "2501001";
                    query_certificateId := Some "2501001";
                    clientIP := "203.0.113.7" |} Sample.world)) = Some c'
    /\ verificationCount c' = verificationCount c + 1.
Proof.
  destruct (verifyRoute_success Sample.primitives 1736899300000
              {| params_certificateId := "2501001";
                 query_certificateId := Some "2501001";
                 clientIP := "203.0.113.7" |}
              Sample.world _ _ Sample_uniqueIndexes eq_refl eq_refl)
    as (c & c' & H1 & H2 & H3 & H4 & _).
  exists c, c'. repeat split; assumption.
Defined.

End VerifyFacts.

(** ** The public existence check *)

Module CheckFacts.
Import certificateSchema certificatesRouter StoreFacts.

(** The check route changes nothing but the trace of database calls. *)
Lemma checkRoute_frame (req : Request) (w : World) :
  certificates (snd (checkRoute req w)) = certificates w
  /\ admins (snd (checkRoute req w)) = admins w
  /\ auditLogs (snd (checkRoute req w)) = auditLogs w.
Proof.
  unfold checkRoute, handleValidationErrors.
  destruct (certificateIdChain req); repeat split.
Qed.

(** C8.  However many requests are served by the existence check, and
    whatever they are, the certificate records (with their counters, IP
    lists and timestamps), the admin accounts and the audit trail are
    afterwards what they were before. *)
Theorem checkRoute_never_mutates (reqs : list Request) (w : World) :
  certificates (fold_left (fun w req => snd (checkRoute req w)) reqs w) = certificates w
  /\ admins (fold_left (fun w req => snd (checkRoute req w)) reqs w) = admins w
  /\ auditLogs (fold_left (fun w req => snd (checkRoute req w)) reqs w) = auditLogs w.
Proof.
  revert w. induction reqs as [|req rest IH]; intros w; cbn [fold_left].
  - repeat split.
  - destruct (IH (snd (checkRoute req w))) as (Hc & Ha & Hl).
    destruct (checkRoute_frame req w) as (Hc' & Ha' & Hl').
    rewrite Hc, Ha, Hl. repeat split; assumption.
Qed.

Lemma NoDup_key_inj {A} (key : A -> string) (l : list A) (a b : A) :
  NoDup (map key l) -> In a l -> In b l -> key a = key b -> a = b.
Proof.
  induction l as [|x r IH]; [intros _ []|].
  cbn [map]. intros ND Ha Hb E. inversion ND as [|? ? Hx ND']; subst.
  destruct Ha as [<- | Ha], Hb as [<- | Hb].
  - reflexivity.
  - exfalso. apply Hx. rewrite E. now apply in_map.
  - exfalso. apply Hx. rewrite <- E. now apply in_map.
  - now apply IH.
Qed.

(** C10.  When the record of the requested certificate ID is stored and
    revoked, the existence check answers [exists: false]: the query asks
    for [isRevoked: false], as it would answer for an absent ID. *)
Theorem checkHandler_revoked_reads_absent (req : Request) (w : World) (c : doc) :
  uniqueIndexes w ->
  stored (params_certificateId req) w = Some c ->
  isRevoked c = true ->
  fst (checkHandler req w) =
    Normal {| statusCode := 200;
              body := JObj [("exists", JBool false);
                            ("certificateId", JStr (params_certificateId req))] |}.
Proof.
  intros [_ ND] F Hr.
  destruct (find_split _ _ _ F) as (l1 & l2 & El & Hc & _).
  apply String.eqb_eq in Hc.
  assert (Hin : In c (certificates w)) by (rewrite El; apply in_elt).
  assert (E : existsb
                (fun d => String.eqb (certificateId d) (params_certificateId req)
                          && Bool.eqb (isRevoked d) false) (certificates w) = false).
  { destruct (existsb _ (certificates w)) eqn:X; [|reflexivity].
    apply existsb_exists in X as (d & Hd & Hm).
    apply andb_prop in Hm as [Hk Hnr]. apply String.eqb_eq in Hk.
    assert (d = c) by (apply (NoDup_key_inj certificateId (certificates w)); congruence).
    subst d. rewrite Hr in Hnr. discriminate Hnr. }
  unfold checkHandler, tryCatch, bind, Certificate.exists_. rewrite E. reflexivity.
Qed.

Lemma checkHandler_revoked_reads_absent_witness :
  fst (checkHandler
         {| params_certificateId := "2501002"; query_certificateId := Some "2501002";
            clientIP := "203.0.113.7" |} Sample.world) =
    Normal {| statusCode := 200;
              body := JObj [("exists", JBool false);
                            ("certificateId", JStr "2501002")] |}.
Proof.
  apply (checkHandler_revoked_reads_absent
           {| params_certificateId := "2501002"; query_certificateId := Some "2501002";
              clientIP := "203.0.113.7" |} Sample.world Sample.revoked
           Sample_uniqueIndexes eq_refl eq_refl).
Defined.

End CheckFacts.

(** ** Revoking a certificate *)

Module RevokeFacts.
Import certificateSchema adminRouter StoreFacts.

(** Past the permission gate and the validation chain the route is its
    handler on the sanitised reason. *)
Lemma revokeRoute_authorized (P : Primitives) (now : Z) (req : Request)
    (u : User) (p : adminSchema.Permissions) :
  user req = Some u -> permissions u = Some p ->
  adminSchema.canRevokeCertificates p = true ->
  snd (reasonChain req) = [] ->
  revokeRoute P now req = revokeHandler P now req (fst (reasonChain req)) u.
Proof.
  intros Hu Hp Hflag Hchain. unfold revokeRoute, authorizePermission.
  rewrite Hu, Hp.
  change (adminSchema.permissionFlag "canRevokeCertificates" p)
    with (adminSchema.canRevokeCertificates p).
  rewrite Hflag. destruct (reasonChain req) as [reason errors].
  cbn [fst snd] in *. subst errors. reflexivity.
Qed.

Lemma findById_found (P : Primitives) (id : string) (w : World) (c : doc) :
  fst (Certificate.findById P id w) = Normal (Some c) ->
  objectId_isValid P id = true
  /\ find (fun d => String.eqb (_id d) id) (certificates w) = Some c.
Proof.
  unfold Certificate.findById. destruct (objectId_isValid P id); cbn [fst].
  - intros [= H]. split; [reflexivity | exact H].
  - discriminate.
Qed.

(** The revoke handler on a stored record that is not revoked and
    passes validation. *)
Lemma revokeHandler_revokes (P : Primitives) (now : Z) (req : Request) (w : World)
    (u : User) (reason : option string) (c : doc) :
  NoDup (map _id (certificates w)) ->
  objectId_isValid P (params_id req) = true ->
  find (fun d => String.eqb (_id d) (params_id req)) (certificates w) = Some c ->
  isRevoked c = false -> validates c = true ->
  exists l1 l2,
    certificates w = (l1 ++ c :: l2)%list
    /\ (forall x, In x l1 -> String.eqb (_id x) (params_id req) = false)
    /\ revokeHandler P now req reason u w =
         (Normal (revokedResponse
                    (Certificate.written P now Untouched (markRevoked now reason c))),
          logCall AuditLogCreate
            (setAuditLogs
               (auditLogs w ++
                [revokeEntry now u (clientIP req)
                   (Certificate.written P now Untouched (markRevoked now reason c))
                   reason])
               (logCall CertificateSave
                  (setCertificates
                     (l1 ++ Certificate.written P now Untouched
                              (markRevoked now reason c) :: l2)
                     (logCall CertificateFindById w))))).
Proof.
  intros ND Hvalid F Hr Hschema.
  destruct (find_split _ _ _ F) as (l1 & l2 & El & Hc & Hl1).
  exists l1, l2. split; [exact El|]. split; [exact Hl1|].
  unfold revokeHandler, tryCatch, bind, Certificate.findById.
  rewrite Hvalid, F, Hr. unfold Certificate.revoke.
  rewrite (SaveFacts.save_loaded P now c (markRevoked now reason c) Untouched
             (logCall CertificateFindById w) l1 l2);
    [reflexivity | exact El | | reflexivity | reflexivity
    | now rewrite SaveFacts.validates_markRevoked | reflexivity].
  intros x Hx. rewrite El in ND. exact (NoDup_key_before _id l1 c l2 ND x Hx).
Qed.



End RevokeFacts.

(** ** Login and the lockout window *)

Module LoginFacts.
Import adminSchema authRouter StoreFacts.

Lemma loginRoute_valid (P : Primitives) (now : Z) (req : Request) :
  loginChains req = [] -> loginRoute P now req = loginHandler P now req.
Proof. intros H. unfold loginRoute. now rewrite H. Qed.

(** The chains accept a request exactly when the trimmed username has at
    least 3 characters and the password at least 8. *)
Lemma loginChains_accepts (name pw addr : string) :
  (3 <= String.length (Js.trim name))%nat -> (8 <= String.length pw)%nat ->
  loginChains {| body_username := Some name; body_password := Some pw;
                 clientIP := addr |} = [].
Proof.
  intros Hn Hp. unfold loginChains, sanitizedUsername, passwordField.
  cbn [body_username body_password].
  apply Nat.leb_le in Hn, Hp. now rewrite Hn, Hp.
Qed.

Lemma loginHandler_locked (P : Primitives) (now : Z) (req : Request) (w : World)
    (a : doc) :
  find (fun x => String.eqb (username x) (Js.toLowerCase (sanitizedUsername req)))
       (admins w) = Some a ->
  isLocked now a = true ->
  loginHandler P now req w = (Normal accountLockedResponse, logCall AdminFindOne w).
Proof.
  intros F L. unfold loginHandler, tryCatch, bind, Admin.findOne.
  rewrite F, L. reflexivity.
Qed.

Lemma loginHandler_wrong_password (P : Primitives) (now : Z) (req : Request)
    (w : World) (a : doc) :
  NoDup (map _id (admins w)) ->
  find (fun x => String.eqb (username x) (Js.toLowerCase (sanitizedUsername req)))
       (admins w) = Some a ->
  isLocked now a = false -> isActive a = true ->
  comparePassword P (passwordField req) a = false ->
  exists w',
    loginHandler P now req w = (Normal authenticationFailedResponse, w')
    /\ NoDup (map _id (admins w'))
    /\ find (fun x => String.eqb (username x) (Js.toLowerCase (sanitizedUsername req)))
            (admins w') = Some (preSave now (failedLogin now (clientIP req) a)).
Proof.
  intros ND F L A C.
  set (d := preSave now (failedLogin now (clientIP req) a)).
  destruct (find_split _ _ _ F) as (_ & _ & _ & Hc & _).
  destruct (replace_found _id
              (fun x => String.eqb (username x) (Js.toLowerCase (sanitizedUsername req)))
              (admins w) a d ND F eq_refl Hc)
    as (l' & Hl' & Hfind & Hids).
  eexists. split; [|split].
  - unfold loginHandler, tryCatch, bind, Admin.findOne.
    rewrite F, L, A, C. cbn [negb].
    unfold Admin.recordFailedLogin, Admin.save. fold d.
    change (admins (logCall AdminFindOne w)) with (admins w).
    rewrite Hl'. reflexivity.
  - cbn [admins logCall setAuditLogs setAdmins]. now rewrite Hids.
  - exact Hfind.
Qed.

Lemma loginHandler_correct_password (P : Primitives) (now : Z) (req : Request)
    (w : World) (a : doc) :
  find (fun x => String.eqb (username x) (Js.toLowerCase (sanitizedUsername req)))
       (admins w) = Some a ->
  isLocked now a = false -> isActive a = true ->
  comparePassword P (passwordField req) a = true ->
  exists resp w',
    loginHandler P now req w = (Normal resp, w') /\ statusCode resp = 200.
Proof.
  intros F L A C.
  destruct (find_split _ _ _ F) as (l1 & l2 & El & _ & _).
  destruct (replaceFirst_some
              (fun x => String.eqb (_id x) (_id a))
              (preSave now (successfulLogin now (clientIP req) a)) (admins w) a)
    as [l' Hl'].
  { rewrite El. apply in_elt. }
  { apply String.eqb_refl. }
  do 2 eexists. split.
  - unfold loginHandler, tryCatch, bind, Admin.findOne.
    rewrite F, L, A, C. cbn [negb].
    unfold Admin.recordSuccessfulLogin, Admin.save.
    change (admins (logCall AdminFindOne w)) with (admins w).
    change (_id (preSave now (successfulLogin now (clientIP req) a))) with (_id a).
    rewrite Hl'. reflexivity.
  - reflexivity.
Qed.

(** One wrong-password login on an active account below five recorded
    failures: the answer is 401 and the failure is recorded. *)
Lemma wrong_password_recorded (P : Primitives) (name addr : string) (att : Attempt)
    (w : World) (a : doc) :
  (3 <= String.length (Js.trim name))%nat ->
  (8 <= String.length (password att))%nat ->
  NoDup (map _id (admins w)) ->
  find (fun x => String.eqb (username x) (Js.toLowerCase (Js.trim name))) (admins w)
    = Some a ->
  isActive a = true -> count (loginAttempts a) < 5 ->
  bcrypt_compare P (password att) (passwordHash a) = false ->
  exists w' a',
    loginRoute P (at_ att)
      {| body_username := Some name; body_password := Some (password att);
         clientIP := addr |} w = (Normal authenticationFailedResponse, w')
    /\ NoDup (map _id (admins w'))
    /\ find (fun x => String.eqb (username x) (Js.toLowerCase (Js.trim name)))
            (admins w') = Some a'
    /\ isActive a' = true
    /\ passwordHash a' = passwordHash a
    /\ count (loginAttempts a') = count (loginAttempts a) + 1
    /\ lastAttemptAt (loginAttempts a') = Some (at_ att).
Proof.
  intros Hn Hp ND F A Hc C.
  rewrite loginRoute_valid by (now apply loginChains_accepts).
  destruct (loginHandler_wrong_password P (at_ att)
              {| body_username := Some name; body_password := Some (password att);
                 clientIP := addr |} w a ND F) as (w' & Hrun & ND' & F').
  - unfold isLocked. apply Z.leb_gt in Hc. now rewrite Hc.
  - exact A.
  - exact C.
  - exists w', (preSave (at_ att) (failedLogin (at_ att) addr a)).
    split; [exact Hrun|]. split; [exact ND'|]. split; [exact F'|].
    repeat split. exact A.
Qed.

Lemma loginSequence_cons (P : Primitives) (name addr : string) (att : Attempt)
    (rest : list Attempt) (w w1 : World) (r : Response) :
  loginRoute P (at_ att)
    {| body_username := Some name; body_password := Some (password att);
       clientIP := addr |} w = (Normal r, w1) ->
  loginSequence P name addr (att :: rest) w =
    (r :: fst (loginSequence P name addr rest w1),
     snd (loginSequence P name addr rest w1)).
Proof.
  intros H. cbn [loginSequence]. rewrite H.
  destruct (loginSequence P name addr rest w1). reflexivity.
Qed.




End LoginFacts.

(** ** Overlapping verifications of one certificate *)

Module ConcurrencyFacts.
Import certificateSchema certificatesRouter StoreFacts VerifyFacts.

(** Run without interruption, the three steps of a task are the handler. *)
Lemma steps_are_handler (P : Primitives) (now : Z) (req : Request) (w : World) :
  let s1 := step P now req AtFind w in
  let s2 := step P now req (fst s1) (snd s1) in
  let s3 := step P now req (fst s2) (snd s2) in
  exists resp,
    fst s3 = Finished resp /\ verifyHandler P now req w = (Normal resp, snd s3).
Proof.
  cbv zeta.
  unfold verifyHandler, tryCatch, bind, Certificate.findByCertificateId, Certificate.findOne.
  cbn [step]. unfold Certificate.findByCertificateId, Certificate.findOne.
  destruct (find _ (certificates w)) as [c|].
  2:{ cbn. eexists. split; reflexivity. }
  destruct (isRevoked c).
  { cbn. eexists. split; reflexivity. }
  unfold call. destruct (verify now c) as [c1|e].
  2:{ cbn. eexists. split; reflexivity. }
  cbn [fst snd step].
  destruct (Certificate.save P now c _ _ _) as [[d|e] w'].
  - cbn. eexists. split; reflexivity.
  - cbn. eexists. split; reflexivity.
Qed.

(** The document a verification leaves in memory, on its validated
    paths, is the one it loaded. *)
Lemma preSave_tracked (P : Primitives) (now t : Z) (addr : string) (c c1 : doc) :
  conforms c = true -> verify now c = Normal c1 ->
  let this' := preSave P t (trackIP now addr c1) in
  certificateId this' = certificateId c
  /\ recipientName this' = recipientName c
  /\ recipientEmail this' = recipientEmail c
  /\ program this' = program c
  /\ programCategory this' = programCategory c
  /\ verificationHash this' = verificationHash c
  /\ notes this' = notes c
  /\ isRevoked this' = isRevoked c
  /\ isVerified this' = isVerified c
  /\ verificationCount this' = verificationCount c + 1
  /\ _id this' = _id c
  /\ __v this' = __v c.
Proof.
  intros Hc Hv. cbv zeta. unfold verify in Hv.
  destruct (isRevoked c); [discriminate Hv|].
  destruct (negb (isVerified c)); [discriminate Hv|].
  injection Hv as <-.
  unfold conforms, validates in Hc.
  repeat (apply andb_prop in Hc as [Hc ?]).
  cbn [preSave trackIP certificateId recipientName recipientEmail program
       programCategory verificationHash notes isRevoked isVerified verificationCount
       _id __v].
  repeat match goal with
         | H : String.eqb _ _ = true |- _ => apply String.eqb_eq in H
         end.
  assert (Hname : (if String.eqb (recipientName c) "" then recipientName c
                   else Js.trim (recipientName c)) = recipientName c).
  { destruct (String.eqb (recipientName c) ""); [reflexivity | assumption]. }
  assert (Hmail : (if String.eqb (recipientEmail c) "" then recipientEmail c
                   else Js.trim (Js.toLowerCase (recipientEmail c))) = recipientEmail c).
  { destruct (String.eqb (recipientEmail c) ""); [reflexivity | assumption]. }
  assert (Hhash : String.eqb (verificationHash c) "" = false).
  { unfold required in *.
    destruct (String.eqb (verificationHash c) ""); [discriminate | reflexivity]. }
  rewrite Hname, Hmail, Hhash. repeat split.
Qed.

(** Conformance only depends on the validated paths. *)
Lemma conforms_paths (a b : doc) :
  certificateId a = certificateId b -> recipientName a = recipientName b ->
  recipientEmail a = recipientEmail b -> program a = program b ->
  programCategory a = programCategory b -> verificationHash a = verificationHash b ->
  notes a = notes b ->
  conforms a = conforms b.
Proof.
  intros H1 H2 H3 H4 H5 H6 H7. unfold conforms, validates.
  now rewrite H1, H2, H3, H4, H5, H6, H7.
Qed.

(** The update a verification sends, applied to a stored document: the
    keys, the flags and the validated paths stay, the counter becomes
    the loaded one plus 1. *)
Lemma updateOne_tracked (P : Primitives) (now t : Z) (addr : string) (c c1 d : doc)
    (atomics : ArrayOp) :
  conforms c = true -> verify now c = Normal c1 ->
  let d' := Certificate.updateOne c (preSave P t (trackIP now addr c1)) atomics d in
  _id d' = _id d /\ certificateId d' = certificateId d
  /\ isRevoked d' = isRevoked d /\ isVerified d' = isVerified d
  /\ conforms d' = conforms d
  /\ verificationCount d' = verificationCount c + 1.
Proof.
  intros Hc Hv. cbv zeta.
  destruct (preSave_tracked P now t addr c c1 Hc Hv)
    as (H1 & H2 & H3 & H4 & H5 & H6 & H7 & H8 & H9 & H10 & _).
  cbv zeta in *.
  set (this' := preSave P t (trackIP now addr c1)) in *.
  split; [reflexivity|].
  assert (E1 : certificateId (Certificate.updateOne c this' atomics d) = certificateId d).
  { cbn [Certificate.updateOne certificateId]. rewrite H1. SaveFacts.sent_unmodified. }
  split; [exact E1|].
  split.
  { cbn [Certificate.updateOne isRevoked]. rewrite H8. SaveFacts.sent_unmodified. }
  split.
  { cbn [Certificate.updateOne isVerified]. rewrite H9. SaveFacts.sent_unmodified. }
  split.
  { apply conforms_paths; [exact E1| | | | | |].
    - cbn [Certificate.updateOne recipientName]. rewrite H2. SaveFacts.sent_unmodified.
    - cbn [Certificate.updateOne recipientEmail]. rewrite H3. SaveFacts.sent_unmodified.
    - cbn [Certificate.updateOne program]. rewrite H4. SaveFacts.sent_unmodified.
    - cbn [Certificate.updateOne programCategory]. rewrite H5. SaveFacts.sent_unmodified.
    - cbn [Certificate.updateOne verificationHash]. rewrite H6. SaveFacts.sent_unmodified.
    - cbn [Certificate.updateOne notes]. rewrite H7. SaveFacts.sent_unmodified. }
  cbn [Certificate.updateOne verificationCount]. rewrite H10.
  unfold Certificate.sent.
  destruct (Z.eqb_spec (verificationCount c) (verificationCount c + 1)); [lia | reflexivity].
Qed.

Lemma NoDup_id_after (l1 : list doc) (c : doc) (l2 : list doc) :
  NoDup (map _id (l1 ++ c :: l2)) ->
  forall x, In x l2 -> String.eqb (_id x) (_id c) = false.
Proof.
  intros ND x Hx. rewrite map_app in ND. cbn [map] in ND.
  apply NoDup_remove_2 in ND. apply String.eqb_neq. intros E. apply ND.
  rewrite in_app_iff. right. rewrite <- E. now apply in_map.
Qed.

Lemma current_certificates (c : doc) (t : Task) (p : Progress) (k : Z) (w w1 : World) :
  certificates w1 = certificates w -> current c t p k w -> current c t p k w1.
Proof.
  intros E. unfold current, stored. now rewrite E.
Qed.

Lemma storedWith_certificates (c : doc) (k : Z) (w w1 : World) :
  certificates w1 = certificates w -> storedWith c k w -> storedWith c k w1.
Proof.
  intros E. unfold storedWith, stored. now rewrite E.
Qed.

Section Simulation.

Variable P : Primitives.
Variable c : doc.

(** One step of a request, with the other request [t'] at [p']. *)
Lemma step_simulates (now : Z) (req : Request) (t : Task) (p : Progress)
    (k : Z) (w : World) (t' : Task) (p' : Progress) :
  Js.toUpperCase (params_certificateId req) = certificateId c ->
  taskAt c now req t p -> storedWith c k w ->
  current c t p k w -> current c t' p' k w ->
  (beforeSave p -> beforeSave p' -> k = 0 /\ writesFirst p /\ writesFirst p') ->
  (k = 0 \/ succeeded t \/ succeeded t') ->
  taskAt c now req (fst (step P now req t w)) (fst (progress p k))
  /\ storedWith c (snd (progress p k)) (snd (step P now req t w))
  /\ current c (fst (step P now req t w)) (fst (progress p k)) (snd (progress p k))
       (snd (step P now req t w))
  /\ current c t' p' (snd (progress p k)) (snd (step P now req t w))
  /\ (beforeSave (fst (progress p k)) -> beforeSave p' ->
      snd (progress p k) = 0 /\ writesFirst (fst (progress p k)) /\ writesFirst p')
  /\ (snd (progress p k) = 0 \/ succeeded (fst (step P now req t w)) \/ succeeded t').
Proof.
  intros Hid Ht W Cur Cur' Q S.
  pose proof W as [ND (d & F & Hoid & Hcid & Hr & Hv & Hconf & Hcount)].
  destruct p, t; cbn [taskAt] in Ht; try contradiction.
  - (* lookup *)
    cbn [step progress fst snd].
    unfold Certificate.findByCertificateId, Certificate.findOne. rewrite Hid.
    unfold stored in F. rewrite F, Hr.
    destruct (verify_active now d Hr Hv) as (d1 & Hd1 & _).
    rewrite Hd1. cbn [fst snd].
    split.
    { cbn [taskAt]. split; [exact Hoid|]. split; [exact Hcid|]. split; [exact Hr|].
      split; [exact Hv|]. split; [exact Hconf|]. split; [lia|].
      split; [reflexivity|]. exists d1. split; [exact Hd1 | reflexivity]. }
    split; [apply (storedWith_certificates c k w); [reflexivity | exact W]|].
    split.
    { cbn [current]. left. exists d. split; [exact F | reflexivity]. }
    split; [apply (current_certificates c t' p' k w); [reflexivity | exact Cur']|].
    split.
    { intros _ B'. destruct (Q I B') as (K0 & _ & W'). cbn [writesFirst].
      split; [exact K0|]. split; [lia | exact W']. }
    destruct S as [S | [[] | S]]; [left; exact S | right; right; exact S].
  - (* save *)
    destruct Ht as (Toid & Tcid & Tr & Tv & Tconf & Tcount & Tatomics & v & Hver & ->).
    cbn [step progress fst snd].
    destruct (SaveFacts.validates_tracked now now (clientIP req) loaded v Hver)
      as (Hval & _ & Hthis_id & Hthis_v & _).
    assert (Hvalid : validates (trackIP now (clientIP req) v) = true).
    { rewrite Hval. unfold conforms in Tconf.
      apply andb_prop in Tconf as [Tconf _]. apply andb_prop in Tconf as [Tconf _].
      exact Tconf. }
    destruct (find_split _ _ _ F) as (l1 & l2 & El & Hfd & Hl1).
    pose proof ND as ND'. rewrite El in ND'.
    set (this' := preSave P now (trackIP now (clientIP req) v)).
    set (sel := fun x : doc =>
                  String.eqb (_id x) (_id this')
                  && (negb (versionWhere atomics) || (__v x =? __v this'))).
    assert (Hid' : _id this' = _id d).
    { change (_id this') with (_id (trackIP now (clientIP req) v)). congruence. }
    assert (Hl1' : forall x, In x l1 -> sel x = false).
    { intros x Hx. unfold sel. rewrite Hid'.
      now rewrite (NoDup_key_before _id l1 d l2 ND' x Hx). }
    assert (Hl2' : forall x, In x l2 -> sel x = false).
    { intros x Hx. unfold sel. rewrite Hid'.
      now rewrite (NoDup_id_after l1 d l2 ND' x Hx). }
    unfold Certificate.save. rewrite Hvalid. fold this'. fold sel.
    destruct (sel d) eqn:Hsel.
    + (* the update goes through *)
      rewrite El, (SaveFacts.updateFirst_at sel _ l1 d l2 Hl1' Hsel).
      cbn [fst snd].
      destruct (updateOne_tracked P now now (clientIP req) loaded v d atomics Tconf Hver)
        as (U1 & U2 & U3 & U4 & U5 & U6).
      cbv zeta in U1, U2, U3, U4, U5, U6. fold this' in U1, U2, U3, U4, U5, U6.
      set (d' := Certificate.updateOne loaded this' atomics d) in *.
      split; [reflexivity|].
      split.
      { split.
        - cbn [certificates logCall setCertificates].
          rewrite !map_app in *. cbn [map] in *. now rewrite U1.
        - exists d'. split.
          + unfold stored. cbn [certificates logCall setCertificates].
            apply find_at; [exact Hl1 | now rewrite U2].
          + split; [congruence|]. split; [congruence|]. split; [congruence|].
            split; [congruence|]. split; [congruence|]. lia. }
      split; [exact I|].
      split.
      { destruct p' as [|m| |], t'; cbn [current]; try exact I.
        right. destruct (Q I I) as (_ & Hn & Hm). cbn [writesFirst] in Hn, Hm. lia. }
      split; [intros []|].
      right. left. reflexivity.
    + (* the version check refuses the update *)
      rewrite SaveFacts.updateFirst_none.
      2:{ intros x Hx. rewrite El in Hx. apply in_app_iff in Hx as [Hx | [<- | Hx]];
            [now apply Hl1' | exact Hsel | now apply Hl2']. }
      cbn [fst snd].
      assert (Hk : k = offset).
      { cbn [current] in Cur. destruct Cur as [(d0 & F0 & Ev) | Hk]; [|exact Hk].
        rewrite F in F0. injection F0 as <-.
        exfalso. unfold sel in Hsel. rewrite Hid', String.eqb_refl in Hsel.
        cbn [andb] in Hsel. apply orb_false_iff in Hsel as [_ Hsel].
        apply Z.eqb_neq in Hsel. apply Hsel.
        subst this'. cbn [preSave __v]. congruence. }
      subst offset.
      split; [reflexivity|].
      split; [apply (storedWith_certificates c k w); [reflexivity | exact W]|].
      split; [exact I|].
      split; [apply (current_certificates c t' p' k w); [reflexivity | exact Cur']|].
      split; [intros []|].
      destruct S as [S | [[] | S]]; [left; exact S | right; right; exact S].
  - (* audit *)
    cbn [step progress fst snd taskAt]. unfold AuditLog.create. cbn [fst snd].
    split; [left; exact Ht|].
    split; [apply (storedWith_certificates c k w); [reflexivity | exact W]|].
    split; [exact I|].
    split; [apply (current_certificates c t' p' k w); [reflexivity | exact Cur']|].
    split; [intros []|].
    right. left. exact Ht.
  - (* a refused save has nothing left to do *)
    cbn [step progress fst snd taskAt].
    split; [right; exact Ht|]. split; [exact W|]. split; [exact I|].
    split; [exact Cur'|]. split; [intros []|]. exact S.
  - (* answered *)
    cbn [step progress fst snd taskAt].
    split; [exact Ht|]. split; [exact W|]. split; [exact I|].
    split; [exact Cur'|]. split; [intros []|]. exact S.
Qed.

Lemma schedule_simulates (now1 : Z) (req1 : Request) (now2 : Z) (req2 : Request)
    (schedule : list bool) (s : Pair) (a : Counters) :
  Js.toUpperCase (params_certificateId req1) = certificateId c ->
  Js.toUpperCase (params_certificateId req2) = certificateId c ->
  matches c now1 req1 now2 req2 s a ->
  matches c now1 req1 now2 req2
    (fold_left (fun s who => schedule1 P now1 req1 now2 req2 who s) schedule s)
    (fold_left (fun s who => counters1 who s) schedule a).
Proof.
  intros H1 H2. revert s a.
  induction schedule as [|who rest IH]; intros s a M; [exact M|].
  cbn [fold_left]. apply IH.
  destruct M as (M1 & M2 & Mw & C1 & C2 & Q & S).
  unfold schedule1, counters1, quiet in *. destruct who.
  - pose proof (step_simulates now1 req1 (first s) (firstAt a) (storedOffset a)
                  (world s) (second s) (secondAt a) H1 M1 Mw C1 C2 Q S)
      as (T & W & K1 & K2 & Q' & S').
    destruct (step P now1 req1 (first s) (world s)),
      (progress (firstAt a) (storedOffset a)).
    cbn [fst snd] in *.
    split; [exact T|]. split; [exact M2|]. split; [exact W|].
    split; [exact K1|]. split; [exact K2|]. split; [exact Q' | exact S'].
  - assert (Q2 : beforeSave (secondAt a) -> beforeSave (firstAt a) ->
                 storedOffset a = 0 /\ writesFirst (secondAt a) /\ writesFirst (firstAt a)).
    { intros B2 B1. destruct (Q B1 B2) as (K0 & W1 & W2). auto. }
    assert (S2 : storedOffset a = 0 \/ succeeded (second s) \/ succeeded (first s))
      by tauto.
    pose proof (step_simulates now2 req2 (second s) (secondAt a) (storedOffset a)
                  (world s) (first s) (firstAt a) H2 M2 Mw C2 C1 Q2 S2)
      as (T & W & K1 & K2 & Q' & S').
    destruct (step P now2 req2 (second s) (world s)),
      (progress (secondAt a) (storedOffset a)).
    cbn [fst snd] in *.
    split; [exact M1|]. split; [exact T|]. split; [exact W|].
    split; [exact K2|]. split; [exact K1|].
    split; [|tauto].
    intros B1 B2. destruct (Q' B2 B1) as (K0 & W2 & W1). auto.
Qed.

End Simulation.

(** A schedule whose abstract run ends with both requests answered and
    [k] increments stored: both handlers have answered, each 200 or 500,
    one of them 200 once something was stored, and the stored counter is
    the initial one plus [k]. *)
Lemma schedule_outcome (P : Primitives) (c : doc) (now1 : Z) (req1 : Request)
    (now2 : Z) (req2 : Request) (w : World) (schedule : list bool) (k : Z) :
  uniqueIndexes w ->
  Js.toUpperCase (params_certificateId req1) = certificateId c ->
  Js.toUpperCase (params_certificateId req2) = certificateId c ->
  stored (certificateId c) w = Some c ->
  isRevoked c = false -> isVerified c = true -> conforms c = true ->
  fold_left (fun s who => counters1 who s) schedule
    {| firstAt := Looking; secondAt := Looking; storedOffset := 0 |}
    = {| firstAt := Answered; secondAt := Answered; storedOffset := k |} ->
  (exists r1 r2,
     first (runSchedule P now1 req1 now2 req2 schedule w) = Finished r1
     /\ second (runSchedule P now1 req1 now2 req2 schedule w) = Finished r2
     /\ (statusCode r1 = 200 \/ statusCode r1 = 500)
     /\ (statusCode r2 = 200 \/ statusCode r2 = 500)
     /\ (k = 0 \/ statusCode r1 = 200 \/ statusCode r2 = 200))
  /\ storedCount (certificateId c) (world (runSchedule P now1 req1 now2 req2 schedule w))
     = Some (verificationCount c + k).
Proof.
  intros [ND _] H1 H2 F Hr Hv Hconf Habs.
  assert (M0 : matches c now1 req1 now2 req2
                 {| first := AtFind; second := AtFind; world := w |}
                 {| firstAt := Looking; secondAt := Looking; storedOffset := 0 |}).
  { split; [exact I|]. split; [exact I|]. split.
    { split; [exact ND|]. exists c. repeat split; try assumption. cbn. lia. }
    split; [exact I|]. split; [exact I|]. split.
    { intros _ _. cbn. auto. }
    left. reflexivity. }
  pose proof (schedule_simulates P c now1 req1 now2 req2 schedule _ _ H1 H2 M0) as M.
  rewrite Habs in M. fold (runSchedule P now1 req1 now2 req2 schedule w) in M.
  destruct M as (T1 & T2 & (_ & d & Fd & _ & _ & _ & _ & _ & Hcount) & _ & _ & _ & S).
  cbn [firstAt secondAt storedOffset] in *.
  destruct (first (runSchedule P now1 req1 now2 req2 schedule w)) as [| | |r1];
    cbn [taskAt] in T1; try contradiction.
  destruct (second (runSchedule P now1 req1 now2 req2 schedule w)) as [| | |r2];
    cbn [taskAt] in T2; try contradiction.
  split.
  - exists r1, r2. split; [reflexivity|]. split; [reflexivity|].
    split; [exact T1|]. split; [exact T2|]. exact S.
  - unfold storedCount. rewrite Fd. cbn [option_map]. now rewrite Hcount.
Qed.

(** The document a verification leaves in the store it was loaded
    from. *)
Lemma written_tracked (P : Primitives) (now t : Z) (addr : string) (c c1 : doc)
    (atomics : ArrayOp) :
  conforms c = true -> verify now c = Normal c1 ->
  let d := Certificate.written P t atomics (trackIP now addr c1) in
  _id d = _id c /\ certificateId d = certificateId c
  /\ isRevoked d = isRevoked c /\ isVerified d = isVerified c
  /\ conforms d = true
  /\ verificationCount d = verificationCount c + 1.
Proof.
  intros Hc Hv. cbv zeta.
  destruct (preSave_tracked P now t addr c c1 Hc Hv)
    as (H1 & H2 & H3 & H4 & H5 & H6 & H7 & H8 & H9 & H10 & H11 & _).
  cbv zeta in *.
  set (this' := preSave P t (trackIP now addr c1)) in *.
  split; [exact H11|]. split; [exact H1|]. split; [exact H8|]. split; [exact H9|].
  split; [|exact H10].
  rewrite <- Hc. apply conforms_paths; assumption.
Qed.

(** One verification of the record [c] that is stored with [k]
    increments: it is answered 200 and leaves [k + 1] increments. *)
Lemma verifyHandler_increments (P : Primitives) (c : doc) (now : Z) (req : Request)
    (k : Z) (w : World) :
  Js.toUpperCase (params_certificateId req) = certificateId c ->
  storedWith c k w ->
  exists r w1,
    verifyHandler P now req w = (Normal r, w1)
    /\ statusCode r = 200
    /\ storedWith c (k + 1) w1
    /\ dbCalls w1 = (dbCalls w ++ [CertificateFindOne; CertificateSave; AuditLogCreate])%list.
Proof.
  intros Hid [ND (d & F & Hoid & Hcid & Hr & Hv & Hconf & Hcount)].
  rewrite <- Hid in F.
  assert (Hvalid : validates d = true).
  { unfold conforms in Hconf. apply andb_prop in Hconf as [Hconf _].
    apply andb_prop in Hconf as [Hconf _]. exact Hconf. }
  destruct (verifyHandler_verified P now req w d ND F Hr Hv Hvalid)
    as (l1 & l2 & d1 & El & Hl1 & Hd1 & ->).
  destruct (written_tracked P now now (clientIP req) d d1
              (trackedAtomics now (clientIP req) (ipAddresses d)) Hconf Hd1)
    as (W1 & W2 & W3 & W4 & W5 & W6).
  cbv zeta in *.
  set (d' := Certificate.written P now _ _) in *.
  do 2 eexists. split; [reflexivity|]. split; [reflexivity|].
  split.
  - split.
    + cbn [certificates logCall setAuditLogs setCertificates].
      rewrite El in ND. rewrite !map_app in *. cbn [map] in *. now rewrite W1.
    + exists d'. split.
      * unfold stored. cbn [certificates logCall setAuditLogs setCertificates].
        rewrite <- Hid. apply find_at; [exact Hl1|].
        rewrite W2, Hcid, Hid. apply String.eqb_refl.
      * split; [congruence|]. split; [congruence|]. split; [congruence|].
        split; [congruence|]. split; [exact W5|]. lia.
  - cbn [dbCalls logCall setAuditLogs setCertificates].
    rewrite <- !app_assoc. reflexivity.
Qed.

Lemma schedule1_first (P : Primitives) (now1 : Z) (req1 : Request) (now2 : Z)
    (req2 : Request) (s : Pair) :
  schedule1 P now1 req1 now2 req2 true s
  = {| first := fst (step P now1 req1 (first s) (world s));
       second := second s;
       world := snd (step P now1 req1 (first s) (world s)) |}.
Proof. unfold schedule1. now destruct (step P now1 req1 (first s) (world s)). Qed.

Lemma schedule1_second (P : Primitives) (now1 : Z) (req1 : Request) (now2 : Z)
    (req2 : Request) (s : Pair) :
  schedule1 P now1 req1 now2 req2 false s
  = {| first := first s;
       second := fst (step P now2 req2 (second s) (world s));
       world := snd (step P now2 req2 (second s) (world s)) |}.
Proof. unfold schedule1. now destruct (step P now2 req2 (second s) (world s)). Qed.

(** One request after the other: the two handlers in sequence. *)
Lemma sequential_schedule (P : Primitives) (now1 : Z) (req1 : Request) (now2 : Z)
    (req2 : Request) (w : World) :
  exists r1 w1 r2 w2,
    verifyHandler P now1 req1 w = (Normal r1, w1)
    /\ verifyHandler P now2 req2 w1 = (Normal r2, w2)
    /\ runSchedule P now1 req1 now2 req2 [true; true; true; false; false; false] w
       = {| first := Finished r1; second := Finished r2; world := w2 |}.
Proof.
  unfold runSchedule. cbn [fold_left].
  rewrite !schedule1_second, !schedule1_first. cbn [first second world].
  destruct (steps_are_handler P now1 req1 w) as (r1 & E1 & H1). cbv zeta in E1, H1.
  rewrite E1.
  destruct (steps_are_handler P now2 req2 (snd (verifyHandler P now1 req1 w)))
    as (r2 & E2 & H2).
  cbv zeta in E2, H2.
  exists r1. eexists. exists r2. eexists.
  split; [exact H1|]. split; [rewrite H1 in H2; exact H2|].
  rewrite H1 in E2. cbn [snd] in E2. rewrite E2. reflexivity.
Qed.




(** With a full IP list each request shifts the list, so each [save]
    asks for the version it loaded: of two verifications whose lookups
    both precede the saves, the first to save is answered 200 and the
    other 500, and the stored counter goes from 0 to 1. *)
Lemma overlapping_verifications_version_conflict :
  map (fun t => match t with
                | Finished r => statusCode r
                | _ => 0
                end)
    [first (runSchedule Sample.primitives 1736899300000
              {| params_certificateId := "2501004";
                 query_certificateId := Some "2501004";
                 clientIP := "203.0.113.7" |}
              1736899300050
              {| params_certificateId := "2501004";
                 query_certificateId := Some "2501004";
                 clientIP := "203.0.113.8" |}
              [true; false; true; false; true; false] Sample.world);
     second (runSchedule Sample.primitives 1736899300000
               {| params_certificateId := "2501004";
                  query_certificateId := Some "2501004";
                  clientIP := "203.0.113.7" |}
               1736899300050
               {| params_certificateId := "2501004";
                  query_certificateId := Some "2501004";
                  clientIP := "203.0.113.8" |}
               [true; false; true; false; true; false] Sample.world)]
  = [200; 500]
  /\ storedCount "2501004"
       (world (runSchedule Sample.primitives 1736899300000
                 {| params_certificateId := "2501004";
                    query_certificateId := Some "2501004";
                    clientIP := "203.0.113.7" |}
                 1736899300050
                 {| params_certificateId := "2501004";
                    query_certificateId := Some "2501004";
                    clientIP := "203.0.113.8" |}
                 [true; false; true; false; true; false] Sample.world))
     = Some 1.
Proof. split; vm_compute; reflexivity. Qed.

End ConcurrencyFacts.

(** ** The scenarios of the specification, run on the sample database *)

Module Scenarios.
Import certificateSchema certificatesRouter.

(** The validator never reaches the [null] dereference. *)
Lemma validateCertificateId_returns (s : string) :
  Codec.validateCertificateId s <> None.
Proof.
  unfold Codec.validateCertificateId, Codec.parseCertificateId.
  destruct (Js.test_7digits (Js.toUpperCase (Js.trim s))); cbn [negb]; [|discriminate].
  repeat match goal with
         | |- context [if ?b then _ else _] => destruct b
         end; discriminate.
Qed.

(** Scenario A: an active certificate is verified; the answer carries the
    year, the serial number and the incremented counter. *)
Example scenario_active :
  fst (verifyRoute Sample.primitives 1736899300000
         {| params_certificateId := "2501001"; query_certificateId := Some "2501001";
            clientIP := "203.0.113.7" |} Sample.world)
  = Normal
      {| statusCode := 200;
         body := JObj [("verified", JBool true);
                       ("certificate",
                        JObj [("certificateId", JStr "2501001");
                              ("recipientName", JStr "Ahmed Hassan");
                              ("program", JStr "Web Development");
                              ("programCategory", JStr "01");
                              ("awardDate", JDate 1736899200000);
                              ("issuedBy", JStr "STEM CS Club");
                              ("year", JStr "2025");
                              ("serialNumber", JStr "001");
                              ("verificationCount", JNum 1)])] |}.
Proof. vm_compute. reflexivity. Qed.

(** Scenario B: an absent ID is answered 404. *)
Example scenario_absent :
  fst (verifyRoute Sample.primitives 1736899300000
         {| params_certificateId := "9999999"; query_certificateId := Some "9999999";
            clientIP := "203.0.113.7" |} Sample.world)
  = Normal notFoundResponse.
Proof. vm_compute. reflexivity. Qed.

(** Scenario C: six digits are rejected by the validator. *)
Example scenario_six_digits :
  Codec.validateCertificateId "123456" = Some (Codec.Invalid Codec.InvalidFormat).
Proof. vm_compute. reflexivity. Qed.

(** Scenario D: a revoked record is answered 410 with its reason. *)
Example scenario_revoked :
  fst (verifyRoute Sample.primitives 1736899300000
         {| params_certificateId := "2501002"; query_certificateId := Some "2501002";
            clientIP := "203.0.113.7" |} Sample.world)
  = Normal
      {| statusCode := 410;
         body := JObj [("error", JStr "Revoked");
                       ("message", JStr "This certificate has been revoked");
                       ("verified", JBool false);
                       ("revokedAt", JDate 1740000000000);
                       ("revocationReason", JStr "policy violation")] |}.
Proof. vm_compute. reflexivity. Qed.

(** A stored record that fails the validation of the schema cannot be
    saved: its verification is answered 500 after the lookup alone, and
    so is its revocation; nothing is written. *)
Example scenario_invalid_record_verify :
  verifyRoute Sample.primitives 1736899300000
    {| params_certificateId := "2501001"; query_certificateId := Some "2501001";
       clientIP := "203.0.113.7" |} MoreSamples.unhashedWorld
  = (Normal verificationErrorResponse,
     logCall CertificateFindOne MoreSamples.unhashedWorld).
Proof. vm_compute. reflexivity. Qed.

Example scenario_invalid_record_revoke :
  adminRouter.revokeRoute Sample.primitives 1740000000000
    {| adminRouter.params_id := "65a4c0de0000000000000001";
       adminRouter.body_reason := Some "duplicate";
       adminRouter.user := Some Sample.user;
       adminRouter.clientIP := "198.51.100.4" |} MoreSamples.unhashedWorld
  = (Normal adminRouter.revocationFailedResponse,
     logCall CertificateFindById MoreSamples.unhashedWorld).
Proof. vm_compute. reflexivity. Qed.

(** A URL without a [certificateId] query parameter does not pass the
    validation chain of the route, whatever its path parameter. *)
Example path_only_request :
  exists details,
    verifyRoute Sample.primitives 1736899300000
      {| params_certificateId := "2501001"; query_certificateId := None;
         clientIP := "203.0.113.7" |} Sample.world
    = (Normal {| statusCode := 400; body := details |}, Sample.world).
Proof. eexists. vm_compute. reflexivity. Qed.

End Scenarios.

(** * Further properties of the code *)

(** ** The ID codec, the validator and the form *)

Module CodecMore.
Import Codec CodecFacts.

Lemma parse_some_7digits (s : string) (p : ParsedId) :
  parseCertificateId s = Some p -> Js.test_7digits s = true.
Proof.
  unfold parseCertificateId. destruct (Js.test_7digits s); [reflexivity | discriminate].
Qed.

(** X1.  Decoding loses nothing: when [parseCertificateId] returns a
    structure for [s], putting the two year digits, the sub-program and
    the serial back together gives [s], and decoding that string gives
    the same structure again. *)
Theorem parseCertificateId_roundtrip (s : string) (p : ParsedId) :
  parseCertificateId s = Some p ->
  id p = s
  /\ String.substring 0 2 (year p) = "20"
  /\ String.substring 2 2 (year p) ++ subProgram p ++ serial p = s
  /\ parseCertificateId (String.substring 2 2 (year p) ++ subProgram p ++ serial p)
     = Some p.
Proof.
  intros H. pose proof (parse_some_7digits s p H) as T.
  destruct (test_7digits_inv s T)
    as (a & b & c & d & e & f & g & -> & _).
  pose proof H as H'. unfold parseCertificateId in H'. rewrite T in H'.
  cbn [negb] in H'. injection H' as <-.
  cbn [id year subProgram serial].
  split; [reflexivity|]. split; [reflexivity|]. split; [reflexivity|].
  exact H.
Qed.

Lemma parseCertificateId_roundtrip_witness :
  exists p,
    parseCertificateId "2502001" = Some p
    /\ String.substring 2 2 (year p) ++ subProgram p ++ serial p = "2502001".
Proof.
  eexists. split; [reflexivity|].
  apply (parseCertificateId_roundtrip "2502001" _ eq_refl).
Defined.

Lemma three_digits_zero (e f g : ascii) :
  Js.isDigit e = true -> Js.isDigit f = true -> Js.isDigit g = true ->
  (decimalValue (String e (String f (String g ""))) < 1
   <-> String e (String f (String g "")) = "000")
  /\ decimalValue (String e (String f (String g ""))) <= 9999.
Proof.
  intros He Hf Hg. split.
  - each_digit He; each_digit Hf; each_digit Hg;
      split; intros H; try reflexivity; try discriminate H;
      cbv in H; discriminate H.
  - apply digit_range in He, Hf, Hg. unfold decimalValue. cbn [decimalValueFrom]. lia.
Qed.

(** The outcome of the validator on an input whose trimmed, upper-cased
    form is seven digits: only the year's lower bound and a serial of
    zeros can reject it. *)
Lemma validate_7digits_outcome (s : string) :
  Js.test_7digits (Js.toUpperCase (Js.trim s)) = true ->
  validateCertificateId s =
    if decimalValue (String.substring 0 2 (Js.toUpperCase (Js.trim s))) <? 20
    then Some (Invalid InvalidYear)
    else if String.eqb (String.substring 4 3 (Js.toUpperCase (Js.trim s))) "000"
    then Some (Invalid InvalidSerial)
    else option_map Valid (parseCertificateId (Js.toUpperCase (Js.trim s))).
Proof.
  intros T. rewrite (validate_7digits s T). cbv zeta.
  destruct (test_7digits_inv _ T)
    as (a & b & c & d & e & f & g & E & Ha & Hb & Hc & Hd & He & Hf & Hg).
  rewrite E.
  change (String.substring 0 2 (String a (String b (String c (String d (String e (String f (String g ""))))))))
    with (String a (String b "")).
  change (String.substring 2 2 (String a (String b (String c (String d (String e (String f (String g ""))))))))
    with (String c (String d "")).
  change (String.substring 4 3 (String a (String b (String c (String d (String e (String f (String g ""))))))))
    with (String e (String f (String g ""))).
  pose proof (two_digits_range a b Ha Hb) as Hy.
  pose proof (two_digits_range c d Hc Hd) as Hsp.
  destruct (three_digits_zero e f g He Hf Hg) as [Hz Hmax].
  destruct (Z.ltb_spec (decimalValue (String a (String b ""))) 20); [reflexivity|].
  destruct (Z.ltb_spec 99 (decimalValue (String a (String b "")))); [lia|].
  destruct (Z.ltb_spec (decimalValue (String c (String d ""))) 0); [lia|].
  destruct (Z.ltb_spec 99 (decimalValue (String c (String d "")))); [lia|].
  destruct (Z.ltb_spec 9999 (decimalValue (String e (String f (String g ""))))); [lia|].
  cbn [orb].
  destruct (String.eqb_spec (String e (String f (String g ""))) "000") as [E0 | E0].
  - apply Hz in E0. apply Z.ltb_lt in E0. now rewrite E0.
  - destruct (Z.ltb_spec (decimalValue (String e (String f (String g "")))) 1) as [L | L];
      [apply Hz in L; contradiction | reflexivity].
Qed.

(** X2.  What the validator accepts: exactly the inputs that, once
    trimmed and upper-cased, are seven digits with year digits of at
    least 20 and a serial other than 000.  The upper bounds 99 and 9999
    of the code and its sub-program rule reject nothing. *)
Theorem validateCertificateId_accepts_iff (s : string) :
  (exists p, validateCertificateId s = Some (Valid p))
  <->
  (Js.test_7digits (Js.toUpperCase (Js.trim s)) = true
   /\ 20 <= decimalValue (String.substring 0 2 (Js.toUpperCase (Js.trim s)))
   /\ String.substring 4 3 (Js.toUpperCase (Js.trim s)) <> "000").
Proof.
  destruct (Js.test_7digits (Js.toUpperCase (Js.trim s))) eqn:T.
  - rewrite (validate_7digits_outcome s T).
    assert (P : exists p, parseCertificateId (Js.toUpperCase (Js.trim s)) = Some p).
    { unfold parseCertificateId. rewrite T. eexists. reflexivity. }
    destruct P as [p Hp]. rewrite Hp. cbn [option_map].
    destruct (Z.ltb_spec (decimalValue (String.substring 0 2 (Js.toUpperCase (Js.trim s)))) 20).
    + split; [intros [q Hq]; discriminate Hq | intros (_ & H20 & _); lia].
    + destruct (String.eqb_spec (String.substring 4 3 (Js.toUpperCase (Js.trim s))) "000").
      * split; [intros [q Hq]; discriminate Hq | intros (_ & _ & Hne); contradiction].
      * split; [intros _; repeat split; assumption | intros _; exists p; reflexivity].
  - unfold validateCertificateId. rewrite T. cbn [negb].
    split; [intros [q Hq]; discriminate Hq | intros (Hf & _); discriminate Hf].
Qed.

Lemma validateCertificateId_accepts_iff_witness :
  exists p, validateCertificateId "  2099999 " = Some (Valid p).
Proof.
  apply (proj2 (validateCertificateId_accepts_iff "  2099999 ")).
  split; [reflexivity|]. split; [cbv; discriminate | discriminate].
Defined.

(** X3.  The sub-program rule is dead: on no input does the validator
    answer with the sub-program message. *)
Theorem validateCertificateId_never_InvalidSubProgram (s : string) :
  validateCertificateId s <> Some (Invalid InvalidSubProgram).
Proof.
  destruct (Js.test_7digits (Js.toUpperCase (Js.trim s))) eqn:T.
  - rewrite (validate_7digits_outcome s T).
    destruct (_ <? 20); [discriminate|].
    destruct (String.eqb _ "000"); [discriminate|].
    destruct (parseCertificateId _); discriminate.
  - unfold validateCertificateId. rewrite T. discriminate.
Qed.

(** X4.  Validation is stable on its own output: when an input is
    accepted, the ID of the decoded structure is the trimmed, upper-cased
    input, and validating that ID gives the same structure. *)
Theorem validateCertificateId_stable (s : string) (p : ParsedId) :
  validateCertificateId s = Some (Valid p) ->
  id p = Js.toUpperCase (Js.trim s)
  /\ validateCertificateId (id p) = Some (Valid p).
Proof.
  intros H.
  destruct (Js.test_7digits (Js.toUpperCase (Js.trim s))) eqn:T.
  2:{ unfold validateCertificateId in H. rewrite T in H. discriminate H. }
  pose proof H as H'. rewrite (validate_7digits_outcome s T) in H'.
  destruct (_ <? 20) eqn:Y; [discriminate H'|].
  destruct (String.eqb _ "000") eqn:Z0; [discriminate H'|].
  destruct (parseCertificateId (Js.toUpperCase (Js.trim s))) as [q|] eqn:Pq;
    [|discriminate H'].
  injection H' as <-.
  assert (Hid : id q = Js.toUpperCase (Js.trim s)).
  { unfold parseCertificateId in Pq. rewrite T in Pq. injection Pq as <-. reflexivity. }
  split; [exact Hid|].
  rewrite Hid.
  pose proof (canonical_7digits _ T) as C.
  rewrite (validate_7digits_outcome (Js.toUpperCase (Js.trim s))) by (rewrite C; exact T).
  rewrite C, Y, Z0, Pq. reflexivity.
Qed.

Lemma validateCertificateId_stable_witness :
  exists p,
    validateCertificateId " 2501001" = Some (Valid p)
    /\ id p = "2501001"
    /\ validateCertificateId (id p) = Some (Valid p).
Proof.
  eexists. split; [reflexivity|].
  apply (validateCertificateId_stable " 2501001" _ eq_refl).
Defined.

(** X5.  The form looks the certificate up under the raw content of the
    field, not under the trimmed ID it validated: a success is only
    ever shown for an input that is itself seven digits and a key of
    the database, so an ID typed with white space around it passes the
    validator and is then reported as not found. *)
Theorem submit_success_only_raw_key (s : string) (d : Script.CertificateData)
    (p : ParsedId) :
  Script.submit s = Some (Script.SuccessState d p) ->
  Js.test_7digits s = true
  /\ Js.trim s = s
  /\ id p = s
  /\ Script.lookupCertificate s = Some d
  /\ validateCertificateId s = Some (Valid p).
Proof.
  unfold Script.submit. intros H.
  destruct (validateCertificateId s) as [[q | e] |] eqn:V; try discriminate H.
  destruct (Script.lookupCertificate s) as [d'|] eqn:L; [|discriminate H].
  injection H as -> ->.
  assert (T : Js.test_7digits s = true).
  { unfold Script.lookupCertificate, Script.certificateDatabase in L.
    cbn [Script.ownProperty] in L.
    repeat match type of L with
           | (if String.eqb s ?k then _ else _) = _ =>
               destruct (String.eqb_spec s k) as [-> | _]; [reflexivity|]
           end.
    discriminate L. }
  pose proof (canonical_7digits s T) as C.
  destruct (validateCertificateId_stable s p V) as [Hid _].
  split; [exact T|]. split.
  - destruct (test_7digits_inv s T)
      as (a & b & c & d0 & e & f & g & -> & Ha & _ & _ & _ & _ & _ & Hg).
    unfold Js.trim. cbn [Js.trimStart]. rewrite (digit_not_space a Ha).
    cbn [Js.trimEnd]. now rewrite (digit_not_space g Hg).
  - split; [congruence|]. split; reflexivity.
Qed.

Lemma submit_success_only_raw_key_witness :
  exists d p,
    Script.submit "2500001" = Some (Script.SuccessState d p)
    /\ Script.lookupCertificate "2500001" = Some d
    /\ id p = "2500001".
Proof.
  do 2 eexists. split; [reflexivity|].
  destruct (submit_success_only_raw_key "2500001" _ _ eq_refl) as (_ & _ & Hid & Hl & _).
  split; assumption.
Defined.

End CodecMore.

(** ** The IP list over many visits *)

Module TrackIPMore.
Import certificateSchema Repeated TrackIPFacts.

Lemma lastN_length {A} (n : nat) (l : list A) : (length (lastN n l) <= n)%nat.
Proof. unfold lastN. rewrite length_skipn. lia. Qed.

Lemma lastN_app_lastN {A} (n : nat) (x y : list A) :
  lastN n (lastN n x ++ y) = lastN n (x ++ y).
Proof.
  unfold lastN. rewrite !length_app, length_skipn.
  destruct (Nat.le_gt_cases (length x) n) as [Hle | Hgt].
  - replace (length x - n)%nat with 0%nat by lia. cbn [skipn].
    now rewrite Nat.sub_0_r.
  - set (k := (length x - n)%nat).
    replace (length x - k + length y - n)%nat with (length y) by lia.
    replace (length x + length y - n)%nat with (length y + k)%nat by lia.
    rewrite <- skipn_skipn. f_equal.
    rewrite skipn_app. replace (k - length x)%nat with 0%nat by lia.
    reflexivity.
Qed.

Lemma NoDup_skipn_app {A} (k : nat) (x y : list A) :
  NoDup (x ++ y) -> NoDup (skipn k x ++ y).
Proof.
  intros ND. rewrite <- (firstn_skipn k x), <- app_assoc in ND.
  exact (NoDup_app_remove_l _ _ ND).
Qed.

(** One visit from a new address, on a list of at most ten. *)
Lemma trackedIPs_new (now : Z) (addr : string) (l : list IpEntry) :
  (length l <= 10)%nat -> ~ In addr (map ip l) ->
  map ip (trackedIPs now addr l) = lastN 10 (map ip l ++ [addr]).
Proof.
  intros Hlen Hnew. unfold trackedIPs.
  destruct (find (fun entry => String.eqb (ip entry) addr) l) eqn:F.
  { apply find_ip_none in Hnew. congruence. }
  unfold lastN. rewrite length_app, length_map. cbn [length].
  destruct (Nat.leb_spec 10 (length l)) as [Hfull | Hroom].
  - replace (length l + 1 - 10)%nat with 1%nat by lia.
    destruct l as [|e r]; [cbn in Hfull; lia|].
    rewrite map_app. reflexivity.
  - replace (length l + 1 - 10)%nat with 0%nat by lia.
    rewrite map_app. reflexivity.
Qed.

(** X6.  The IP list is a sliding window: starting from a list of at
    most ten pairwise-distinct addresses, after visits from further
    addresses that are new and pairwise distinct, the list holds the last
    ten addresses of the old list followed by the visitors, in arrival
    order. *)
Theorem trackAll_keeps_last_ten (visits : list (Z * string)) (this : doc) :
  (length (ipAddresses this) <= 10)%nat ->
  NoDup (map ip (ipAddresses this) ++ map snd visits) ->
  map ip (ipAddresses (trackAll visits this))
    = lastN 10 (map ip (ipAddresses this) ++ map snd visits).
Proof.
  revert this. induction visits as [|[t a] rest IH]; intros this Hlen ND.
  - cbn [trackAll fold_left map]. rewrite app_nil_r. unfold lastN.
    rewrite length_map. replace (length (ipAddresses this) - 10)%nat with 0%nat by lia.
    reflexivity.
  - cbn [trackAll fold_left fst snd map] in *.
    change (fold_left (fun d v => trackIP (fst v) (snd v) d) rest (trackIP t a this))
      with (trackAll rest (trackIP t a this)).
    assert (Hnew : ~ In a (map ip (ipAddresses this))).
    { intros Hin. apply NoDup_remove_2 in ND. apply ND.
      rewrite in_app_iff. now left. }
    assert (E : map ip (ipAddresses (trackIP t a this))
                = lastN 10 (map ip (ipAddresses this) ++ [a])).
    { cbn [trackIP ipAddresses]. now apply trackedIPs_new. }
    rewrite IH.
    + rewrite E, lastN_app_lastN, <- app_assoc. reflexivity.
    + rewrite <- (length_map ip), E. apply lastN_length.
    + rewrite E. unfold lastN. apply NoDup_skipn_app.
      rewrite <- app_assoc. exact ND.
Qed.

Lemma trackAll_keeps_last_ten_witness :
  map ip (ipAddresses
            (trackAll [(1736899300000, "203.0.113.7"); (1736899300500, "203.0.113.8")]
                      Sample.busy))
  = ["10.0.0.3"; "10.0.0.4"; "10.0.0.5"; "10.0.0.6"; "10.0.0.7"; "10.0.0.8";
     "10.0.0.9"; "10.0.0.10"; "203.0.113.7"; "203.0.113.8"].
Proof.
  apply (trackAll_keeps_last_ten
           [(1736899300000, "203.0.113.7"); (1736899300500, "203.0.113.8")] Sample.busy).
  - cbn. lia.
  - cbn. repeat (constructor; [cbn; intuition discriminate|]). constructor.
Defined.

End TrackIPMore.

(** ** More on the public routes *)

Module VerifyMore.
Import certificateSchema certificatesRouter Repeated StoreFacts VerifyFacts.

(** X7.  The validation chain of both public routes reads the query
    string: a request whose URL has no [certificateId] query parameter is
    answered 400 whatever its path parameter is, with nothing looked up
    and nothing written. *)
Theorem public_routes_require_query_parameter (P : Primitives) (now : Z)
    (req : Request) (w : World) :
  query_certificateId req = None ->
  (exists details,
     verifyRoute P now req w = (Normal {| statusCode := 400; body := details |}, w))
  /\
  (exists details,
     checkRoute req w = (Normal {| statusCode := 400; body := details |}, w)).
Proof.
  intros H. unfold verifyRoute, checkRoute, handleValidationErrors, certificateIdChain.
  rewrite H. cbn. split; eexists; reflexivity.
Qed.

Lemma public_routes_require_query_parameter_witness :
  exists details,
    verifyRoute Sample.primitives 1736899300000
      {| params_certificateId := "2501001"; query_certificateId := None;
         clientIP := "203.0.113.7" |} Sample.world
    = (Normal {| statusCode := 400; body := details |}, Sample.world).
Proof.
  apply (public_routes_require_query_parameter Sample.primitives 1736899300000
           {| params_certificateId := "2501001"; query_certificateId := None;
              clientIP := "203.0.113.7" |} Sample.world eq_refl).
Defined.

Lemma isDigit_upperChar (c : ascii) : Js.isDigit (Js.upperChar c) = Js.isDigit c.
Proof. destruct c as [[] [] [] [] [] [] [] []]; reflexivity. Qed.

Lemma test_7digits_toUpperCase (s : string) :
  Js.test_7digits (Js.toUpperCase s) = Js.test_7digits s.
Proof.
  unfold Js.test_7digits, Js.toUpperCase. f_equal.
  - f_equal. induction s as [|c r IH]; [reflexivity|]. cbn. now rewrite IH.
  - induction s as [|c r IH]; [reflexivity|]. cbn [Js.mapChars Js.allDigits].
    now rewrite isDigit_upperChar, IH.
Qed.

Lemma stored_none_when_malformed (certId : string) (w : World) :
  Js.test_7digits certId = false ->
  (forall d, In d (certificates w) -> Js.test_7digits (certificateId d) = true) ->
  stored certId w = None.
Proof.
  intros Hbad Hgood. unfold stored.
  destruct (find _ (certificates w)) as [d|] eqn:F; [|reflexivity].
  apply find_some in F as [Hin Heq]. apply String.eqb_eq in Heq.
  specialize (Hgood d Hin). congruence.
Qed.

(** X8.  The path parameter, which the handler looks up, is not what the
    chain validates: a request whose query parameter passes while its
    path parameter is not seven digits reaches the database; when every
    stored ID is seven digits (the schema's [match] rule) it is answered
    404 and one FAILED audit entry is written under the malformed
    path value. *)
Theorem verifyRoute_looks_up_unvalidated_path (P : Primitives) (now : Z)
    (req : Request) (w : World) :
  certificateIdChain req = [] ->
  Js.test_7digits (params_certificateId req) = false ->
  (forall d, In d (certificates w) -> Js.test_7digits (certificateId d) = true) ->
  exists e w',
    verifyRoute P now req w = (Normal notFoundResponse, w')
    /\ dbCalls w' = (dbCalls w ++ [CertificateFindOne; AuditLogCreate])%list
    /\ auditLogs w' = (auditLogs w ++ [e])%list
    /\ auditLogSchema.entityId e = Some (params_certificateId req)
    /\ auditLogSchema.status e = auditLogSchema.FAILED.
Proof.
  intros Hchain Hbad Hgood.
  rewrite (verifyRoute_valid P now req Hchain).
  rewrite (verifyHandler_notFound P now req w).
  - do 2 eexists. split; [reflexivity|].
    cbn [dbCalls auditLogs logCall setAuditLogs]. rewrite <- app_assoc.
    repeat split.
  - apply stored_none_when_malformed; [|exact Hgood].
    now rewrite test_7digits_toUpperCase.
Qed.

Lemma verifyRoute_looks_up_unvalidated_path_witness :
  exists e w',
    verifyRoute Sample.primitives 1736899300000
      {| params_certificateId := "not-an-id"; query_certificateId := Some "2501001";
         clientIP := "203.0.113.7" |} Sample.world
    = (Normal notFoundResponse, w')
    /\ dbCalls w' = (dbCalls Sample.world ++ [CertificateFindOne; AuditLogCreate])%list
    /\ auditLogs w' = (auditLogs Sample.world ++ [e])%list
    /\ auditLogSchema.entityId e = Some "not-an-id"
    /\ auditLogSchema.status e = auditLogSchema.FAILED.
Proof.
  apply (verifyRoute_looks_up_unvalidated_path Sample.primitives 1736899300000
           {| params_certificateId := "not-an-id"; query_certificateId := Some "2501001";
              clientIP := "203.0.113.7" |} Sample.world eq_refl eq_refl).
  intros d Hd. cbn in Hd.
  repeat (destruct Hd as [<- | Hd]; [reflexivity|]). destruct Hd.
Defined.

(** One successful verification, with the shape of the collection
    before and after. *)
Lemma verify_once (P : Primitives) (now : Z) (req : Request) (w : World) (c : doc) :
  uniqueIndexes w ->
  certificateIdChain req = [] ->
  stored (Js.toUpperCase (params_certificateId req)) w = Some c ->
  isRevoked c = false -> isVerified c = true -> validates c = true ->
  exists l1 l2 c1,
    certificates w = (l1 ++ c :: l2)%list
    /\ (forall x, In x l1 ->
          String.eqb (certificateId x) (Js.toUpperCase (params_certificateId req)) = false)
    /\ verify now c = Normal c1
    /\ verifyRoute P now req w =
         (Normal (verifiedResponse
                    (Certificate.written P now
                       (trackedAtomics now (clientIP req) (ipAddresses c))
                       (trackIP now (clientIP req) c1))),
          logCall AuditLogCreate
            (setAuditLogs
               (auditLogs w ++ [verifyEntry now req auditLogSchema.SUCCESS None])
               (logCall CertificateSave
                  (setCertificates
                     (l1 ++ Certificate.written P now
                              (trackedAtomics now (clientIP req) (ipAddresses c))
                              (trackIP now (clientIP req) c1) :: l2)
                     (logCall CertificateFindOne w))))).
Proof.
  intros [ND _] Hchain F Hr Hv Hvalid.
  rewrite (verifyRoute_valid P now req Hchain).
  exact (verifyHandler_verified P now req w c ND F Hr Hv Hvalid).
Qed.

Lemma filter_middle {A} (f : A -> bool) (l1 l2 : list A) (a b : A) :
  f a = false -> f b = false ->
  filter f (l1 ++ a :: l2) = filter f (l1 ++ b :: l2).
Proof.
  intros Ha Hb. rewrite !filter_app. cbn [filter]. now rewrite Ha, Hb.
Qed.

(** X9.  What a verification request can touch: whatever the request,
    the admin accounts are unchanged, the audit trail keeps every
    earlier entry and grows by at most one, no certificate is inserted,
    removed or re-keyed (the [_id]s and certificate IDs stay as they
    are, in order, so the unique indexes are kept), and every
    certificate whose ID is not the requested one is left exactly as it
    was. *)
Theorem verifyRoute_frame (P : Primitives) (now : Z) (req : Request) (w : World) :
  uniqueIndexes w ->
  admins (snd (verifyRoute P now req w)) = admins w
  /\ (exists added,
        auditLogs (snd (verifyRoute P now req w)) = (auditLogs w ++ added)%list
        /\ (length added <= 1)%nat)
  /\ map _id (certificates (snd (verifyRoute P now req w))) = map _id (certificates w)
  /\ map certificateId (certificates (snd (verifyRoute P now req w)))
     = map certificateId (certificates w)
  /\ uniqueIndexes (snd (verifyRoute P now req w))
  /\ filter (fun d => negb (String.eqb (certificateId d)
                              (Js.toUpperCase (params_certificateId req))))
            (certificates (snd (verifyRoute P now req w)))
     = filter (fun d => negb (String.eqb (certificateId d)
                                (Js.toUpperCase (params_certificateId req))))
              (certificates w).
Proof.
  intros U.
  assert (Same : forall w', admins w' = admins w -> certificates w' = certificates w ->
            forall added, auditLogs w' = (auditLogs w ++ added)%list ->
            (length added <= 1)%nat ->
            admins w' = admins w
            /\ (exists added, auditLogs w' = (auditLogs w ++ added)%list
                              /\ (length added <= 1)%nat)
            /\ map _id (certificates w') = map _id (certificates w)
            /\ map certificateId (certificates w') = map certificateId (certificates w)
            /\ uniqueIndexes w'
            /\ filter (fun d => negb (String.eqb (certificateId d)
                                        (Js.toUpperCase (params_certificateId req))))
                      (certificates w')
               = filter (fun d => negb (String.eqb (certificateId d)
                                          (Js.toUpperCase (params_certificateId req))))
                        (certificates w)).
  { intros w' Ha Hc added Hl Hn. unfold uniqueIndexes. rewrite Hc.
    split; [exact Ha|]. split; [exists added; split; assumption|].
    split; [reflexivity|]. split; [reflexivity|]. split; [exact U | reflexivity]. }
  destruct (certificateIdChain req) eqn:Hchain.
  2:{ rewrite verifyRoute_invalid by (rewrite Hchain; discriminate).
      apply (Same w eq_refl eq_refl []); [now rewrite app_nil_r | cbn; lia]. }
  destruct (stored (Js.toUpperCase (params_certificateId req)) w) as [c|] eqn:F.
  2:{ rewrite (verifyRoute_valid P now req Hchain),
        (verifyHandler_notFound P now req w F).
      eapply Same; try reflexivity; cbn; lia. }
  destruct (isRevoked c) eqn:Hr.
  { rewrite (verifyRoute_valid P now req Hchain),
      (verifyHandler_revoked P now req w c F Hr).
    eapply Same; try reflexivity; cbn; lia. }
  destruct (isVerified c) eqn:Hv.
  2:{ rewrite (verifyRoute_valid P now req Hchain),
        (verifyHandler_unverified P now req w c F Hr Hv).
      apply (Same _ eq_refl eq_refl []); [now rewrite app_nil_r | cbn; lia]. }
  destruct (validates c) eqn:Hvalid.
  2:{ rewrite (verifyRoute_valid P now req Hchain),
        (verifyHandler_invalid P now req w c F Hr Hv Hvalid).
      apply (Same _ eq_refl eq_refl []); [now rewrite app_nil_r | cbn; lia]. }
  destruct (verify_once P now req w c U Hchain F Hr Hv Hvalid)
    as (l1 & l2 & c1 & El & Hl1 & Hc1 & ->).
  destruct (verify_active now c Hr Hv) as (c1' & Hc1' & Hid & Hcid & _).
  rewrite Hc1 in Hc1'. injection Hc1' as <-.
  cbn [snd admins auditLogs certificates logCall setAuditLogs setCertificates].
  set (c' := Certificate.written P now _ _).
  assert (Hids : map _id (l1 ++ c' :: l2) = map _id (certificates w)).
  { rewrite El, !map_app. cbn [map]. f_equal. f_equal. exact Hid. }
  assert (Hcids : map certificateId (l1 ++ c' :: l2) = map certificateId (certificates w)).
  { rewrite El, !map_app. cbn [map]. f_equal. f_equal. exact Hcid. }
  split; [reflexivity|].
  split; [eexists; split; [reflexivity | cbn; lia]|].
  split; [exact Hids|]. split; [exact Hcids|].
  split.
  - unfold uniqueIndexes. cbn [certificates logCall setAuditLogs setCertificates].
    rewrite Hids, Hcids. exact U.
  - rewrite El. apply filter_middle.
    + change (certificateId c') with (certificateId c1). rewrite Hcid.
      destruct (find_split _ _ _ F) as (_ & _ & _ & Hfc & _). now rewrite Hfc.
    + destruct (find_split _ _ _ F) as (_ & _ & _ & Hfc & _). now rewrite Hfc.
Qed.

Lemma verifyRoute_frame_witness :
  filter (fun d => negb (String.eqb (certificateId d) "2501001"))
         (certificates
            (snd (verifyRoute Sample.primitives 1736899300000
                    {| params_certificateId := "2501001";
                       query_certificateId := Some "2501001";
                       clientIP := "203.0.113.7" |} Sample.world)))
  = [Sample.revoked; Sample.unverified; Sample.busy].
Proof.
  refine (proj2 (proj2 (proj2 (proj2 (proj2
            (verifyRoute_frame Sample.primitives 1736899300000
               {| params_certificateId := "2501001";
                  query_certificateId := Some "2501001";
                  clientIP := "203.0.113.7" |} Sample.world Sample_uniqueIndexes)))))).
Defined.

End VerifyMore.

(** ** Verifications one after the other *)

Module VerifyMany.
Import certificateSchema certificatesRouter Repeated StoreFacts VerifyFacts VerifyMore.

Lemma toUpperCase_7digits (s : string) :
  Js.test_7digits s = true -> Js.toUpperCase s = s.
Proof.
  intros T.
  destruct (CodecFacts.test_7digits_inv s T)
    as (a & b & c & d & e & f & g & -> & Ha & Hb & Hc & Hd & He & Hf & Hg).
  unfold Js.toUpperCase. cbn [Js.mapChars].
  now rewrite !CodecFacts.upperChar_digit by assumption.
Qed.

Lemma chain_accepts_7digits (certId addr : string) :
  Js.test_7digits certId = true ->
  certificateIdChain {| params_certificateId := certId;
                        query_certificateId := Some certId;
                        clientIP := addr |} = [].
Proof.
  intros T. unfold certificateIdChain. cbn [query_certificateId].
  now rewrite (CodecFacts.canonical_7digits certId T), T.
Qed.

Lemma verifyAll_cons (P : Primitives) (certId : string) (v : Z * string)
    (rest : list (Z * string)) (w w1 : World) (r : Completion Response) :
  verifyRoute P (fst v)
    {| params_certificateId := certId; query_certificateId := Some certId;
       clientIP := snd v |} w = (r, w1) ->
  verifyAll P certId (v :: rest) w =
    (r :: fst (verifyAll P certId rest w1), snd (verifyAll P certId rest w1)).
Proof.
  intros H. cbn [verifyAll]. rewrite H.
  destruct (verifyAll P certId rest w1). reflexivity.
Qed.

(** The IP list [trackAll] leaves only depends on the IP list it starts
    from. *)
Lemma trackAll_ips (visits : list (Z * string)) (d1 d2 : doc) :
  ipAddresses d1 = ipAddresses d2 ->
  ipAddresses (trackAll visits d1) = ipAddresses (trackAll visits d2).
Proof.
  revert d1 d2. induction visits as [|v rest IH]; intros d1 d2 E; [exact E|].
  cbn [trackAll fold_left]. apply IH. cbn [trackIP ipAddresses]. now rewrite E.
Qed.

(** X10.  Verifications that do not overlap add up: after the verify
    route has served, one after the other, [n] requests for an active
    certificate that conforms to the schema, the stored counter has grown by exactly [n], the k-th
    answer reports the initial counter plus [k], the audit trail has
    grown by one SUCCESS entry per request, in order, and the stored IP
    list is the one [trackIP] builds from the visitors' addresses. *)
Theorem verifyAll_counts (P : Primitives) (certId : string)
    (visits : list (Z * string)) (w : World) (c : doc) :
  uniqueIndexes w ->
  Js.test_7digits certId = true ->
  stored certId w = Some c ->
  isRevoked c = false -> isVerified c = true -> conforms c = true ->
  storedCount certId (snd (verifyAll P certId visits w))
    = Some (verificationCount c + Z.of_nat (length visits))
  /\ map reportedCount (fst (verifyAll P certId visits w))
     = map (fun k => Some (JNum (verificationCount c + Z.of_nat k)))
           (seq 1 (length visits))
  /\ auditLogs (snd (verifyAll P certId visits w))
     = (auditLogs w ++
        map (fun v => verifyEntry (fst v)
                        {| params_certificateId := certId;
                           query_certificateId := Some certId;
                           clientIP := snd v |} auditLogSchema.SUCCESS None) visits)%list
  /\ option_map ipAddresses (stored certId (snd (verifyAll P certId visits w)))
     = Some (ipAddresses (trackAll visits c)).
Proof.
  intros U T. revert w c U.
  induction visits as [|[t a] rest IH]; intros w c U F Hr Hv Hconf.
  - cbn [verifyAll fst snd length seq map trackAll fold_left].
    unfold storedCount. rewrite F. cbn [option_map]. rewrite app_nil_r.
    repeat split. f_equal. lia.
  - set (req := {| params_certificateId := certId; query_certificateId := Some certId;
                   clientIP := a |}).
    assert (Hup : Js.toUpperCase (params_certificateId req) = certId)
      by (apply toUpperCase_7digits; exact T).
    assert (F' : stored (Js.toUpperCase (params_certificateId req)) w = Some c)
      by (rewrite Hup; exact F).
    assert (Hvalid : validates c = true).
    { unfold conforms in Hconf. apply andb_prop in Hconf as [Hconf _].
      apply andb_prop in Hconf as [Hconf _]. exact Hconf. }
    destruct (verify_once P t req w c U (chain_accepts_7digits certId a T) F' Hr Hv Hvalid)
      as (l1 & l2 & c1 & El & Hl1 & Hc1 & Hrun).
    destruct (verify_active t c Hr Hv)
      as (c1' & Hc1' & Hid & Hcid & Hcount & _ & Hips & Hr1 & Hv1).
    rewrite Hc1 in Hc1'. injection Hc1' as <-.
    destruct (ConcurrencyFacts.written_tracked P t t a c c1
                (trackedAtomics t a (ipAddresses c)) Hconf Hc1)
      as (_ & _ & _ & _ & Hconf1 & _).
    cbv zeta in Hconf1. cbn [clientIP req] in *.
    set (c' := Certificate.written P t _ (trackIP t a c1)) in *.
    rewrite (verifyAll_cons P certId (t, a) rest w _ _ Hrun).
    set (w1 := logCall AuditLogCreate _).
    assert (Ecerts : certificates w1 = (l1 ++ c' :: l2)%list) by reflexivity.
    assert (U1 : uniqueIndexes w1).
    { destruct U as [U1 U2]. unfold uniqueIndexes. rewrite Ecerts.
      rewrite El in U1, U2. rewrite !map_app in *. cbn [map] in *.
      change (_id c') with (_id c1). change (certificateId c') with (certificateId c1).
      rewrite Hid, Hcid. split; assumption. }
    assert (F1 : stored certId w1 = Some c').
    { unfold stored. rewrite Ecerts. apply find_at.
      - intros x Hx. rewrite <- Hup. now apply Hl1.
      - change (certificateId c') with (certificateId c1). rewrite Hcid.
        destruct (find_split _ _ _ F) as (_ & _ & _ & Hfc & _). exact Hfc. }
    destruct (IH w1 c' U1 F1 Hr1 Hv1 Hconf1) as (Hn & Hrep & Hlog & Hip).
    cbn [fst snd length]. split; [|split; [|split]].
    + rewrite Hn. f_equal.
      change (verificationCount c') with (verificationCount c1). lia.
    + cbn [seq map]. f_equal.
      * cbn. change (verificationCount c') with (verificationCount c1).
        rewrite Hcount. reflexivity.
      * rewrite Hrep, <- (seq_shift (length rest) 1), map_map. apply map_ext. intros k.
        change (verificationCount c') with (verificationCount c1).
        do 2 f_equal. lia.
    + rewrite Hlog. cbn [map fst snd]. subst w1.
      cbn [auditLogs logCall setAuditLogs]. rewrite <- app_assoc. reflexivity.
    + rewrite Hip. f_equal. cbn [trackAll fold_left fst snd].
      apply trackAll_ips. cbn [trackIP ipAddresses].
      change (ipAddresses c') with (trackedIPs t a (ipAddresses c1)).
      now rewrite Hips.
Qed.

Lemma verifyAll_counts_witness :
  storedCount "2501001"
    (snd (verifyAll Sample.primitives "2501001"
            [(1736899300000, "203.0.113.7"); (1736899300500, "203.0.113.8");
             (1736899301000, "203.0.113.7")] Sample.world))
  = Some (0 + 3).
Proof.
  exact (proj1 (verifyAll_counts Sample.primitives "2501001"
                  [(1736899300000, "203.0.113.7"); (1736899300500, "203.0.113.8");
                   (1736899301000, "203.0.113.7")] Sample.world Sample.active
                  Sample_uniqueIndexes eq_refl eq_refl eq_refl eq_refl eq_refl)).
Defined.

(** X11.  The server's virtuals and the form's codec decode an ID the
    same way: for a stored certificate whose ID the codec decodes, the
    [year] and [serialNumber] the server reports are the codec's [year]
    and [serial]. *)
Theorem virtuals_agree_with_codec (d : doc) (p : Codec.ParsedId) :
  Codec.parseCertificateId (certificateId d) = Some p ->
  year d = Codec.year p /\ serialNumber d = Codec.serial p.
Proof.
  intros H. unfold Codec.parseCertificateId in H.
  destruct (Js.test_7digits (certificateId d)); [|discriminate H].
  cbn [negb] in H. injection H as <-. split; reflexivity.
Qed.

Lemma virtuals_agree_with_codec_witness :
  exists p,
    Codec.parseCertificateId (certificateId Sample.active) = Some p
    /\ year Sample.active = Codec.year p
    /\ serialNumber Sample.active = Codec.serial p.
Proof.
  eexists. split; [reflexivity|].
  apply (virtuals_agree_with_codec Sample.active _ eq_refl).
Defined.

End VerifyMany.

(** ** More on revoking *)

Module RevokeMore.
Import certificateSchema adminRouter StoreFacts RevokeFacts.

(** X12.  A revoke request that is turned away leaves the database
    exactly as it was, audit trail included: without an authenticated
    user the answer is 401; with a user whose token lacks the
    [canRevokeCertificates] flag it is 403; with a reason longer than 200
    characters after trimming it is 400.  When the ID is well-formed but
    names no stored certificate the answer is 404 after one lookup, and
    still nothing is written: a failed revoke leaves no audit entry. *)
Theorem revokeRoute_rejections (P : Primitives) (now : Z) (req : Request) (w : World) :
  (user req = None ->
   exists resp, revokeRoute P now req w = (Normal resp, w) /\ statusCode resp = 401)
  /\
  (forall u,
     user req = Some u ->
     match permissions u with
     | Some p => adminSchema.canRevokeCertificates p = false
     | None => True
     end ->
     exists resp, revokeRoute P now req w = (Normal resp, w) /\ statusCode resp = 403)
  /\
  (forall u p r,
     user req = Some u -> permissions u = Some p ->
     adminSchema.canRevokeCertificates p = true ->
     body_reason req = Some r ->
     (200 < String.length (Js.trim r))%nat ->
     exists resp, revokeRoute P now req w = (Normal resp, w) /\ statusCode resp = 400)
  /\
  (forall u p,
     user req = Some u -> permissions u = Some p ->
     adminSchema.canRevokeCertificates p = true ->
     snd (reasonChain req) = [] ->
     fst (Certificate.findById P (params_id req) w) = Normal None ->
     revokeRoute P now req w = (Normal notFoundResponse, logCall CertificateFindById w)).
Proof.
  split; [|split; [|split]].
  - intros Hu. unfold revokeRoute, authorizePermission. rewrite Hu.
    eexists. split; reflexivity.
  - intros u Hu Hp. unfold revokeRoute, authorizePermission. rewrite Hu.
    destruct (permissions u) as [p|].
    + change (adminSchema.permissionFlag "canRevokeCertificates" p)
        with (adminSchema.canRevokeCertificates p).
      rewrite Hp. eexists. split; reflexivity.
    + eexists. split; reflexivity.
  - intros u p r Hu Hp Hflag Hr Hlong. unfold revokeRoute, authorizePermission.
    rewrite Hu, Hp.
    change (adminSchema.permissionFlag "canRevokeCertificates" p)
      with (adminSchema.canRevokeCertificates p).
    rewrite Hflag. unfold reasonChain. rewrite Hr.
    apply Nat.leb_gt in Hlong. rewrite Hlong. cbn [handleValidationErrors].
    eexists. split; reflexivity.
  - intros u p Hu Hp Hflag Hchain Hnone.
    rewrite (revokeRoute_authorized P now req u p Hu Hp Hflag Hchain).
    unfold revokeHandler, tryCatch, bind. unfold Certificate.findById in *.
    destruct (objectId_isValid P (params_id req)); [|discriminate Hnone].
    cbn [fst] in Hnone. injection Hnone as ->. reflexivity.
Qed.

Lemma revokeRoute_rejections_witness :
  exists resp,
    revokeRoute Sample.primitives 1740000000000
      {| params_id := "65a4c0de0000000000000001"; body_reason := Some "duplicate";
         user := None; clientIP := "198.51.100.4" |} Sample.world
    = (Normal resp, Sample.world)
    /\ statusCode resp = 401.
Proof.
  apply (proj1 (revokeRoute_rejections Sample.primitives 1740000000000
                  {| params_id := "65a4c0de0000000000000001";
                     body_reason := Some "duplicate";
                     user := None; clientIP := "198.51.100.4" |} Sample.world)).
  reflexivity.
Defined.

(** One successful revoke, with the shape of the collection before and
    after. *)
Lemma revoke_once (P : Primitives) (now : Z) (req : Request) (w : World)
    (u : User) (p : adminSchema.Permissions) (c : doc) :
  user req = Some u -> permissions u = Some p ->
  adminSchema.canRevokeCertificates p = true ->
  snd (reasonChain req) = [] ->
  uniqueIndexes w ->
  fst (Certificate.findById P (params_id req) w) = Normal (Some c) ->
  isRevoked c = false -> validates c = true ->
  exists l1 l2,
    certificates w = (l1 ++ c :: l2)%list
    /\ revokeRoute P now req w =
         (Normal (revokedResponse
                    (Certificate.written P now Untouched
                       (markRevoked now (fst (reasonChain req)) c))),
          logCall AuditLogCreate
            (setAuditLogs
               (auditLogs w ++
                [revokeEntry now u (clientIP req)
                   (Certificate.written P now Untouched
                      (markRevoked now (fst (reasonChain req)) c))
                   (fst (reasonChain req))])
               (logCall CertificateSave
                  (setCertificates
                     (l1 ++ Certificate.written P now Untouched
                              (markRevoked now (fst (reasonChain req)) c) :: l2)
                     (logCall CertificateFindById w))))).
Proof.
  intros Hu Hp Hflag Hchain [ND _] Hfound Hr Hschema.
  rewrite (revokeRoute_authorized P now req u p Hu Hp Hflag Hchain).
  destruct (findById_found P _ w c Hfound) as [Hvalid F].
  destruct (revokeHandler_revokes P now req w u (fst (reasonChain req)) c
              ND Hvalid F Hr Hschema) as (l1 & l2 & El & _ & Hh).
  exists l1, l2. split; [exact El | exact Hh].
Qed.

(** X13.  Revocation shows everywhere at once: after the admin route has
    revoked a stored certificate that passes the validation of the
    schema, a public verification of its ID is
    answered 410 with the time and the reason of that revocation, the
    existence check answers [exists: false], and a second revoke request
    is answered 400 Already Revoked and writes nothing. *)
Theorem revoked_everywhere (P : Primitives) (now : Z) (req : Request) (w : World)
    (u : User) (p : adminSchema.Permissions) (c : doc) :
  user req = Some u -> permissions u = Some p ->
  adminSchema.canRevokeCertificates p = true ->
  snd (reasonChain req) = [] ->
  uniqueIndexes w ->
  fst (Certificate.findById P (params_id req) w) = Normal (Some c) ->
  isRevoked c = false -> validates c = true ->
  (forall later public,
     certificatesRouter.certificateIdChain public = [] ->
     Js.toUpperCase (certificatesRouter.params_certificateId public) = certificateId c ->
     fst (certificatesRouter.verifyRoute P later public (snd (revokeRoute P now req w)))
     = Normal
         {| statusCode := 410;
            body := JObj [("error", JStr "Revoked");
                          ("message", JStr "This certificate has been revoked");
                          ("verified", JBool false);
                          ("revokedAt", JDate now);
                          ("revocationReason",
                           JStr (match fst (reasonChain req) with
                                 | Some r => r
                                 | None => "No reason provided"
                                 end))] |})
  /\
  (forall public,
     certificatesRouter.params_certificateId public = certificateId c ->
     fst (certificatesRouter.checkHandler public (snd (revokeRoute P now req w)))
     = Normal {| statusCode := 200;
                 body := JObj [("exists", JBool false);
                               ("certificateId", JStr (certificateId c))] |})
  /\
  (forall later,
     revokeRoute P later req (snd (revokeRoute P now req w))
     = (Normal alreadyRevokedResponse,
        logCall CertificateFindById (snd (revokeRoute P now req w)))).
Proof.
  intros Hu Hp Hflag Hchain U Hfound Hr Hschema.
  destruct (revoke_once P now req w u p c Hu Hp Hflag Hchain U Hfound Hr Hschema)
    as (l1 & l2 & El & ->).
  destruct (findById_found P _ w c Hfound) as [Hvalid F].
  destruct (find_split _ _ _ F) as (l1' & l2' & El' & Hc & Hl1').
  set (d := Certificate.written P now Untouched
              (markRevoked now (fst (reasonChain req)) c)).
  cbn [snd]. set (w' := logCall AuditLogCreate _).
  assert (Ecerts : certificates w' = (l1 ++ d :: l2)%list) by reflexivity.
  destruct U as [NDid NDcid]. rewrite El in NDid, NDcid.
  assert (Hstored : certificatesRouter.stored (certificateId c) w' = Some d).
  { unfold certificatesRouter.stored. rewrite Ecerts. apply find_at.
    - intros x Hx. exact (NoDup_key_before certificateId l1 c l2 NDcid x Hx).
    - apply String.eqb_refl. }
  assert (Hbyid : find (fun x => String.eqb (_id x) (params_id req)) (certificates w')
                  = Some d).
  { rewrite Ecerts. apply String.eqb_eq in Hc. apply find_at.
    - intros x Hx. rewrite <- Hc.
      exact (NoDup_key_before _id l1 c l2 NDid x Hx).
    - change (_id d) with (_id c). rewrite Hc. apply String.eqb_refl. }
  split; [|split].
  - intros later public Hpub Hid.
    rewrite (VerifyFacts.verifyRoute_valid P later public Hpub).
    rewrite (VerifyFacts.verifyHandler_revoked P later public w' d).
    + reflexivity.
    + rewrite Hid. exact Hstored.
    + reflexivity.
  - intros public Hid.
    unfold certificatesRouter.checkHandler, tryCatch, bind, Certificate.exists_.
    rewrite Hid, Ecerts.
    assert (E : existsb
                  (fun x => String.eqb (certificateId x) (certificateId c)
                            && Bool.eqb (isRevoked x) false) (l1 ++ d :: l2) = false).
    { rewrite existsb_app. cbn [existsb].
      change (isRevoked d) with true. rewrite andb_false_r. cbn [orb].
      apply orb_false_iff. split.
      - apply Bool.not_true_iff_false. intros X.
        apply existsb_exists in X as (x & Hx & Hm).
        rewrite (NoDup_key_before certificateId l1 c l2 NDcid x Hx) in Hm.
        discriminate Hm.
      - apply Bool.not_true_iff_false. intros X.
        apply existsb_exists in X as (x & Hx & Hm).
        apply andb_prop in Hm as [Hk _]. apply String.eqb_eq in Hk.
        rewrite map_app in NDcid. cbn [map] in NDcid.
        apply NoDup_remove_2 in NDcid. apply NDcid.
        rewrite in_app_iff. right. rewrite <- Hk. now apply in_map. }
    rewrite E. reflexivity.
  - intros later.
    rewrite (revokeRoute_authorized P later req u p Hu Hp Hflag Hchain).
    unfold revokeHandler, tryCatch, bind, Certificate.findById.
    rewrite Hvalid, Hbyid. reflexivity.
Qed.

Lemma revoked_everywhere_witness :
  fst (certificatesRouter.verifyRoute Sample.primitives 1740000500000
         {| certificatesRouter.params_certificateId := "2501001";
            certificatesRouter.query_certificateId := Some "2501001";
            certificatesRouter.clientIP := "203.0.113.7" |}
         (snd (revokeRoute Sample.primitives 1740000000000
                 {| params_id := "65a4c0de0000000000000001";
                    body_reason := Some " issued in error ";
                    user := Some Sample.user; clientIP := "198.51.100.4" |}
                 Sample.world)))
  = Normal
      {| statusCode := 410;
         body := JObj [("error", JStr "Revoked");
                       ("message", JStr "This certificate has been revoked");
                       ("verified", JBool false);
                       ("revokedAt", JDate 1740000000000);
                       ("revocationReason", JStr "issued in error")] |}.
Proof.
  exact (proj1 (revoked_everywhere Sample.primitives 1740000000000
                  {| params_id := "65a4c0de0000000000000001";
                     body_reason := Some " issued in error ";
                     user := Some Sample.user; clientIP := "198.51.100.4" |}
                  Sample.world Sample.user _ Sample.active
                  eq_refl eq_refl eq_refl eq_refl Sample_uniqueIndexes eq_refl eq_refl
                  eq_refl)
               1740000500000
               {| certificatesRouter.params_certificateId := "2501001";
                  certificatesRouter.query_certificateId := Some "2501001";
                  certificatesRouter.clientIP := "203.0.113.7" |}
               eq_refl eq_refl).
Defined.

End RevokeMore.

(** ** More on login *)

Module LoginMore.
Import adminSchema authRouter StoreFacts LoginFacts.

(** X14.  Logins that record nothing: a request whose trimmed username
    is shorter than 3 characters or whose password is shorter than 8 is
    answered 400 without any database call; a request for an inactive
    account that is not locked is answered 403 after the lookup alone,
    whatever the password - no failure is counted and no audit entry is
    written. *)
Theorem login_rejections_record_nothing (P : Primitives) (now : Z) (req : Request)
    (w : World) :
  ((String.length (sanitizedUsername req) < 3)%nat
   \/ (String.length (passwordField req) < 8)%nat ->
   exists resp, loginRoute P now req w = (Normal resp, w) /\ statusCode resp = 400)
  /\
  (forall a,
     loginChains req = [] ->
     find (fun x => String.eqb (username x) (Js.toLowerCase (sanitizedUsername req)))
          (admins w) = Some a ->
     isLocked now a = false -> isActive a = false ->
     loginRoute P now req w = (Normal inactiveResponse, logCall AdminFindOne w)).
Proof.
  split.
  - intros H. unfold loginRoute, handleValidationErrors.
    destruct (loginChains req) eqn:E.
    + exfalso. unfold loginChains in E.
      destruct (Nat.leb_spec 3 (String.length (sanitizedUsername req))),
        (Nat.leb_spec 8 (String.length (passwordField req)));
        cbn in E; try discriminate E. lia.
    + eexists. split; reflexivity.
  - intros a Hchain F L A. rewrite (loginRoute_valid P now req Hchain).
    unfold loginHandler, tryCatch, bind, Admin.findOne. rewrite F, L, A. reflexivity.
Qed.

Lemma login_rejections_record_nothing_witness :
  exists resp,
    loginRoute Sample.primitives (Sample.minutes 1)
      {| body_username := Some "registrar"; body_password := Some "short";
         clientIP := "198.51.100.4" |} Sample.world
    = (Normal resp, Sample.world)
    /\ statusCode resp = 400.
Proof.
  apply (proj1 (login_rejections_record_nothing Sample.primitives (Sample.minutes 1)
                  {| body_username := Some "registrar"; body_password := Some "short";
                     clientIP := "198.51.100.4" |} Sample.world)).
  right. cbn. lia.
Defined.

(** A wrong password on an account that is active and not locked, with
    the database it leaves. *)
Lemma wrong_password_once (P : Primitives) (now : Z) (req : Request) (w : World)
    (a : doc) :
  NoDup (map _id (admins w)) ->
  loginChains req = [] ->
  find (fun x => String.eqb (username x) (Js.toLowerCase (sanitizedUsername req)))
       (admins w) = Some a ->
  isLocked now a = false -> isActive a = true ->
  comparePassword P (passwordField req) a = false ->
  exists l1 l2,
    admins w = (l1 ++ a :: l2)%list
    /\ (forall x, In x l1 ->
          String.eqb (username x) (Js.toLowerCase (sanitizedUsername req)) = false)
    /\ loginRoute P now req w =
         (Normal authenticationFailedResponse,
          logCall AuditLogCreate
            (setAuditLogs
               (auditLogs w ++
                [loginEntry now (clientIP req) None (Some (sanitizedUsername req))
                   auditLogSchema.FAILED (Some "Invalid password")])
               (logCall AdminSave
                  (setAdmins
                     (l1 ++ preSave now (failedLogin now (clientIP req) a) :: l2)
                     (logCall AdminFindOne w))))).
Proof.
  intros ND Hchain F L A C. rewrite (loginRoute_valid P now req Hchain).
  destruct (find_split _ _ _ F) as (l1 & l2 & El & Hc & Hl1).
  exists l1, l2. split; [exact El|]. split; [exact Hl1|].
  unfold loginHandler, tryCatch, bind, Admin.findOne.
  rewrite F, L, A, C. cbn [negb].
  unfold Admin.recordFailedLogin, Admin.save.
  change (admins (logCall AdminFindOne w)) with (admins w).
  rewrite El in ND |- *. rewrite replaceFirst_at; [reflexivity| |].
  - intros x Hx. exact (NoDup_key_before _id l1 a l2 ND x Hx).
  - apply String.eqb_refl.
Qed.







End LoginMore.

(** ** The middleware *)

Module MiddlewareFacts.
Import middleware.

Lemma removeAngles_clean (c : ascii) (s : string) :
  c = "<"%char \/ c = ">"%char -> JsText.hasChar c (JsText.removeAngles s) = false.
Proof.
  intros Hc. induction s as [|x r IH]; [reflexivity|]. cbn [JsText.removeAngles].
  destruct (Ascii.eqb_spec x "<") as [E1 | E1]; cbn [orb]; [exact IH|].
  destruct (Ascii.eqb_spec x ">") as [E2 | E2]; [exact IH|].
  cbn [JsText.hasChar]. rewrite IH.
  destruct (Ascii.eqb_spec x c) as [E | E]; [|reflexivity].
  destruct Hc; subst; contradiction.
Qed.

Lemma removeAngles_fixed (s : string) :
  JsText.hasChar "<" s = false -> JsText.hasChar ">" s = false ->
  JsText.removeAngles s = s.
Proof.
  induction s as [|x r IH]; [reflexivity|]. cbn [JsText.hasChar JsText.removeAngles].
  intros H1 H2. apply orb_false_iff in H1 as [H1 H1'], H2 as [H2 H2'].
  rewrite H1, H2. cbn [orb]. now rewrite IH.
Qed.

Lemma hasChar_sliceTo (c : ascii) (n : nat) (s : string) :
  JsText.hasChar c s = false -> JsText.hasChar c (JsText.sliceTo n s) = false.
Proof.
  unfold JsText.sliceTo. revert n. induction s as [|x r IH]; intros n H.
  - destruct n; reflexivity.
  - cbn [JsText.hasChar] in H. apply orb_false_iff in H as [H1 H2].
    destruct n; [reflexivity|]. cbn [String.substring JsText.hasChar].
    now rewrite H1, IH.
Qed.

Lemma sliceTo_length (n : nat) (s : string) :
  (String.length (JsText.sliceTo n s) <= n)%nat.
Proof.
  unfold JsText.sliceTo. revert n. induction s as [|x r IH]; intros n.
  - destruct n; cbn; lia.
  - destruct n; [cbn; lia|]. cbn [String.substring String.length].
    specialize (IH n). lia.
Qed.

Lemma sliceTo_short (n : nat) (s : string) :
  (String.length s <= n)%nat -> JsText.sliceTo n s = s.
Proof.
  unfold JsText.sliceTo. revert n. induction s as [|x r IH]; intros n H.
  - destruct n; reflexivity.
  - destruct n; [cbn in H; lia|]. cbn [String.substring]. f_equal.
    apply IH. cbn in H. lia.
Qed.

(** X18.  What [sanitizeInput] guarantees: its result contains neither
    [<] nor [>] and has at most 1000 characters; and it changes nothing
    in a string that is already trimmed, free of both characters and no
    longer than 1000. *)
Theorem sanitizeInput_guarantees (input : string) :
  JsText.hasChar "<" (sanitizeInput input) = false
  /\ JsText.hasChar ">" (sanitizeInput input) = false
  /\ (String.length (sanitizeInput input) <= 1000)%nat
  /\ (Js.trim input = input ->
      JsText.hasChar "<" input = false -> JsText.hasChar ">" input = false ->
      (String.length input <= 1000)%nat ->
      sanitizeInput input = input).
Proof.
  unfold sanitizeInput. split; [|split; [|split]].
  - apply hasChar_sliceTo, removeAngles_clean. now left.
  - apply hasChar_sliceTo, removeAngles_clean. now right.
  - apply sliceTo_length.
  - intros Ht H1 H2 Hl. rewrite Ht, (removeAngles_fixed input H1 H2).
    now apply sliceTo_short.
Qed.

Lemma sanitizeInput_guarantees_witness :
  sanitizeInput "Ahmed Hassan" = "Ahmed Hassan".
Proof.
  apply (sanitizeInput_guarantees "Ahmed Hassan"); try reflexivity.
  apply Nat.leb_le. reflexivity.
Defined.

Lemma split_no_separator (sep : ascii) (s : string) :
  JsText.hasChar sep s = false -> JsText.split sep s = [s].
Proof.
  induction s as [|x r IH]; [reflexivity|]. cbn [JsText.hasChar JsText.split].
  intros H. apply orb_false_iff in H as [H1 H2]. now rewrite H1, (IH H2).
Qed.

Lemma split_at_separator (sep : ascii) (a b : string) :
  JsText.hasChar sep a = false ->
  JsText.split sep (a ++ String sep b) = a :: JsText.split sep b.
Proof.
  induction a as [|x r IH]; intros H.
  - cbn [append JsText.split]. now rewrite Ascii.eqb_refl.
  - cbn [JsText.hasChar] in H. apply orb_false_iff in H as [H1 H2].
    cbn [append JsText.split]. now rewrite H1, (IH H2).
Qed.

(** X19.  Which part of the [Authorization] header is the token: the
    text between the first and the second space.  A missing header, or
    one without a space, is answered 401 and the route is not run; the
    word before the first space is never looked at, so any scheme is
    treated like [Bearer], and whatever follows a second space is
    ignored. *)
Theorem authenticateToken_token_position
    (jwt_verify : string -> string -> JwtOutcome) (P : Primitives)
    (next : User -> Db Response) (w : World) :
  (exists resp,
     authenticateToken jwt_verify P None next w = (Normal resp, w)
     /\ statusCode resp = 401)
  /\
  (forall header,
     JsText.hasChar " " header = false ->
     exists resp,
       authenticateToken jwt_verify P (Some header) next w = (Normal resp, w)
       /\ statusCode resp = 401)
  /\
  (forall scheme token rest,
     JsText.hasChar " " scheme = false ->
     JsText.hasChar " " token = false ->
     authenticateToken jwt_verify P (Some (scheme ++ " " ++ token)) next w
     = authenticateToken jwt_verify P (Some ("Bearer " ++ token)) next w
     /\
     authenticateToken jwt_verify P (Some (scheme ++ " " ++ token ++ " " ++ rest)) next w
     = authenticateToken jwt_verify P (Some ("Bearer " ++ token)) next w).
Proof.
  split; [|split].
  - eexists. split; reflexivity.
  - intros header H. unfold authenticateToken, tokenOf.
    rewrite (split_no_separator " " header H). eexists. split; reflexivity.
  - intros scheme token rest Hs Ht.
    assert (B : tokenOf (Some ("Bearer " ++ token)) = Some token).
    { unfold tokenOf.
      change ("Bearer " ++ token) with ("Bearer" ++ String " " token).
      rewrite split_at_separator by reflexivity.
      now rewrite (split_no_separator " " token Ht). }
    assert (S1 : tokenOf (Some (scheme ++ " " ++ token)) = Some token).
    { unfold tokenOf. change (" " ++ token) with (String " " token).
      rewrite (split_at_separator " " scheme token Hs).
      now rewrite (split_no_separator " " token Ht). }
    assert (S2 : tokenOf (Some (scheme ++ " " ++ token ++ " " ++ rest)) = Some token).
    { unfold tokenOf.
      change (" " ++ token ++ " " ++ rest) with (String " " (token ++ String " " rest)).
      rewrite (split_at_separator " " scheme _ Hs).
      now rewrite (split_at_separator " " token rest Ht). }
    unfold authenticateToken. rewrite B, S1, S2. split; reflexivity.
Qed.

Lemma authenticateToken_token_position_witness :
  authenticateToken (fun token _ => if String.eqb token "good" then JwtVerified Sample.user
                                    else JwtInvalid)
    Sample.primitives (Some "Basic good")
    (fun u => ret {| statusCode := 200; body := JStr (username u) |}) Sample.world
  = authenticateToken (fun token _ => if String.eqb token "good" then JwtVerified Sample.user
                                      else JwtInvalid)
      Sample.primitives (Some "Bearer good")
      (fun u => ret {| statusCode := 200; body := JStr (username u) |}) Sample.world.
Proof.
  apply (proj2 (proj2 (authenticateToken_token_position
                         (fun token _ => if String.eqb token "good"
                                         then JwtVerified Sample.user else JwtInvalid)
                         Sample.primitives
                         (fun u => ret {| statusCode := 200; body := JStr (username u) |})
                         Sample.world)) "Basic" "good" ""); reflexivity.
Defined.

End MiddlewareFacts.

(** ** Deleting a certificate *)

Module DeleteFacts.
Import certificateSchema Queries adminCertificates StoreFacts.

Lemma removeFirst_at {A} (sel : A -> bool) (l1 : list A) (c : A) (l2 : list A) :
  (forall x, In x l1 -> sel x = false) -> sel c = true ->
  removeFirst sel (l1 ++ c :: l2) = (l1 ++ l2)%list.
Proof.
  intros Hl1 Hc. induction l1 as [|x r IH]; cbn [app removeFirst].
  - now rewrite Hc.
  - rewrite (Hl1 x (or_introl eq_refl)), IH; [reflexivity|].
    intros y Hy. apply Hl1. now right.
Qed.

Lemma find_none_app {A} (f : A -> bool) (l1 l2 : list A) :
  (forall x, In x l1 -> f x = false) -> (forall x, In x l2 -> f x = false) ->
  find f (l1 ++ l2) = None.
Proof.
  intros H1 H2. destruct (find f (l1 ++ l2)) as [x|] eqn:F; [|reflexivity].
  apply find_some in F as [Hin Hx]. apply in_app_iff in Hin as [Hin | Hin];
    [rewrite (H1 x Hin) in Hx | rewrite (H2 x Hin) in Hx]; discriminate Hx.
Qed.

(** In a list whose keys are pairwise distinct, the documents after [c]
    do not carry [c]'s key either. *)
Lemma NoDup_key_after {A} (key : A -> string) (l1 : list A) (c : A) (l2 : list A) :
  NoDup (map key (l1 ++ c :: l2)) ->
  forall x, In x l2 -> String.eqb (key x) (key c) = false.
Proof.
  intros ND x Hx. apply String.eqb_neq. intros E.
  rewrite map_app in ND. cbn [map] in ND.
  apply NoDup_remove_2 in ND. apply ND.
  rewrite in_app_iff. right. rewrite <- E. now apply in_map.
Qed.

(** X20.  Deleting removes the record and nothing else: for a caller
    whose token holds [canDeleteCertificates] and an ID that names a
    stored certificate, the answer is 200, the collection is the old one
    without that certificate, one DELETE audit entry keeps its ID and
    recipient name; afterwards the unique indexes still hold, a public
    verification of its certificate ID is answered 404, and deleting it
    again is answered 404 with nothing written. *)
Theorem deleteRoute_removes (P : Primitives) (now : Z) (req : DeleteRequest)
    (w : World) (u : User) (p : adminSchema.Permissions) (c : doc) :
  user req = Some u -> permissions u = Some p ->
  adminSchema.canDeleteCertificates p = true ->
  uniqueIndexes w ->
  objectId_isValid P (params_id req) = true ->
  find (fun d => String.eqb (_id d) (params_id req)) (certificates w) = Some c ->
  exists l1 l2 w',
    certificates w = (l1 ++ c :: l2)%list
    /\ deleteRoute P now req w = (Normal deletedResponse, w')
    /\ certificates w' = (l1 ++ l2)%list
    /\ admins w' = admins w
    /\ auditLogs w' = (auditLogs w ++ [deleteEntry now u (clientIP req) c])%list
    /\ uniqueIndexes w'
    /\ (forall later public,
          certificatesRouter.certificateIdChain public = [] ->
          Js.toUpperCase (certificatesRouter.params_certificateId public)
            = certificateId c ->
          fst (certificatesRouter.verifyRoute P later public w')
            = Normal certificatesRouter.notFoundResponse)
    /\ (forall later,
          deleteRoute P later req w' = (Normal adminRouter.notFoundResponse, w')).
Proof.
  intros Hu Hp Hflag [NDid NDcid] Hvalid F.
  destruct (find_split _ _ _ F) as (l1 & l2 & El & Hc & Hl1).
  set (w' := logCall AuditLogCreate
               (setAuditLogs (auditLogs w ++ [deleteEntry now u (clientIP req) c])
                  (setCertificates (l1 ++ l2) w))).
  assert (Hgate : forall t w0,
            deleteRoute P t req w0 = deleteHandler P t req u w0).
  { intros t w0. unfold deleteRoute, authorizePermission. rewrite Hu, Hp.
    change (adminSchema.permissionFlag "canDeleteCertificates" p)
      with (adminSchema.canDeleteCertificates p).
    now rewrite Hflag. }
  rewrite El in NDid, NDcid.
  assert (Hgone : find (fun d => String.eqb (_id d) (params_id req)) (l1 ++ l2) = None).
  { apply String.eqb_eq in Hc. apply find_none_app; intros x Hx; rewrite <- Hc.
    - exact (NoDup_key_before _id l1 c l2 NDid x Hx).
    - exact (NoDup_key_after _id l1 c l2 NDid x Hx). }
  exists l1, l2, w'. split; [exact El|]. split.
  { rewrite Hgate. unfold deleteHandler, tryCatch, bind, findByIdAndDelete.
    rewrite Hvalid, F, El, (removeFirst_at _ l1 c l2 Hl1 Hc). reflexivity. }
  split; [reflexivity|]. split; [reflexivity|]. split; [reflexivity|].
  split.
  { unfold uniqueIndexes. cbn [certificates w' logCall setAuditLogs setCertificates].
    rewrite !map_app in *. cbn [map] in *.
    split; [exact (NoDup_remove_1 _ _ _ NDid) | exact (NoDup_remove_1 _ _ _ NDcid)]. }
  split.
  - intros later public Hpub Hid.
    rewrite (VerifyFacts.verifyRoute_valid P later public Hpub).
    rewrite (VerifyFacts.verifyHandler_notFound P later public w'); [reflexivity|].
    rewrite Hid. unfold certificatesRouter.stored.
    cbn [certificates w' logCall setAuditLogs setCertificates].
    apply find_none_app; intros x Hx.
    + exact (NoDup_key_before certificateId l1 c l2 NDcid x Hx).
    + exact (NoDup_key_after certificateId l1 c l2 NDcid x Hx).
  - intros later. rewrite Hgate.
    unfold deleteHandler, tryCatch, bind, findByIdAndDelete. rewrite Hvalid.
    cbn [certificates w' logCall setAuditLogs setCertificates].
    rewrite Hgone. reflexivity.
Qed.

Lemma deleteRoute_removes_witness :
  exists l1 l2 w',
    certificates Sample.world = (l1 ++ Sample.revoked :: l2)%list
    /\ deleteRoute Sample.primitives 1740000000000
         {| params_id := "65a4c0de0000000000000002";
            user := Some MoreSamples.superUser;
            clientIP := "198.51.100.4" |} Sample.world
       = (Normal deletedResponse, w')
    /\ certificates w' = (l1 ++ l2)%list.
Proof.
  destruct (deleteRoute_removes Sample.primitives 1740000000000
              {| params_id := "65a4c0de0000000000000002";
                 user := Some MoreSamples.superUser;
                 clientIP := "198.51.100.4" |}
              Sample.world MoreSamples.superUser _ Sample.revoked
              eq_refl eq_refl eq_refl Sample_uniqueIndexes eq_refl eq_refl)
    as (l1 & l2 & w' & El & Hrun & Hcerts & _).
  exists l1, l2, w'. repeat split; assumption.
Defined.

End DeleteFacts.

(** ** Analytics *)

Module AnalyticsFacts.
Import certificateSchema Queries adminCertificates.

Lemma insertDesc_perm {A} (key : A -> Z) (x : A) (l : list A) :
  Permutation (insertDesc key x l) (x :: l).
Proof.
  induction l as [|y r IH]; cbn [insertDesc]; [reflexivity|].
  destruct (key y <=? key x); [reflexivity|].
  rewrite IH. apply perm_swap.
Qed.

Lemma sortDesc_perm {A} (key : A -> Z) (l : list A) :
  Permutation (sortDesc key l) l.
Proof.
  induction l as [|x r IH]; cbn [sortDesc fold_right]; [reflexivity|].
  fold (sortDesc key r). rewrite insertDesc_perm. now constructor.
Qed.

Lemma insertDesc_sorted {A} (key : A -> Z) (x : A) (l : list A) :
  Sorted (fun a b => key b <= key a) l ->
  Sorted (fun a b => key b <= key a) (insertDesc key x l).
Proof.
  induction l as [|y r IH]; intros S; cbn [insertDesc].
  - repeat constructor.
  - destruct (Z.leb_spec (key y) (key x)) as [L | L].
    + constructor; [exact S | constructor; exact L].
    + inversion S as [|? ? S' Hd]; subst. constructor; [now apply IH|].
      destruct r as [|z r']; cbn [insertDesc].
      * constructor. lia.
      * destruct (Z.leb_spec (key z) (key x)); constructor; [lia|].
        inversion Hd; subst. assumption.
Qed.

Lemma sortDesc_sorted {A} (key : A -> Z) (l : list A) :
  Sorted (fun a b => key b <= key a) (sortDesc key l).
Proof.
  induction l as [|x r IH]; cbn [sortDesc fold_right]; [constructor|].
  now apply insertDesc_sorted.
Qed.

Lemma total_perm (g1 g2 : list (string * Z)) :
  Permutation g1 g2 -> total g1 = total g2.
Proof.
  unfold total. induction 1; cbn [map fold_right]; lia.
Qed.

Lemma bump_total (k : string) (groups : list (string * Z)) :
  total (bump k groups) = total groups + 1.
Proof.
  unfold total. induction groups as [|[k' n] r IH]; cbn [bump]; [reflexivity|].
  destruct (String.eqb k' k); cbn [map fold_right snd] in *; lia.
Qed.

Lemma bump_keys (k : string) (groups : list (string * Z)) (x : string) :
  In x (map fst (bump k groups)) <-> x = k \/ In x (map fst groups).
Proof.
  induction groups as [|[k' n] r IH]; cbn [bump map fst In].
  - intuition.
  - destruct (String.eqb_spec k' k) as [-> | Hne]; cbn [map fst In];
      [intuition | rewrite IH; intuition].
Qed.

Lemma bump_NoDup (k : string) (groups : list (string * Z)) :
  NoDup (map fst groups) -> NoDup (map fst (bump k groups)).
Proof.
  induction groups as [|[k' n] r IH]; cbn [bump map fst]; intros ND.
  - constructor; [intros [] | constructor].
  - inversion ND as [|? ? Hnot ND']; subst.
    destruct (String.eqb_spec k' k) as [-> | Hne]; cbn [map fst].
    + constructor; assumption.
    + constructor; [|now apply IH].
      rewrite bump_keys. intros [-> | Hin]; [congruence | contradiction].
Qed.

Lemma bump_positive (k : string) (groups : list (string * Z)) :
  Forall (fun g => 1 <= snd g) groups -> Forall (fun g => 1 <= snd g) (bump k groups).
Proof.
  induction groups as [|[k' n] r IH]; cbn [bump]; intros H.
  - repeat constructor. cbn. lia.
  - inversion H as [|? ? Hn Hr]; subst. cbn [snd] in Hn.
    destruct (String.eqb k' k); constructor; cbn [snd]; try lia; auto.
Qed.

Lemma groups_from (l : list doc) (acc : list (string * Z)) :
  NoDup (map fst acc) -> Forall (fun g => 1 <= snd g) acc ->
  total (fold_left (fun groups d => bump (program d) groups) l acc)
    = total acc + Z.of_nat (length l)
  /\ NoDup (map fst (fold_left (fun groups d => bump (program d) groups) l acc))
  /\ Forall (fun g => 1 <= snd g)
            (fold_left (fun groups d => bump (program d) groups) l acc)
  /\ (forall x,
        In x (map fst (fold_left (fun groups d => bump (program d) groups) l acc))
        <-> In x (map fst acc) \/ In x (map program l)).
Proof.
  revert acc. induction l as [|d r IH]; intros acc ND Pos; cbn [fold_left length].
  - split; [cbn; lia|]. split; [exact ND|]. split; [exact Pos|].
    intros x. cbn. tauto.
  - destruct (IH (bump (program d) acc) (bump_NoDup _ _ ND) (bump_positive _ _ Pos))
      as (Ht & Hn & Hp & Hk).
    split; [rewrite Ht, bump_total; lia|]. split; [exact Hn|]. split; [exact Hp|].
    intros x. rewrite Hk, bump_keys. cbn [map In]. intuition.
Qed.

Lemma filter_partition (l : list doc) :
  Z.of_nat (length l)
  = Z.of_nat (length (List.filter (fun d => Bool.eqb (isRevoked d) false) l))
    + Z.of_nat (length (List.filter (fun d => Bool.eqb (isRevoked d) true) l)).
Proof.
  induction l as [|d r IH]; [reflexivity|]. cbn [List.filter length].
  destruct (isRevoked d); cbn [Bool.eqb length]; lia.
Qed.

Lemma firstn_incl {A} (n : nat) (l : list A) (x : A) : In x (firstn n l) -> In x l.
Proof.
  revert l. induction n as [|n IH]; intros [|y r] H; cbn [firstn] in H;
    try contradiction.
  destruct H as [-> | H]; [now left | right; now apply IH].
Qed.

Lemma firstn_sorted {A} (R : A -> A -> Prop) (n : nat) (l : list A) :
  Sorted R l -> Sorted R (firstn n l).
Proof.
  revert n. induction l as [|x r IH]; intros n S.
  - destruct n; constructor.
  - destruct n; [constructor|]. cbn [firstn].
    inversion S as [|? ? S' Hd]; subst. constructor; [now apply IH|].
    destruct r as [|y r']; [destruct n; constructor|].
    destruct n; [constructor|]. cbn [firstn]. inversion Hd; subst. now constructor.
Qed.

Lemma filter_true_all {A} (l : list A) : List.filter (fun _ => true) l = l.
Proof. induction l as [|x r IH]; [reflexivity|]. cbn. now rewrite IH. Qed.

(** X21.  The analytics add up: the handler reads and changes nothing;
    in its answer [active] and [revoked] sum to [total]; the [byProgram]
    list has one group per program that has a non-revoked certificate,
    each with a count of at least 1, ordered by decreasing count, and
    its counts sum to [active]; [recentVerifications] holds at most ten
    entries, all of them successful VERIFY entries of the audit trail,
    newest first. *)
Theorem analytics_add_up (w : World) :
  exists nTotal nActive nVerified nRevoked,
    analyticsHandler w =
      (Normal
         {| statusCode := 200;
            body := JObj [("summary",
                           JObj [("total", JNum nTotal);
                                 ("active", JNum nActive);
                                 ("verified", JNum nVerified);
                                 ("revoked", JNum nRevoked)]);
                          ("byProgram",
                           JArr (map groupToJSON (byProgram (certificates w))));
                          ("recentVerifications",
                           JArr (map leanAuditLog
                                   (recentVerifications (auditLogs w))))] |},
       w)
    /\ nTotal = Z.of_nat (length (certificates w))
    /\ nActive + nRevoked = nTotal
    /\ 0 <= nActive /\ 0 <= nVerified <= nTotal
    /\ total (byProgram (certificates w)) = nActive
    /\ NoDup (map fst (byProgram (certificates w)))
    /\ Forall (fun g => 1 <= snd g) (byProgram (certificates w))
    /\ Sorted (fun a b => snd b <= snd a) (byProgram (certificates w))
    /\ (forall x,
          In x (map fst (byProgram (certificates w)))
          <-> exists d, In d (certificates w) /\ isRevoked d = false /\ program d = x)
    /\ (length (recentVerifications (auditLogs w)) <= 10)%nat
    /\ Forall (fun e => In e (auditLogs w)
                        /\ auditLogSchema.action e = auditLogSchema.VERIFY
                        /\ auditLogSchema.status e = auditLogSchema.SUCCESS)
              (recentVerifications (auditLogs w))
    /\ Sorted (fun a b => auditLogSchema.createdAt b <= auditLogSchema.createdAt a)
              (recentVerifications (auditLogs w)).
Proof.
  set (l := certificates w).
  set (live := List.filter (fun d => Bool.eqb (isRevoked d) false) l).
  exists (Z.of_nat (length (List.filter (fun _ => true) l))),
    (Z.of_nat (length (List.filter (fun _ => true) l))
     - Z.of_nat (length (List.filter (fun d => Bool.eqb (isRevoked d) true) l))),
    (Z.of_nat (length (List.filter (fun d => Bool.eqb (isVerified d) true) l))),
    (Z.of_nat (length (List.filter (fun d => Bool.eqb (isRevoked d) true) l))).
  split; [reflexivity|]. rewrite filter_true_all.
  destruct (groups_from live [] (NoDup_nil _) (Forall_nil _)) as (Ht & Hn & Hp & Hk).
  fold (groupByProgram live) in Ht, Hn, Hp, Hk.
  pose proof (sortDesc_perm snd (groupByProgram live)) as Perm.
  pose proof (filter_partition l) as Part. fold live in Part.
  split; [reflexivity|]. split; [lia|].
  split; [lia|]. split.
  { split; [lia|]. apply inj_le. apply filter_length_le. }
  split.
  { unfold byProgram. fold l live. rewrite (total_perm _ _ Perm), Ht. cbn. lia. }
  split.
  { unfold byProgram. fold l live.
    apply (Permutation_NoDup (l := map fst (groupByProgram live))); [|exact Hn].
    apply Permutation_map. now symmetry. }
  split.
  { unfold byProgram. fold l live.
    apply Forall_forall. intros g Hg. rewrite Forall_forall in Hp. apply Hp.
    eapply Permutation_in; [exact Perm | exact Hg]. }
  split; [apply sortDesc_sorted|].
  split.
  { intros x. unfold byProgram. fold l live. split.
    - intros Hin.
      assert (Hin' : In x (map fst (groupByProgram live))).
      { eapply Permutation_in; [apply Permutation_map; exact Perm | exact Hin]. }
      apply Hk in Hin' as [[] | Hin'].
      apply in_map_iff in Hin' as (d & Hd & Hl). apply filter_In in Hl as [Hl Hr].
      exists d. split; [exact Hl|]. split; [|exact Hd].
      destruct (isRevoked d); [discriminate Hr | reflexivity].
    - intros (d & Hd & Hr & Hprog).
      eapply Permutation_in; [apply Permutation_map; symmetry; exact Perm|].
      apply Hk. right. apply in_map_iff. exists d. split; [exact Hprog|].
      apply filter_In. split; [exact Hd|]. now rewrite Hr. }
  split.
  { unfold recentVerifications. rewrite length_firstn. lia. }
  split.
  { unfold recentVerifications. apply Forall_forall. intros e He.
    apply firstn_incl in He.
    eapply Permutation_in in He; [|apply sortDesc_perm].
    apply filter_In in He as [Hin Hm]. apply andb_prop in Hm as [Ha Hs].
    split; [exact Hin|]. split.
    - unfold auditLogSchema.isAction in Ha.
      destruct (auditLogSchema.action e); try discriminate Ha; reflexivity.
    - destruct (auditLogSchema.status e); [reflexivity | discriminate Hs]. }
  unfold recentVerifications. apply firstn_sorted, sortDesc_sorted.
Qed.

End AnalyticsFacts.

(** ** Trimmed strings and names *)

Module TextFacts.

Lemma trimEnd_cons (c : ascii) (r : string) :
  Js.trimEnd (String c r)
  = match Js.trimEnd r with
    | EmptyString => if Js.isWhiteSpace c then EmptyString else String c EmptyString
    | r' => String c r'
    end.
Proof. reflexivity. Qed.

Lemma trimEnd_idempotent (s : string) : Js.trimEnd (Js.trimEnd s) = Js.trimEnd s.
Proof.
  induction s as [|c r IH]; [reflexivity|]. rewrite (trimEnd_cons c r).
  destruct (Js.trimEnd r) as [|c' r'] eqn:E.
  - destruct (Js.isWhiteSpace c) eqn:W; [reflexivity|].
    rewrite trimEnd_cons. cbn [Js.trimEnd]. now rewrite W.
  - rewrite trimEnd_cons, IH. reflexivity.
Qed.

Lemma trimStart_head (s : string) :
  Js.trimStart s = EmptyString
  \/ exists c r, Js.trimStart s = String c r /\ Js.isWhiteSpace c = false.
Proof.
  induction s as [|c r IH]; [now left|]. cbn [Js.trimStart].
  destruct (Js.isWhiteSpace c) eqn:W; [exact IH|]. right. now exists c, r.
Qed.

Lemma trimEnd_head (c : ascii) (r : string) :
  Js.isWhiteSpace c = false ->
  exists r', Js.trimEnd (String c r) = String c r'.
Proof.
  intros W. rewrite trimEnd_cons. destruct (Js.trimEnd r) as [|c' r'].
  - rewrite W. now exists EmptyString.
  - now exists (String c' r').
Qed.

Lemma trim_idempotent (s : string) : Js.trim (Js.trim s) = Js.trim s.
Proof.
  unfold Js.trim. destruct (trimStart_head s) as [-> | (c & r & -> & W)];
    [reflexivity|].
  destruct (trimEnd_head c r W) as (r' & E).
  rewrite E. cbn [Js.trimStart]. rewrite W, <- E. apply trimEnd_idempotent.
Qed.

Lemma allNameChars_hasChar (c : ascii) (s : string) :
  JsText.isNameChar c = false -> JsText.allNameChars s = true ->
  JsText.hasChar c s = false.
Proof.
  intros Hc. induction s as [|x r IH]; [reflexivity|].
  cbn [JsText.allNameChars JsText.hasChar]. intros H.
  apply andb_prop in H as [Hx Hr]. rewrite (IH Hr).
  destruct (Ascii.eqb_spec x c) as [-> | _]; [congruence | reflexivity].
Qed.

(** A trimmed name of at most 1000 characters goes through
    [sanitizeInput] unchanged. *)
Lemma sanitizeInput_of_name (v : string) :
  Js.trim v = v -> JsText.testName v = true -> (String.length v <= 1000)%nat ->
  middleware.sanitizeInput v = v.
Proof.
  intros Ht Hn Hl. unfold JsText.testName in Hn. apply andb_prop in Hn as [_ Hn].
  unfold middleware.sanitizeInput. rewrite Ht.
  rewrite MiddlewareFacts.removeAngles_fixed.
  - now apply MiddlewareFacts.sliceTo_short.
  - now apply allNameChars_hasChar.
  - now apply allNameChars_hasChar.
Qed.

End TextFacts.

(** ** Searching *)

Module SearchFacts.
Import certificateSchema Queries searchRouter.

Lemma searchRoute_valid (req : Request) (w : World) :
  snd (recipientChain req) = [] -> programChain req = [] ->
  searchRoute req w
  = searchHandler (fst (recipientChain req)) (query_program req) (user req) w.
Proof.
  unfold searchRoute. destruct (recipientChain req) as [recipient errors].
  cbn [fst snd]. intros -> ->. reflexivity.
Qed.

Lemma searchHandler_answer (recipient prog : option string) (u : option User)
    (w : World) :
  searchHandler recipient prog u w
  = (Normal
       {| statusCode := 200;
          body :=
            JObj [("count",
                   JNum (Z.of_nat
                           (length (firstn 20 (List.filter (searchQuery recipient prog u)
                                                 (certificates w))))));
                  ("results",
                   JArr (map leanSearchResult
                           (firstn 20 (List.filter (searchQuery recipient prog u)
                                         (certificates w)))))] |},
     w).
Proof. reflexivity. Qed.

(** X22.  What a search gives away.  A request that passes validation is
    answered 200 and nothing is written; the answer holds at most twenty
    results, counted in [count]; every result is a stored certificate
    that is not revoked and, when a program was asked for, of that
    program; each result shows its [_id], [certificateId], [program] and
    [awardDate] and nothing else. *)
Theorem searchRoute_results (req : Request) (w : World)
    (Hrecipient : snd (recipientChain req) = [])
    (Hprogram : programChain req = []) :
  exists results : list doc,
    searchRoute req w
    = (Normal {| statusCode := 200;
                 body := JObj [("count", JNum (Z.of_nat (length results)));
                               ("results",
                                JArr (map (fun d =>
                                             JObj [("_id", JStr (_id d));
                                                   ("certificateId", JStr (certificateId d));
                                                   ("program", JStr (program d));
                                                   ("awardDate", JDate (awardDate d))])
                                        results))] |},
       w)
    /\ (length results <= 20)%nat
    /\ Forall (fun d =>
                 In d (certificates w)
                 /\ isRevoked d = false
                 /\ (forall p, query_program req = Some p -> program d = p))
              results.
Proof.
  rewrite (searchRoute_valid req w Hrecipient Hprogram), searchHandler_answer.
  exists (firstn 20 (List.filter (searchQuery (fst (recipientChain req))
                                    (query_program req) (user req))
                       (certificates w))).
  split; [reflexivity|]. split; [rewrite length_firstn; lia|].
  apply Forall_forall. intros d Hd. apply AnalyticsFacts.firstn_incl in Hd.
  apply filter_In in Hd as [Hin Hq]. unfold searchQuery in Hq.
  apply andb_prop in Hq as [Hq Hp]. apply andb_prop in Hq as [Hr _].
  split; [exact Hin|]. split.
  - destruct (isRevoked d); [discriminate Hr | reflexivity].
  - intros p Hp'. unfold programChain in Hprogram. rewrite Hp' in Hp, Hprogram.
    destruct p as [|c p]; [discriminate Hprogram|].
    cbn [truthy] in Hp. now apply String.eqb_eq in Hp.
Qed.

(** X23.  Searching by name needs a user on the request.  For a request
    without [req.user] the recipient term changes nothing: the answer is
    the one of the same request without the term.  With a user on the
    request, every result's recipient name contains the trimmed term,
    letter case aside. *)
Theorem search_by_name_needs_user (req : Request) (w : World) (r : string)
    (Hterm : query_recipient req = Some r)
    (Hrecipient : snd (recipientChain req) = [])
    (Hprogram : programChain req = []) :
  (user req = None ->
   searchRoute req w
   = searchRoute {| query_recipient := None;
                    query_program := query_program req;
                    user := None |} w)
  /\ (user req <> None ->
      exists results : list doc,
        searchRoute req w
        = (Normal {| statusCode := 200;
                     body := JObj [("count", JNum (Z.of_nat (length results)));
                                   ("results", JArr (map leanSearchResult results))] |},
           w)
        /\ Forall (fun d =>
                     JsText.includes (Js.toUpperCase (Js.trim r))
                                     (Js.toUpperCase (recipientName d)) = true)
                  results).
Proof.
  split.
  - intros Hu.
    rewrite (searchRoute_valid req w Hrecipient Hprogram).
    rewrite (searchRoute_valid _ w); [|reflexivity | exact Hprogram].
    rewrite !searchHandler_answer. cbn [query_program user]. rewrite Hu.
    replace (List.filter (searchQuery (fst (recipientChain req)) (query_program req) None)
               (certificates w))
      with (List.filter (searchQuery
                           (fst (recipientChain
                                   {| query_recipient := None;
                                      query_program := query_program req;
                                      user := None |}))
                           (query_program req) None) (certificates w));
      [reflexivity|].
    apply filter_ext. intros d. unfold searchQuery.
    destruct (fst (recipientChain req)); reflexivity.
  - intros Hu.
    rewrite (searchRoute_valid req w Hrecipient Hprogram), searchHandler_answer.
    eexists. split; [reflexivity|].
    apply Forall_forall. intros d Hd. apply AnalyticsFacts.firstn_incl in Hd.
    apply filter_In in Hd as [_ Hq]. unfold searchQuery in Hq.
    apply andb_prop in Hq as [Hq _]. apply andb_prop in Hq as [_ Hq].
    unfold recipientChain in Hq, Hrecipient. rewrite Hterm in Hq, Hrecipient.
    cbn [fst snd] in Hq, Hrecipient.
    destruct (user req) as [u|]; [|congruence].
    apply app_eq_nil in Hrecipient as [Hlen Hname].
    destruct ((2 <=? String.length (Js.trim r))%nat
              && (String.length (Js.trim r) <=? 100)%nat) eqn:Hl;
      [|discriminate Hlen].
    destruct (JsText.testName (Js.trim r)) eqn:Hn; [|discriminate Hname].
    apply andb_prop in Hl as [Hmin Hmax].
    apply Nat.leb_le in Hmin. apply Nat.leb_le in Hmax.
    destruct (Js.trim r) as [|c t] eqn:Ht; [cbn in Hmin; lia|].
    cbn [truthy] in Hq. rewrite <- Ht in *.
    rewrite (TextFacts.sanitizeInput_of_name (Js.trim r)) in Hq;
      [exact Hq | apply TextFacts.trim_idempotent | exact Hn | lia].
Qed.

End SearchFacts.

(** ** Searches that are refused *)

Module SearchMore.
Import certificateSchema Queries searchRouter.

Lemma searchRoute_invalid (req : Request) (w : World) :
  (snd (recipientChain req) ++ programChain req)%list <> [] ->
  searchRoute req w
  = (Normal {| statusCode := 400;
               body := JObj [("error", JStr "Validation Failed");
                             ("details",
                              JArr (map validationDetail
                                      (snd (recipientChain req) ++ programChain req)%list))] |},
     w).
Proof.
  unfold searchRoute. destruct (recipientChain req) as [recipient errors].
  cbn [snd]. destruct (errors ++ programChain req)%list; [congruence | reflexivity].
Qed.

Lemma searchRoute_results_witness :
  exists results : list doc,
    searchRoute SearchSamples.byProgram Sample.world
    = (Normal {| statusCode := 200;
                 body := JObj [("count", JNum (Z.of_nat (length results)));
                               ("results",
                                JArr (map (fun d =>
                                             JObj [("_id", JStr (_id d));
                                                   ("certificateId", JStr (certificateId d));
                                                   ("program", JStr (program d));
                                                   ("awardDate", JDate (awardDate d))])
                                        results))] |},
       Sample.world)
    /\ (length results <= 20)%nat
    /\ Forall (fun d =>
                 In d (certificates Sample.world)
                 /\ isRevoked d = false
                 /\ (forall p, query_program SearchSamples.byProgram = Some p ->
                               program d = p))
              results.
Proof.
  apply (SearchFacts.searchRoute_results SearchSamples.byProgram Sample.world);
    reflexivity.
Defined.

Lemma search_by_name_needs_user_witness :
  searchRoute SearchSamples.byName Sample.world
  = searchRoute {| query_recipient := None;
                   query_program := query_program SearchSamples.byName;
                   user := None |} Sample.world.
Proof.
  apply (proj1 (SearchFacts.search_by_name_needs_user SearchSamples.byName
                  Sample.world " hassan " eq_refl eq_refl eq_refl)).
  reflexivity.
Defined.

(** X24.  Searches that are refused.  A request that fails a chain is
    answered 400 with the failures and reads nothing.  A term is refused
    when, trimmed, it has fewer than 2 or more than 100 characters, or a
    character that is no letter, white space, apostrophe or hyphen.  Of
    the programs a certificate may have, every one can be searched for
    but [Other]. *)
Theorem searchRoute_rejections (req : Request) (w : World) :
  ((snd (recipientChain req) <> [] \/ programChain req <> []) ->
   exists details,
     searchRoute req w
     = (Normal {| statusCode := 400;
                  body := JObj [("error", JStr "Validation Failed");
                                ("details", JArr details)] |}, w)
     /\ details <> [])
  /\ (forall r,
        query_recipient req = Some r ->
        ((String.length (Js.trim r) < 2)%nat
         \/ (100 < String.length (Js.trim r))%nat
         \/ JsText.allNameChars (Js.trim r) = false) ->
        snd (recipientChain req) <> [])
  /\ (forall p,
        In p schemaPrograms -> query_program req = Some p ->
        (programChain req = [] <-> p <> "Other")).
Proof.
  split; [|split].
  - intros H.
    assert (E : (snd (recipientChain req) ++ programChain req)%list <> []).
    { intros E. apply app_eq_nil in E. tauto. }
    rewrite (searchRoute_invalid req w E). eexists. split; [reflexivity|].
    intros Hm. apply map_eq_nil in Hm. contradiction.
  - intros r Hr Hbad. unfold recipientChain. rewrite Hr. cbn [snd].
    intros E. apply app_eq_nil in E as [E1 E2].
    destruct ((2 <=? String.length (Js.trim r))%nat
              && (String.length (Js.trim r) <=? 100)%nat) eqn:Hl;
      [|discriminate E1].
    destruct (JsText.testName (Js.trim r)) eqn:Hn; [|discriminate E2].
    apply andb_prop in Hl as [Hmin Hmax].
    apply Nat.leb_le in Hmin. apply Nat.leb_le in Hmax.
    unfold JsText.testName in Hn. apply andb_prop in Hn as [_ Hn].
    destruct Hbad as [Hb | [Hb | Hb]]; [lia | lia | congruence].
  - intros p Hin Hp. unfold programChain. rewrite Hp.
    cbn [schemaPrograms In] in Hin.
    repeat (destruct Hin as [<- | Hin]; [split; [discriminate | reflexivity] |]).
    destruct Hin as [<- | []]. split; [discriminate | congruence].
Qed.

Lemma searchRoute_rejections_witness :
  exists details,
    searchRoute SearchSamples.byOther Sample.world
    = (Normal {| statusCode := 400;
                 body := JObj [("error", JStr "Validation Failed");
                               ("details", JArr details)] |}, Sample.world)
    /\ details <> [].
Proof.
  apply (proj1 (searchRoute_rejections SearchSamples.byOther Sample.world)).
  right. discriminate.
Defined.

End SearchMore.

(** ** Listing *)

Module ListFacts.
Import certificateSchema Queries listRouter.

Lemma isInt_parseInt (min : Z) (max : option Z) (s : string) :
  isInt min max s = true ->
  exists n, Js.parseInt s = Some n /\ min <= n
            /\ match max with Some m => n <= m | None => True end.
Proof.
  unfold isInt. intros H. apply andb_prop in H as [_ H].
  destruct (Js.parseInt s) as [n|]; [|discriminate H].
  apply andb_prop in H as [H1 H2]. exists n. split; [reflexivity|].
  split; [now apply Z.leb_le|]. destruct max; [now apply Z.leb_le | exact I].
Qed.

Lemma isSafeInteger_bounds (n : Z) :
  - MAX_SAFE_INTEGER <= n <= MAX_SAFE_INTEGER -> isSafeInteger n = true.
Proof.
  intros [H1 H2]. unfold isSafeInteger.
  apply andb_true_intro. split; now apply Z.leb_le.
Qed.

Lemma MAX_SAFE_INTEGER_value : MAX_SAFE_INTEGER = 9007199254740991.
Proof. reflexivity. Qed.

Lemma pageChain_page (req : Request) :
  pageChain req = [] ->
  (forall s n, query_page req = Some s -> Js.parseInt s = Some n ->
               (n - 1) * 100 <= MAX_SAFE_INTEGER) ->
  exists page,
    parseIntOr (query_page req) 1 = Some page
    /\ 1 <= page /\ (page - 1) * 100 <= MAX_SAFE_INTEGER
    /\ (query_page req = None -> page = 1).
Proof.
  pose proof MAX_SAFE_INTEGER_value as M.
  unfold pageChain, parseIntOr. destruct (query_page req) as [s|].
  2:{ intros _ _. exists 1. split; [reflexivity|]. split; [lia|]. split; [lia|].
      reflexivity. }
  destruct (isInt 1 None s) eqn:E; [intros _ B | discriminate].
  destruct (isInt_parseInt _ _ _ E) as (n & Hn & Hmin & _).
  specialize (B s n eq_refl Hn). rewrite Hn.
  exists n. split.
  - rewrite isSafeInteger_bounds by lia. destruct n; [lia | reflexivity | lia].
  - split; [exact Hmin|]. split; [exact B | discriminate].
Qed.

Lemma limitChain_limit (req : Request) :
  limitChain req = [] ->
  exists limit,
    parseIntOr (query_limit req) 20 = Some limit
    /\ 1 <= limit <= 100
    /\ (query_limit req = None -> limit = 20).
Proof.
  pose proof MAX_SAFE_INTEGER_value as M.
  unfold limitChain, parseIntOr. destruct (query_limit req) as [s|].
  2:{ intros _. exists 20. split; [reflexivity|]. split; [lia | reflexivity]. }
  destruct (isInt 1 (Some 100) s) eqn:E; [intros _ | discriminate].
  destruct (isInt_parseInt _ _ _ E) as (n & Hn & Hmin & Hmax).
  rewrite Hn. exists n. split.
  - rewrite isSafeInteger_bounds by lia. destruct n; [lia | reflexivity | lia].
  - split; [lia | discriminate].
Qed.

Lemma ceilDiv_bounds (total limit : Z) :
  0 <= total -> 0 < limit ->
  (ceilDiv total limit - 1) * limit < total <= ceilDiv total limit * limit.
Proof.
  intros Ht Hl. unfold ceilDiv.
  pose proof (Z.div_mod (total + limit - 1) limit ltac:(lia)) as D.
  pose proof (Z.mod_pos_bound (total + limit - 1) limit Hl) as B.
  nia.
Qed.

Lemma pageOf_length (skip limit : Z) (l : list doc) :
  0 <= skip -> 0 <= limit ->
  Z.of_nat (length (pageOf skip limit l))
  = Z.min limit (Z.max 0 (Z.of_nat (length l) - skip)).
Proof.
  intros Hs Hl. unfold pageOf. rewrite length_firstn, length_skipn.
  rewrite (Permutation_length (AnalyticsFacts.sortDesc_perm createdAt l)). lia.
Qed.

Lemma skipn_sorted {A} (R : A -> A -> Prop) (n : nat) (l : list A) :
  Sorted R l -> Sorted R (skipn n l).
Proof.
  revert l. induction n as [|n IH]; intros l S; [exact S|].
  destruct l as [|x r]; [constructor|]. cbn [skipn]. apply IH.
  now inversion S.
Qed.

Lemma skipn_incl {A} (n : nat) (l : list A) (x : A) : In x (skipn n l) -> In x l.
Proof.
  revert l. induction n as [|n IH]; intros l H; [exact H|].
  destruct l as [|y r]; [exact H|]. right. now apply IH.
Qed.

(** X25.  Pages of the certificate list.  The role is checked before the
    query: a caller without one of the three roles is answered 401 or
    403 whatever the query says.  For a caller with such a role and a
    query that passes the chains, with a page number small enough for
    the largest [skip], [(page - 1) * 100], to be a safe integer, the
    answer is 200 and nothing is written; [page] is at least 1 (1 when
    absent), [limit] is between 1 and 100 (20 when absent), [total]
    counts the collection and [pages] is the least number of pages of
    [limit] entries that hold [total]; the page holds
    [min(limit, max(0, total - (page - 1) * limit))] stored
    certificates, newest first, without their [ipAddresses]; a page
    beyond the last is empty. *)
Theorem listRoute_pages (beyond : Db Response) (req : Request) (w : World) :
  (user req = None ->
   exists r, listRoute beyond req w = (Normal r, w) /\ statusCode r = 401)
  /\ (forall u, user req = Some u -> ~ In (role u) allowedRoles ->
                exists r, listRoute beyond req w = (Normal r, w) /\ statusCode r = 403)
  /\ (forall u, user req = Some u -> In (role u) allowedRoles ->
      pageChain req = [] -> limitChain req = [] ->
      (forall s n, query_page req = Some s -> Js.parseInt s = Some n ->
                   (n - 1) * 100 <= MAX_SAFE_INTEGER) ->
      exists page limit pages (items : list doc),
        let total := Z.of_nat (length (certificates w)) in
        listRoute beyond req w
        = (Normal {| statusCode := 200;
                     body := JObj [("page", JNum page);
                                   ("limit", JNum limit);
                                   ("total", JNum total);
                                   ("pages", JNum pages);
                                   ("certificates", JArr (map leanWithoutIPs items))] |},
           w)
        /\ 1 <= page /\ (query_page req = None -> page = 1)
        /\ 1 <= limit <= 100 /\ (query_limit req = None -> limit = 20)
        /\ (pages - 1) * limit < total <= pages * limit
        /\ Z.of_nat (length items) = Z.min limit (Z.max 0 (total - (page - 1) * limit))
        /\ (pages < page -> items = [])
        /\ Forall (fun d => In d (certificates w)) items
        /\ Sorted (fun a b => createdAt b <= createdAt a) items
        /\ Forall (fun d => forall v, ~ In ("ipAddresses", v)
                                         match leanWithoutIPs d with
                                         | JObj fields => fields
                                         | _ => []
                                         end) items).
Proof.
  split; [|split].
  - intros Hu. unfold listRoute, middleware.authorizeRole. rewrite Hu.
    eexists. split; reflexivity.
  - intros u Hu Hrole. unfold listRoute, middleware.authorizeRole. rewrite Hu.
    destruct (existsb (String.eqb (role u)) allowedRoles) eqn:E.
    + apply existsb_exists in E as (x & Hx & Ex). apply String.eqb_eq in Ex.
      subst x. contradiction.
    + eexists. split; reflexivity.
  - intros u Hu Hrole Hpage Hlimit Hbound.
    destruct (pageChain_page req Hpage Hbound) as (page & Epage & Hp1 & Hp3 & Hp2).
    destruct (limitChain_limit req Hlimit) as (limit & Elimit & Hl1 & Hl2).
    assert (E : existsb (String.eqb (role u)) allowedRoles = true).
    { apply existsb_exists. exists (role u). split; [exact Hrole|].
      apply String.eqb_refl. }
    assert (Hskip : isSafeInteger ((page - 1) * limit) = true).
    { pose proof MAX_SAFE_INTEGER_value as M. apply isSafeInteger_bounds. nia. }
    exists page, limit,
      (ceilDiv (Z.of_nat (length (certificates w))) limit),
      (pageOf ((page - 1) * limit) limit (certificates w)).
    cbv zeta.
    pose proof (ceilDiv_bounds (Z.of_nat (length (certificates w))) limit
                  ltac:(lia) ltac:(lia)) as Hpages.
    pose proof (pageOf_length ((page - 1) * limit) limit (certificates w)
                  ltac:(nia) ltac:(lia)) as Hlen.
    split.
    { unfold listRoute, middleware.authorizeRole. rewrite Hu, E, Hpage, Hlimit.
      cbn [app handleValidationErrors]. unfold listHandler.
      rewrite Epage, Elimit. cbv zeta. rewrite Hskip.
      unfold tryCatch, bind, ret, countDocuments.
      rewrite AnalyticsFacts.filter_true_all. reflexivity. }
    split; [exact Hp1|]. split; [exact Hp2|]. split; [exact Hl1|].
    split; [exact Hl2|]. split; [exact Hpages|]. split; [exact Hlen|].
    split.
    { intros Hbeyond. apply length_zero_iff_nil. nia. }
    split.
    { apply Forall_forall. intros d Hd. unfold pageOf in Hd.
      apply AnalyticsFacts.firstn_incl, skipn_incl in Hd.
      eapply Permutation_in; [apply AnalyticsFacts.sortDesc_perm | exact Hd]. }
    split.
    { unfold pageOf. apply AnalyticsFacts.firstn_sorted, skipn_sorted,
        AnalyticsFacts.sortDesc_sorted. }
    apply Forall_forall. intros d _ v Hin. cbn [leanWithoutIPs In] in Hin.
    repeat (destruct Hin as [Hin | Hin]; [discriminate Hin|]). exact Hin.
Qed.

Lemma listRoute_pages_witness :
  exists page limit pages (items : list doc),
    let total := Z.of_nat (length (certificates Sample.world)) in
    listRoute (ret fetchFailedResponse) ListSamples.secondPage Sample.world
    = (Normal {| statusCode := 200;
                 body := JObj [("page", JNum page);
                               ("limit", JNum limit);
                               ("total", JNum total);
                               ("pages", JNum pages);
                               ("certificates", JArr (map leanWithoutIPs items))] |},
       Sample.world)
    /\ 1 <= page /\ (query_page ListSamples.secondPage = None -> page = 1)
    /\ 1 <= limit <= 100 /\ (query_limit ListSamples.secondPage = None -> limit = 20)
    /\ (pages - 1) * limit < total <= pages * limit
    /\ Z.of_nat (length items) = Z.min limit (Z.max 0 (total - (page - 1) * limit))
    /\ (pages < page -> items = [])
    /\ Forall (fun d => In d (certificates Sample.world)) items
    /\ Sorted (fun a b => createdAt b <= createdAt a) items
    /\ Forall (fun d => forall v, ~ In ("ipAddresses", v)
                                     match leanWithoutIPs d with
                                     | JObj fields => fields
                                     | _ => []
                                     end) items.
Proof.
  apply (proj2 (proj2 (listRoute_pages (ret fetchFailedResponse)
                         ListSamples.secondPage Sample.world))
           Sample.user eq_refl); [cbn; tauto | reflexivity | reflexivity |].
  intros s n Hs Hn. injection Hs as <-. vm_compute in Hn. injection Hn as <-.
  vm_compute. discriminate.
Defined.

End ListFacts.

(** ** The error handler *)

Module ErrorHandlerFacts.
Import errorHandlerJs.

Lemma knownErrorRules_cases (err : Err) (timestamp : string) :
  (known err = false /\ forall st, knownErrorRules err timestamp st = Normal st)
  \/ (known err = true
      /\ ((exists status response,
             (status = 400 \/ status = 401)
             /\ assoc "message" response <> None
             /\ forall st, knownErrorRules err timestamp st = Normal (status, response))
          \/ exists e, forall st, knownErrorRules err timestamp st = Throw e)).
Proof.
  unfold known, knownErrorRules, andThen, validationRule, duplicateKeyRule, namedRule.
  destruct (hasName err "ValidationError"), (hasCode err 11000),
    (hasName err "JsonWebTokenError"), (hasName err "TokenExpiredError"),
    (hasName err "CastError"), (errors err), (keyPattern err); cbn [orb];
    first [ left; split; [reflexivity | intros st; reflexivity]
          | right; split; [reflexivity|];
            first [ left; eexists; eexists; split; [|split; [|intros st; reflexivity]];
                    [first [left; reflexivity | right; reflexivity] | discriminate]
                  | right; eexists; intros st; reflexivity ] ].
Qed.

Lemma known_withMessage (m : option string) (err : Err) :
  known (withMessage m err) = known err.
Proof. reflexivity. Qed.

Lemma knownErrorRules_withMessage (m : option string) (err : Err) (timestamp : string) st :
  knownErrorRules (withMessage m err) timestamp st = knownErrorRules err timestamp st.
Proof. reflexivity. Qed.

Lemma setMessage_twice (m : string) (a b : json) (timestamp : string) :
  setMessage m [("error", a); ("message", b); ("timestamp", JStr timestamp)]
  = [("error", a); ("message", JStr m); ("timestamp", JStr timestamp)].
Proof. reflexivity. Qed.

(** X26.  What the error handler lets out.  The status of its answer is
    400 or 401 for the errors it knows and [err.statusCode || 500] for
    the others.  In production an answer with status 500 carries the
    fixed message and is the same whatever [err.message] says; for an
    error the handler knows the answer never depends on [err.message].
    Outside production, a 500 answer for an error with a message
    carries that message. *)
Theorem errorHandler_exposure (production : bool) (timestamp : string) (err : Err)
    (r : Response)
    (Hr : errorHandler production timestamp err = Normal r) :
  (if known err then statusCode r = 400 \/ statusCode r = 401
   else statusCode r = numberOr (err_statusCode err) 500)
  /\ (production = true -> statusCode r = 500 ->
      field "message" r = Some (JStr "An error occurred. Please try again later.")
      /\ forall m, errorHandler production timestamp (withMessage m err) = Normal r)
  /\ (known err = true ->
      forall m, errorHandler production timestamp (withMessage m err) = Normal r)
  /\ (production = false -> statusCode r = 500 ->
      forall c s, message err = Some (String c s) ->
                  field "message" r = Some (JStr (String c s))).
Proof.
  unfold errorHandler in *. unfold andThen in *.
  destruct (knownErrorRules_cases err timestamp)
    as [[Hk Hrules] | [Hk [(status & response & Hs & Hm & Hrules) | (e & Hrules)]]].
  - (* no rule applies *)
    rewrite Hk. rewrite Hrules in Hr.
    split.
    { unfold productionRule in Hr. cbn [fst snd] in Hr.
      destruct (production && (numberOr (err_statusCode err) 500 =? 500));
        injection Hr as <-; reflexivity. }
    split.
    { intros -> H500. unfold productionRule in *. cbn [fst snd andb] in *.
      destruct (numberOr (err_statusCode err) 500 =? 500) eqn:E.
      - rewrite setMessage_twice in Hr. injection Hr as <-.
        split; [reflexivity|]. intros m.
        rewrite knownErrorRules_withMessage, Hrules. cbn [fst snd withMessage
          err_statusCode name]. rewrite E, setMessage_twice. reflexivity.
      - injection Hr as <-. cbn [statusCode] in H500. rewrite H500 in E.
        discriminate E. }
    split; [congruence|].
    intros -> H500 c s Hmsg. unfold productionRule in Hr. cbn [andb] in Hr.
    injection Hr as <-. rewrite Hmsg. reflexivity.
  - (* a rule applies *)
    rewrite Hk. rewrite Hrules in Hr. unfold productionRule in Hr. cbn [fst snd] in Hr.
    assert (E : (status =? 500) = false) by (apply Z.eqb_neq; lia).
    rewrite E, andb_false_r in Hr. injection Hr as <-. cbn [statusCode].
    split; [exact Hs|]. split; [lia|]. split; [|lia].
    intros _ m. rewrite knownErrorRules_withMessage, Hrules.
    unfold productionRule. cbn [fst snd]. rewrite E, andb_false_r. reflexivity.
  - rewrite Hrules in Hr. discriminate Hr.
Qed.

Lemma errorHandler_exposure_witness :
  field "message"
    {| statusCode := 500;
       body := JObj [("error", JStr "MongoNetworkError");
                     ("message", JStr "An error occurred. Please try again later.");
                     ("timestamp", JStr "2025-01-15T00:00:00.000Z")] |}
  = Some (JStr "An error occurred. Please try again later.").
Proof.
  apply (proj1 (proj2 (errorHandler_exposure true "2025-01-15T00:00:00.000Z"
                         ErrorSamples.connectionLost _ eq_refl)));
    reflexivity.
Defined.

End ErrorHandlerFacts.

(** ** Logging out and changing the password *)

Module AccountFacts.
Import adminSchema accountRouter StoreFacts.

Lemma changePasswordChains_accept (req : Request) :
  changePasswordChains req = [] ->
  exists current new,
    body_currentPassword req = Some current
    /\ body_newPassword req = Some new
    /\ (8 <= String.length current)%nat
    /\ (8 <= String.length new)%nat
    /\ testStrength new = true
    /\ new <> current.
Proof.
  unfold changePasswordChains. intros H.
  apply app_eq_nil in H as [H1 H]. apply app_eq_nil in H as [H2 H].
  apply app_eq_nil in H as [H3 H4].
  destruct (body_currentPassword req) as [current|];
    [|cbn in H1; discriminate H1].
  destruct (body_newPassword req) as [new|]; [|cbn in H2; discriminate H2].
  cbn [fieldString optionEqb] in *. exists current, new.
  destruct (8 <=? String.length current)%nat eqn:E1; [|discriminate H1].
  destruct (8 <=? String.length new)%nat eqn:E2; [|discriminate H2].
  destruct (testStrength new) eqn:E3; [|discriminate H3].
  destruct (String.eqb_spec new current) as [E4 | E4]; [discriminate H4|].
  apply Nat.leb_le in E1, E2. repeat split; assumption.
Qed.

(** X27.  The routes of the auth router that read [req.user], for a
    request without one.  Changing the password fails: the answer is
    400 when the body does not pass the chains and 500 otherwise, and
    the database is neither read nor written.  Logging out succeeds and
    leaves no entry in the audit trail. *)
Theorem account_routes_without_user (P : Primitives) (bcrypt_hash : string -> string)
    (now : Z) (req : Request) (out : logoutRouter.LogoutRequest) (w : World)
    (Hreq : user req = None) (Hout : logoutRouter.logout_user out = None) :
  (exists r,
     changePasswordRoute P bcrypt_hash now req w = (Normal r, w)
     /\ (changePasswordChains req <> [] -> statusCode r = 400)
     /\ (changePasswordChains req = [] -> r = passwordChangeFailedResponse))
  /\ logoutRouter.logoutRoute now out w
     = (Normal logoutRouter.logoutSuccessfulResponse, w).
Proof.
  split.
  - unfold changePasswordRoute, handleValidationErrors.
    destruct (changePasswordChains req) as [|e errors].
    + unfold changePasswordHandler, tryCatch, bind. rewrite Hreq.
      eexists. split; [reflexivity|]. split; [congruence | reflexivity].
    + eexists. split; [reflexivity|]. split; [reflexivity | discriminate].
  - unfold logoutRouter.logoutRoute, tryCatch, bind. now rewrite Hout.
Qed.

Lemma account_routes_without_user_witness :
  (exists r,
     changePasswordRoute Sample.primitives AccountSamples.bcrypt_hash
       (Sample.minutes 5) AccountSamples.anonymous Sample.world
     = (Normal r, Sample.world)
     /\ (changePasswordChains AccountSamples.anonymous <> [] -> statusCode r = 400)
     /\ (changePasswordChains AccountSamples.anonymous = [] ->
         r = passwordChangeFailedResponse))
  /\ logoutRouter.logoutRoute (Sample.minutes 5)
       {| logoutRouter.logout_user := None;
          logoutRouter.logout_clientIP := "198.51.100.4" |} Sample.world
     = (Normal logoutRouter.logoutSuccessfulResponse, Sample.world).
Proof.
  apply (account_routes_without_user Sample.primitives AccountSamples.bcrypt_hash
           (Sample.minutes 5) AccountSamples.anonymous
           {| logoutRouter.logout_user := None;
              logoutRouter.logout_clientIP := "198.51.100.4" |} Sample.world);
    reflexivity.
Defined.

Lemma isLocked_setPasswordHash (now later : Z) (h : string) (a : doc) :
  isLocked later (preSave now (setPasswordHash h a)) = isLocked later a.
Proof. reflexivity. Qed.



End AccountFacts.

(** ** The verification component against the verify route *)

Module VerifierFacts.
Import CertificateVerifier.

Lemma verifyRequest_refused (P : Primitives) (now : Z) (addr certificateId : string)
    (w : World) :
  certificatesRouter.verifyRoute P now (verifyRequest certificateId addr) w
  = (Normal {| statusCode := 400;
               body := JObj [("error", JStr "Validation Failed");
                             ("details",
                              JArr [JObj [("field", JStr "certificateId");
                                          ("message", JStr "Invalid certificate ID format");
                                          ("value", JStr "")]])] |},
     w).
Proof.
  rewrite VerifyFacts.verifyRoute_invalid; [reflexivity|].
  unfold certificatesRouter.certificateIdChain, verifyRequest.
  cbn [certificatesRouter.query_certificateId]. discriminate.
Qed.

Lemma trim_head (c : ascii) (r : string) :
  Js.isWhiteSpace c = false -> exists r', Js.trim (String c r) = String c r'.
Proof.
  intros W. unfold Js.trim.
  assert (E : Js.trimStart (String c r) = String c r) by (cbn; now rewrite W).
  rewrite E. now apply TextFacts.trimEnd_head.
Qed.

(** X29.  The component and the route do not meet: the component puts
    the ID in the path and sends no query string, while the chain of the
    route validates the query parameter.  Whatever is typed and whatever
    the server stores, a submission that does not start in the success
    state does not end in it and never changes the certificate shown;
    the server looks nothing up and writes nothing, so no verification
    is counted.  For an input of seven digits - an ID the component lets
    through - the route answers 400 and the component ends in the error
    state with its fallback message. *)
Theorem handleSubmit_never_succeeds (P : Primitives) (now : Z) (addr : string)
    (certificateId : string) (v : View) (w : World) :
  (state v <> success ->
   state (fst (handleSubmit P now addr certificateId v w)) <> success)
  /\ certificate (fst (handleSubmit P now addr certificateId v w)) = certificate v
  /\ snd (handleSubmit P now addr certificateId v w) = w
  /\ (Js.test_7digits certificateId = true ->
      fst (handleSubmit P now addr certificateId v w)
      = {| state := error;
           certificate := certificate v;
           errorText := JStr "Failed to verify certificate" |}).
Proof.
  unfold handleSubmit. rewrite verifyRequest_refused.
  destruct (String.eqb (Js.trim certificateId) "") eqn:Hempty.
  - cbn [fst snd setError state certificate].
    split; [intros H; exact H|]. split; [reflexivity|]. split; [reflexivity|].
    intros H7. exfalso.
    apply CodecFacts.test_7digits_inv in H7 as (a & b & c & d & e & f & g & -> & Ha & _).
    destruct (trim_head a
                (String b (String c (String d (String e (String f (String g ""))))))
                (CodecFacts.digit_not_space a Ha)) as (r' & E).
    rewrite E in Hempty. discriminate Hempty.
  - destruct (Js.test_7digits certificateId) eqn:H7; cbn [negb].
    + cbn [statusCode Z.leb Z.ltb andb fst snd body].
      split; [intros _; cbn; discriminate|]. split; [reflexivity|].
      split; [reflexivity|]. intros _. reflexivity.
    + cbn [fst snd setError state certificate].
      split; [intros H; exact H|]. split; [reflexivity|]. split; [reflexivity|].
      discriminate.
Qed.

Lemma handleSubmit_never_succeeds_witness :
  fst (handleSubmit Sample.primitives 1740000000000 "203.0.113.9" "2501001"
         VerifierSamples.fresh Sample.world)
  = {| state := error;
       certificate := JNull;
       errorText := JStr "Failed to verify certificate" |}.
Proof.
  apply (proj2 (proj2 (proj2
           (handleSubmit_never_succeeds Sample.primitives 1740000000000 "203.0.113.9"
              "2501001" VerifierSamples.fresh Sample.world)))).
  reflexivity.
Defined.

End VerifierFacts.
